(** * ReasoningService: the reasoning-provider orchestration layer

    A shallow embedding of [src/services/ReasoningService.ts].

    - JavaScript values (what [res.json()] and [JSON.parse] return, and what
      request bodies are built from) are the inductive type [Value]; property
      access, optional chaining, truthiness and iteration follow the language,
      including the [TypeError]s they raise.
    - The service instance, [window.localStorage], [window.electronAPI] and the
      network form a [World]; every method is a function in the state and
      exception monad [M] over it.  Calls to [fetch] are appended to a trace,
      and the replies come from an oracle indexed by the number of requests
      issued so far.
    - Code of the repository that is imported by the service but is not part of
      the sources at hand (model registry, constants, prompt rendering, retry
      strategy) is gathered in the record [Collaborators] and passed as a
      section variable.
    - Strings are ASCII strings; numbers are rationals. *)

From Stdlib Require Import ZArith QArith Qround String Ascii List Bool Lia.
From stdpp Require Import base option list gmap strings pretty.

Close Scope Q_scope.

(** ** String primitives of the language *)

Module Js.

(** The ASCII members of WhiteSpace and LineTerminator, which [trim] strips. *)
Definition isWhiteSpace (c : ascii) : bool :=
  match c with
  | "009" | "010" | "011" | "012" | "013" | " " => true
  | _ => false
  end%char.

Fixpoint trimStart (s : string) : string :=
  match s with
  | String c s' => if isWhiteSpace c then trimStart s' else s
  | EmptyString => EmptyString
  end.

Definition trimEnd (s : string) : string :=
  String.rev (trimStart (String.rev s)).

Definition trim (s : string) : string := trimEnd (trimStart s).

Definition startsWith (s p : string) : bool := String.prefix p s.

Definition endsWith (s p : string) : bool :=
  String.prefix (String.rev p) (String.rev s).

Fixpoint includes (s p : string) : bool :=
  String.prefix p s ||
  match s with
  | String _ s' => includes s' p
  | EmptyString => false
  end.

Definition lowerChar (c : ascii) : ascii :=
  let n := nat_of_ascii c in
  if (65 <=? n)%nat && (n <=? 90)%nat then ascii_of_nat (n + 32) else c.

Definition upperChar (c : ascii) : ascii :=
  let n := nat_of_ascii c in
  if (97 <=? n)%nat && (n <=? 122)%nat then ascii_of_nat (n - 32) else c.

Fixpoint toLowerCase (s : string) : string :=
  match s with
  | String c s' => String (lowerChar c) (toLowerCase s')
  | EmptyString => EmptyString
  end.

(** [s.charAt(0).toUpperCase() + s.slice(1)] *)
Definition capitalize (s : string) : string :=
  match s with
  | String c s' => String (upperChar c) s'
  | EmptyString => EmptyString
  end.

(** [!s] for a string: only the empty string is falsy. *)
Definition nonEmpty (s : string) : bool :=
  match s with EmptyString => false | _ => true end.

Fixpoint allWhiteSpace (s : string) : bool :=
  match s with
  | String c s' => isWhiteSpace c && allWhiteSpace s'
  | EmptyString => true
  end.

End Js.

(** ** Values, errors and outcomes *)

#[warnings="-register-all"]
Inductive Value : Type :=
| VUndefined
| VNull
| VBool (b : bool)
| VNum (q : Q)
| VStr (s : string)
| VArr (items : list Value)
| VObj (fields : list (string * Value)).

(** [new Error(message)] keeps the value given to the constructor; the text of
    engine-raised errors is not modelled. *)
Inductive JsError : Type :=
| Error (message : Value)
| TypeError
| SyntaxError.

Inductive Outcome (A : Type) : Type :=
| Ok (a : A)
| Throw (e : JsError).
Arguments Ok {A} a.
Arguments Throw {A} e.

#[global] Instance Outcome_ret : MRet Outcome := fun A a => Ok a.
#[global] Instance Outcome_bind : MBind Outcome := fun A B f m =>
  match m with
  | Ok a => f a
  | Throw e => Throw e
  end.

Module Val.

Definition truthy (v : Value) : bool :=
  match v with
  | VUndefined | VNull => false
  | VBool b => b
  | VNum q => negb (Qnum q =? 0)%Z
  | VStr s => Js.nonEmpty s
  | VArr _ | VObj _ => true
  end.

Definition nullish (v : Value) : bool :=
  match v with
  | VUndefined | VNull => true
  | _ => false
  end.

(** [a || b] *)
Definition or (a b : Value) : Value := if truthy a then a else b.

(** [a ?? b] *)
Definition coalesce (a b : Value) : Value := if nullish a then b else a.

(** [v === "s"] *)
Definition isStr (v : Value) (s : string) : bool :=
  match v with
  | VStr t => String.eqb t s
  | _ => false
  end.

Definition isArray (v : Value) : bool :=
  match v with VArr _ => true | _ => false end.

Fixpoint assoc (k : string) (fields : list (string * Value)) : Value :=
  match fields with
  | [] => VUndefined
  | (k', v) :: rest => if String.eqb k k' then v else assoc k rest
  end.

Fixpoint digits (s : string) (acc : N) : option N :=
  match s with
  | EmptyString => Some acc
  | String c s' =>
      match Ascii.is_nat c with
      | Some d => digits s' (10 * acc + N.of_nat d)%N
      | None => None
      end
  end.

(** A property key that is a canonical array index. *)
Definition indexOfKey (k : string) : option nat :=
  match k with
  | EmptyString => None
  | _ =>
      match digits k 0 with
      | Some n => if String.eqb (pretty n) k then Some (N.to_nat n) else None
      | None => None
      end
  end.

Definition chars (s : string) : list Value :=
  (fun c => VStr (String c EmptyString)) <$> list_ascii_of_string s.

(** [v.k] and [v[k]]: own properties of objects, elements and [length] of
    arrays and strings; reading a property of [null] or [undefined] throws. *)
Definition get (v : Value) (k : string) : Outcome Value :=
  match v with
  | VUndefined | VNull => Throw TypeError
  | VBool _ | VNum _ => Ok VUndefined
  | VStr s =>
      if String.eqb k "length" then Ok (VNum (inject_Z (Z.of_nat (String.length s))))
      else match indexOfKey k with
           | Some i => Ok (nth i (chars s) VUndefined)
           | None => Ok VUndefined
           end
  | VArr l =>
      if String.eqb k "length" then Ok (VNum (inject_Z (Z.of_nat (length l))))
      else match indexOfKey k with
           | Some i => Ok (nth i l VUndefined)
           | None => Ok VUndefined
           end
  | VObj fields => Ok (assoc k fields)
  end.

(** [v?.k] and [v?.[k]] *)
Definition optGet (v : Value) (k : string) : Value :=
  match get v k with
  | Ok x => x
  | Throw _ => VUndefined
  end.

(** The elements visited by [for (const x of v)]. *)
Definition iterate (v : Value) : Outcome (list Value) :=
  match v with
  | VArr l => Ok l
  | VStr s => Ok (chars s)
  | _ => Throw TypeError
  end.

(** [v.trim()]: only strings have the method. *)
Definition callTrim (v : Value) : Outcome string :=
  match v with
  | VStr s => Ok (Js.trim s)
  | VUndefined | VNull | VBool _ | VNum _ | VArr _ | VObj _ => Throw TypeError
  end.

End Val.

(** ** The world the service runs in *)

Inductive EndpointType : Type := responses | chat.

#[global] Instance EndpointType_eq_dec : EqDecision EndpointType.
Proof. solve_decision. Defined.

Definition EndpointType_name (t : EndpointType) : string :=
  match t with
  | responses => "responses"
  | chat => "chat"
  end.

(** [ReasoningConfig]: both fields are optional. *)
Record ReasoningConfig : Type := {
  temperature : option Q;
  maxTokens : option Z
}.

(** The envelope the delegated channel answers with. *)
Inductive IpcResult : Type :=
| IpcSuccess (text : string)
| IpcFailure (error : string).

(** [window.electronAPI]: the key getters (which answer a string, [null] or
    [undefined], or reject) and the two delegated reasoning calls. *)
Record ElectronAPI : Type := {
  getKey : string -> Outcome (option string);
  processAnthropicReasoning :
    string -> string -> option string -> ReasoningConfig -> Outcome IpcResult;
  processLocalReasoning :
    string -> string -> option string -> ReasoningConfig -> Outcome IpcResult
}.

Record HttpResponse : Type := {
  status : Z;
  statusText : string;
  body : string
}.

(** [res.ok] *)
Definition ok (res : HttpResponse) : bool :=
  (200 <=? status res)%Z && (status res <=? 299)%Z.

(** What is handed to [fetch]: the URL, the credential header and the request
    body before [JSON.stringify]. *)
Record Request : Type := {
  url : string;
  credential : string * string;
  payload : Value
}.

Record World : Type := {
  (** fields of the service instance *)
  isProcessing : bool;
  apiKeyCache : gmap string string;
  openAiEndpointPreference : gmap string EndpointType;
  (** [window.localStorage], absent outside a browser window *)
  localStorage : option (gmap string string);
  (** [window.electronAPI], absent outside Electron *)
  electronAPI : option ElectronAPI;
  (** the replies of the network to the successive calls of [fetch] *)
  network : nat -> Outcome HttpResponse;
  (** the requests issued so far, latest first *)
  requests : list Request;
  (** the calls made on [window.electronAPI] so far, latest first *)
  ipcCalls : list string
}.

Definition set_isProcessing (b : bool) (w : World) : World :=
  {| isProcessing := b; apiKeyCache := apiKeyCache w;
     openAiEndpointPreference := openAiEndpointPreference w;
     localStorage := localStorage w; electronAPI := electronAPI w;
     network := network w; requests := requests w; ipcCalls := ipcCalls w |}.

Definition set_apiKeyCache (c : gmap string string) (w : World) : World :=
  {| isProcessing := isProcessing w; apiKeyCache := c;
     openAiEndpointPreference := openAiEndpointPreference w;
     localStorage := localStorage w; electronAPI := electronAPI w;
     network := network w; requests := requests w; ipcCalls := ipcCalls w |}.

Definition set_openAiEndpointPreference (p : gmap string EndpointType) (w : World) : World :=
  {| isProcessing := isProcessing w; apiKeyCache := apiKeyCache w;
     openAiEndpointPreference := p;
     localStorage := localStorage w; electronAPI := electronAPI w;
     network := network w; requests := requests w; ipcCalls := ipcCalls w |}.

Definition set_localStorage (l : option (gmap string string)) (w : World) : World :=
  {| isProcessing := isProcessing w; apiKeyCache := apiKeyCache w;
     openAiEndpointPreference := openAiEndpointPreference w;
     localStorage := l; electronAPI := electronAPI w;
     network := network w; requests := requests w; ipcCalls := ipcCalls w |}.

Definition set_requests (r : list Request) (w : World) : World :=
  {| isProcessing := isProcessing w; apiKeyCache := apiKeyCache w;
     openAiEndpointPreference := openAiEndpointPreference w;
     localStorage := localStorage w; electronAPI := electronAPI w;
     network := network w; requests := r; ipcCalls := ipcCalls w |}.

Definition set_ipcCalls (d : list string) (w : World) : World :=
  {| isProcessing := isProcessing w; apiKeyCache := apiKeyCache w;
     openAiEndpointPreference := openAiEndpointPreference w;
     localStorage := localStorage w; electronAPI := electronAPI w;
     network := network w; requests := requests w; ipcCalls := d |}.

(** ** The monad of methods: state and exceptions *)

Definition M (A : Type) : Type := World -> Outcome A * World.

#[global] Instance M_ret : MRet M := fun A a w => (Ok a, w).
#[global] Instance M_bind : MBind M := fun A B f m w =>
  match m w with
  | (Ok a, w') => f a w'
  | (Throw e, w') => (Throw e, w')
  end.

Definition throw {A} (e : JsError) : M A := fun w => (Throw e, w).

(** A computation that cannot touch the world. *)
Definition pure {A} (o : Outcome A) : M A := fun w => (o, w).

Definition gets {A} (f : World -> A) : M A := fun w => (Ok (f w), w).

Definition modify (f : World -> World) : M unit := fun w => (Ok tt, f w).

(** [try { m } catch (error) { h error }] *)
Definition tryCatch {A} (m : M A) (h : JsError -> M A) : M A := fun w =>
  match m w with
  | (Ok a, w') => (Ok a, w')
  | (Throw e, w') => h e w'
  end.

(** [try { m } finally { f }], for an [f] that neither throws nor returns. *)
Definition tryFinally {A} (m : M A) (f : World -> World) : M A := fun w =>
  let '(r, w') := m w in (r, f w').

(** [fetch(url, init)]: the request is recorded and the oracle answers. *)
Definition fetch (r : Request) : M HttpResponse := fun w =>
  (network w (length (requests w)), set_requests (r :: requests w) w).

(** ** Collaborators outside the sources at hand *)

Record RetryStrategy : Type := {
  maxRetries : nat;
  shouldRetry : JsError -> bool
}.

Record TokenLimits : Type := {
  MIN_TOKENS : Z;
  MAX_TOKENS : Z;
  MIN_TOKENS_GEMINI : Z;
  MAX_TOKENS_GEMINI : Z;
  TOKEN_MULTIPLIER : Q
}.

Record ApiEndpoints : Type := {
  OPENAI_BASE : string;
  GEMINI : string;
  GROQ_BASE : string
}.

(** What the service imports from [../models/ModelRegistry], [../config/constants],
    [../utils/retry] and [./BaseReasoningService], and the two JSON builtins. *)
Record Collaborators : Type := {
  (** [JSON.parse], [None] when it throws *)
  JSON_parse : string -> option Value;
  JSON_stringify : Value -> string;
  getModelProvider : string -> string;
  (** whether [getCloudModel(model)?.disableThinking] is truthy *)
  disableThinking : string -> bool;
  getReasoningPrompt : string -> option string -> ReasoningConfig -> string;
  normalizeBaseUrl : string -> string;
  buildApiUrl : string -> string -> string;
  API_ENDPOINTS : ApiEndpoints;
  TOKEN_LIMITS : TokenLimits;
  createApiRetryStrategy : RetryStrategy
}.

(** Modelled from the spec: [calculateMaxTokens] is inherited from
    [BaseReasoningService], which is not among the sources.  The token budget
    is [max(floor, min(ceil(textLength * multiplier), ceiling))]. *)
Definition calculateMaxTokens (textLength minTokens maxTokens : Z) (multiplier : Q) : Z :=
  Z.max minTokens (Z.min (Qceiling (inject_Z textLength * multiplier)%Q) maxTokens).

(** Modelled from the spec: [withRetry] comes from [../utils/retry], which is
    not among the sources.  The call is attempted, and attempted again after a
    failure the strategy classifies as retryable, a bounded number of times;
    the last failure is the one surfaced.  The delays between attempts are not
    modelled. *)
Fixpoint withRetryFrom {A} (fn : M A) (strategy : RetryStrategy) (retriesLeft : nat) : M A :=
  fun w =>
    match fn w with
    | (Ok a, w') => (Ok a, w')
    | (Throw e, w') =>
        match retriesLeft with
        | O => (Throw e, w')
        | S n =>
            if shouldRetry strategy e then withRetryFrom fn strategy n w'
            else (Throw e, w')
        end
    end.

Definition withRetry {A} (fn : M A) (strategy : RetryStrategy) : M A :=
  withRetryFrom fn strategy (maxRetries strategy).

(** The providers that have an API key. *)
Inductive KeyProvider : Type := openai | anthropic | gemini | groq.

Definition KeyProvider_name (p : KeyProvider) : string :=
  match p with
  | openai => "openai"
  | anthropic => "anthropic"
  | gemini => "gemini"
  | groq => "groq"
  end.

Definition OPENAI_ENDPOINT_PREF_STORAGE_KEY : string := "openAiEndpointPreference".

Definition newline : string := String "010" EmptyString.

Definition systemPrompt : string :=
  "You are a dictation assistant. Clean up text by fixing grammar and punctuation. Output ONLY the cleaned text without any explanations, options, or commentary.".

Definition alreadyProcessing : JsError := Error (VStr "Already processing a request").

Definition num (z : Z) : Value := VNum (inject_Z z).

(** [x || 0.3] and [x ?? 0.3] for an optional number. *)
Definition orDefault (x : option Q) (d : Q) : Q :=
  match x with
  | Some t => if (Qnum t =? 0)%Z then d else t
  | None => d
  end.

Definition coalesceDefault (x : option Q) (d : Q) : Q :=
  match x with
  | Some t => t
  | None => d
  end.

(** [config.maxTokens || fallback] *)
Definition maxTokensOr (config : ReasoningConfig) (fallback : Z) : Z :=
  match maxTokens config with
  | Some n => if (n =? 0)%Z then fallback else n
  | None => fallback
  end.

Record EndpointCandidate : Type := {
  candidateUrl : string;
  candidateType : EndpointType
}.

(** ** The service *)

Section Service.

Variable C : Collaborators.

Definition knownNonOpenAIUrls : list string :=
  ["api.groq.com"; "api.anthropic.com"; "generativelanguage.googleapis.com"].

(** [getConfiguredOpenAIBase]: reads the stored override and nothing else. *)
Definition getConfiguredOpenAIBase (w : World) : string :=
  match localStorage w with
  | None => OPENAI_BASE (API_ENDPOINTS C)
  | Some storage =>
      let stored := default "" (storage !! "cloudReasoningBaseUrl") in
      let trimmed := Js.trim stored in
      if negb (Js.nonEmpty trimmed) then OPENAI_BASE (API_ENDPOINTS C)
      else
        let normalized :=
          if Js.nonEmpty (normalizeBaseUrl C trimmed) then normalizeBaseUrl C trimmed
          else OPENAI_BASE (API_ENDPOINTS C) in
        let isKnownNonOpenAI :=
          existsb (fun url => Js.includes normalized url) knownNonOpenAIUrls in
        if isKnownNonOpenAI then OPENAI_BASE (API_ENDPOINTS C)
        else
          let isLocalhost :=
            Js.includes normalized "://localhost" || Js.includes normalized "://127.0.0.1" in
          if negb (Js.startsWith normalized "https://") && negb isLocalhost
          then OPENAI_BASE (API_ENDPOINTS C)
          else normalized
  end.

(** [value === "responses" || value === "chat"] *)
Definition asEndpointType (value : Value) : option EndpointType :=
  if Val.isStr value "responses" then Some responses
  else if Val.isStr value "chat" then Some chat
  else None.

(** [typeof parsed === "object" && parsed !== null] *)
Definition isObjectLike (v : Value) : bool :=
  match v with
  | VArr _ | VObj _ => true
  | _ => false
  end.

(** [getStoredOpenAiPreference]: memory first, then durable storage; a value
    found in storage is copied to memory. *)
Definition getStoredOpenAiPreference (base : string) : M (option EndpointType) := fun w =>
  match openAiEndpointPreference w !! base with
  | Some preference => (Ok (Some preference), w)
  | None =>
      match localStorage w with
      | None => (Ok None, w)
      | Some storage =>
          match storage !! OPENAI_ENDPOINT_PREF_STORAGE_KEY with
          | None => (Ok None, w)
          | Some raw =>
              if negb (Js.nonEmpty raw) then (Ok None, w)
              else
                match JSON_parse C raw with
                | None => (Ok None, w)
                | Some parsed =>
                    if negb (isObjectLike parsed) then (Ok None, w)
                    else
                      match asEndpointType (Val.optGet parsed base) with
                      | Some value =>
                          (Ok (Some value),
                           set_openAiEndpointPreference
                             (<[base := value]> (openAiEndpointPreference w)) w)
                      | None => (Ok None, w)
                      end
                end
          end
      end
  end.

Fixpoint setField (k : string) (x : Value) (fields : list (string * Value))
  : list (string * Value) :=
  match fields with
  | [] => [(k, x)]
  | (k', v) :: rest =>
      if String.eqb k k' then (k, x) :: rest else (k', v) :: setField k x rest
  end.

(** [data[k] = x], as far as [JSON.stringify] can see it afterwards. *)
Definition assign (data : Value) (k : string) (x : Value) : Value :=
  match data with
  | VObj fields => VObj (setField k x fields)
  | VArr l =>
      match Val.indexOfKey k with
      | Some i => VArr (<[i := x]> (l ++ replicate (S i - length l) VUndefined))
      | None => VArr l
      end
  | other => other
  end.

(** [rememberOpenAiPreference]: memory at once, storage as far as possible. *)
Definition rememberOpenAiPreference (base : string) (preference : EndpointType) : M unit :=
  fun w =>
    let w1 := set_openAiEndpointPreference
                (<[base := preference]> (openAiEndpointPreference w)) w in
    match localStorage w1 with
    | None => (Ok tt, w1)
    | Some storage =>
        let parsed :=
          match storage !! OPENAI_ENDPOINT_PREF_STORAGE_KEY with
          | Some raw => if Js.nonEmpty raw then JSON_parse C raw else Some (VObj [])
          | None => Some (VObj [])
          end in
        match parsed with
        | None => (Ok tt, w1)
        | Some parsed =>
            let data := if isObjectLike parsed then parsed else VObj [] in
            let data' := assign data base (VStr (EndpointType_name preference)) in
            (Ok tt,
             set_localStorage
               (Some (<[OPENAI_ENDPOINT_PREF_STORAGE_KEY := JSON_stringify C data']> storage))
               w1)
        end
    end.

(** [getOpenAIEndpointCandidates] *)
Definition getOpenAIEndpointCandidates (base : string) : M (list EndpointCandidate) :=
  let lower := Js.toLowerCase base in
  if Js.endsWith lower "/responses" || Js.endsWith lower "/chat/completions" then
    let type := if Js.endsWith lower "/responses" then responses else chat in
    mret [ {| candidateUrl := base; candidateType := type |} ]
  else
    preference ← getStoredOpenAiPreference base;
    match preference with
    | Some chat =>
        mret [ {| candidateUrl := buildApiUrl C base "/chat/completions";
                  candidateType := chat |} ]
    | _ =>
        mret [ {| candidateUrl := buildApiUrl C base "/responses";
                  candidateType := responses |};
               {| candidateUrl := buildApiUrl C base "/chat/completions";
                  candidateType := chat |} ]
    end.

(** A cached or fetched key counts only when it is truthy. *)
Definition usableKey (k : option string) : bool :=
  match k with
  | Some s => Js.nonEmpty s
  | None => false
  end.

Definition keyGetterName (provider : KeyProvider) : string :=
  match provider with
  | openai => "getOpenAIKey"
  | anthropic => "getAnthropicKey"
  | gemini => "getGeminiKey"
  | groq => "getGroqKey"
  end.

(** [getApiKey] *)
Definition getApiKey (provider : KeyProvider) : M string :=
  cached ← gets (fun w => apiKeyCache w !! KeyProvider_name provider);
  apiKey ←
    (if usableKey cached then mret cached
     else
       tryCatch
         (api ← gets electronAPI;
          match api with
          | None => throw TypeError
          | Some api =>
              modify (fun w => set_ipcCalls (keyGetterName provider :: ipcCalls w) w);;
              fetched ← pure (getKey api (KeyProvider_name provider));
              match fetched with
              | Some k =>
                  if Js.nonEmpty k then
                    modify (fun w =>
                      set_apiKeyCache (<[KeyProvider_name provider := k]> (apiKeyCache w)) w);;
                    mret (Some k)
                  else mret (Some k)
              | None => mret None
              end
          end)
         (fun _ => mret cached));
  match apiKey with
  | Some k =>
      if Js.nonEmpty k then mret k
      else throw (Error (VStr (Js.capitalize (KeyProvider_name provider)
                               +:+ " API key not configured")))
  | None =>
      throw (Error (VStr (Js.capitalize (KeyProvider_name provider)
                          +:+ " API key not configured")))
  end.

Definition message (role content : string) : Value :=
  VObj [("role", VStr role); ("content", VStr content)].

Definition bearer (apiKey : string) : string * string :=
  ("Authorization", "Bearer " +:+ apiKey).

(** [res.json()] *)
Definition json (res : HttpResponse) : Outcome Value :=
  match JSON_parse C (body res) with
  | Some v => Ok v
  | None => Throw SyntaxError
  end.

(** *** The OpenAI driver *)

(** [model && (model.startsWith("gpt-4") || model.startsWith("gpt-3"))] *)
Definition isOlderModel (model : string) : bool :=
  Js.nonEmpty model && (Js.startsWith model "gpt-4" || Js.startsWith model "gpt-3").

Definition openAiRequestBody (type : EndpointType) (model : string) (messages : Value)
    (config : ReasoningConfig) : Value :=
  match type with
  | responses =>
      VObj [("model", VStr model); ("input", messages); ("store", VBool false)]
  | chat =>
      VObj ([("model", VStr model); ("messages", messages)] ++
            (if isOlderModel model
             then [("temperature", VNum (orDefault (temperature config) (3 # 10)))]
             else []))%list
  end.

(** [errorData.error?.message || errorData.message || `OpenAI API error: ${res.status}`],
    where [errorData] is the parsed body, or [{ error: res.statusText }]
    when the body is not JSON. *)
Definition openAiErrorMessage (res : HttpResponse) : Outcome Value :=
  let errorData :=
    match json res with
    | Ok v => v
    | Throw _ => VObj [("error", VStr (statusText res))]
    end in
  e ← Val.get errorData "error";
  m ← Val.get errorData "message";
  mret (Val.or (Val.optGet e "message")
          (Val.or m (VStr ("OpenAI API error: " +:+ pretty (status res))))).

(** How one round of the candidate loop ends, when it does not throw. *)
Inductive Step : Type :=
| Continue (lastError : JsError)
| ReturnJson (res : HttpResponse).

(** The [try { ... } catch (error) { ... }] of the loop body. *)
Definition tryCandidate (openAiBase apiKey model : string) (messages : Value)
    (config : ReasoningConfig) (candidate : EndpointCandidate) : M Step :=
  let type := candidateType candidate in
  tryCatch
    (res ← fetch {| url := candidateUrl candidate;
                    credential := bearer apiKey;
                    payload := openAiRequestBody type model messages config |};
     if negb (ok res) then
       errorMessage ← pure (openAiErrorMessage res);
       let isUnsupportedEndpoint :=
         ((status res =? 404)%Z || (status res =? 405)%Z)
         && bool_decide (type = responses) in
       if isUnsupportedEndpoint then
         rememberOpenAiPreference openAiBase chat;;
         mret (Continue (Error errorMessage))
       else throw (Error errorMessage)
     else
       rememberOpenAiPreference openAiBase type;;
       mret (ReturnJson res))
    (fun error =>
       match type with
       | responses => mret (Continue error)
       | chat => throw error
       end).

(** The function handed to [withRetry]: the loop over the candidates.  The
    promise of [res.json()] is returned without being awaited, so its
    rejection is not seen by the [catch] of the loop body. *)
Fixpoint tryCandidates (openAiBase apiKey model : string) (messages : Value)
    (config : ReasoningConfig) (candidates : list EndpointCandidate)
    (lastError : option JsError) : M Value :=
  match candidates with
  | [] => throw (default (Error (VStr "No OpenAI endpoint responded")) lastError)
  | candidate :: rest =>
      step ← tryCandidate openAiBase apiKey model messages config candidate;
      match step with
      | Continue e => tryCandidates openAiBase apiKey model messages config rest (Some e)
      | ReturnJson res => pure (json res)
      end
  end.

(** [response.output.map((item) => item.type)] *)
Fixpoint outputTypes (items : list Value) : Outcome (list Value) :=
  match items with
  | [] => Ok []
  | item :: rest =>
      t ← Val.get item "type";
      ts ← outputTypes rest;
      mret (t :: ts)
  end.

(** The arguments of the [OPENAI_RAW_RESPONSE] log entry that read
    properties without optional chaining. *)
Definition openAiRawResponseLog (response : Value) : Outcome unit :=
  match Val.optGet response "output" with
  | VArr items => outputTypes items
  | _ => Ok []
  end;;
  Val.get response "usage";;
  mret tt.

(** The inner loop over [item.content]. *)
Fixpoint scanContent (contents : list Value) (responseText : string) : Outcome string :=
  match contents with
  | [] => Ok responseText
  | content :: rest =>
      type ← Val.get content "type";
      if Val.isStr type "output_text" then
        text ← Val.get content "text";
        if Val.truthy text then Val.callTrim text
        else scanContent rest responseText
      else scanContent rest responseText
  end.

(** The loop over [response.output]. *)
Fixpoint scanOutput (items : list Value) (responseText : string) : Outcome string :=
  match items with
  | [] => Ok responseText
  | item :: rest =>
      type ← Val.get item "type";
      if Val.isStr type "message" then
        content ← Val.get item "content";
        if Val.truthy content then
          contents ← Val.iterate content;
          responseText' ← scanContent contents responseText;
          if Js.nonEmpty responseText' then Ok responseText'
          else scanOutput rest responseText'
        else scanOutput rest responseText
      else scanOutput rest responseText
  end.

(** [typeof v === "string" && v.trim()], as the trimmed text when it holds. *)
Definition trimmedString (v : Value) : option string :=
  match v with
  | VStr s => if Js.nonEmpty (Js.trim s) then Some (Js.trim s) else None
  | _ => None
  end.

(** The loop over the parts of an array-valued [content]. *)
Fixpoint scanParts (parts : list Value) (responseText : string) : string :=
  match parts with
  | [] => responseText
  | part :: rest =>
      match trimmedString (Val.optGet part "text") with
      | Some t => t
      | None => scanParts rest responseText
      end
  end.

(** The loop over [response.choices]. *)
Fixpoint scanChoices (choices : list Value) (responseText : string) : string :=
  match choices with
  | [] => responseText
  | choice :: rest =>
      let message := Val.coalesce (Val.optGet choice "message") (Val.optGet choice "delta") in
      let content := Val.optGet message "content" in
      match trimmedString content with
      | Some t => t
      | None =>
          let responseText' :=
            match content with
            | VArr parts => scanParts parts responseText
            | _ => responseText
            end in
          if Js.nonEmpty responseText' then responseText'
          else
            match trimmedString (Val.optGet choice "text") with
            | Some t => t
            | None => scanChoices rest responseText'
            end
      end
  end.

(** The text extracted from a reply, in the order the driver tries the formats. *)
Definition extractOpenAiText (response : Value) : Outcome string :=
  fromOutput ←
    match Val.optGet response "output" with
    | VArr items => scanOutput items ""
    | _ => Ok ""
    end;
  let fromOutputText :=
    if negb (Js.nonEmpty fromOutput) then
      match Val.optGet response "output_text" with
      | VStr s => Js.trim s
      | _ => fromOutput
      end
    else fromOutput in
  mret (if negb (Js.nonEmpty fromOutputText) then
          match Val.optGet response "choices" with
          | VArr choices => scanChoices choices fromOutputText
          | _ => fromOutputText
          end
        else fromOutputText).

(** What the driver does with a reply once [withRetry] has returned it. *)
Definition openAiResult (text : string) (response : Value) : Outcome string :=
  openAiRawResponseLog response;;
  responseText ← extractOpenAiText response;
  mret (if negb (Js.nonEmpty responseText) then text else responseText).

(** [processWithOpenAI].  Its [catch] logs and throws the error on, and is
    left out. *)
Definition processWithOpenAI (text model : string) (agentName : option string)
    (config : ReasoningConfig) : M string :=
  gets isProcessing ≫= λ busy : bool,
  if busy then throw alreadyProcessing
  else
    apiKey ← getApiKey openai;
    modify (set_isProcessing true);;
    tryFinally
      (let userPrompt := getReasoningPrompt C text agentName config in
       let messages := VArr [message "system" systemPrompt; message "user" userPrompt] in
       openAiBase ← gets getConfiguredOpenAIBase;
       endpointCandidates ← getOpenAIEndpointCandidates openAiBase;
       getStoredOpenAiPreference openAiBase;;
       response ← withRetry
                    (tryCandidates openAiBase apiKey model messages config
                       endpointCandidates None)
                    (createApiRetryStrategy C);
       pure (openAiResult text response))
      (set_isProcessing false).

(** *** The chat-completions helper and the Groq driver *)

(** [config.maxTokens || Math.max(4096, this.calculateMaxTokens(...))] *)
Definition chatMaxTokens (text : string) (config : ReasoningConfig) : Z :=
  maxTokensOr config
    (Z.max 4096
       (calculateMaxTokens (Z.of_nat (String.length text))
          (MIN_TOKENS (TOKEN_LIMITS C)) (MAX_TOKENS (TOKEN_LIMITS C))
          (TOKEN_MULTIPLIER (TOKEN_LIMITS C)))).

Definition chatRequestBody (model text : string) (agentName : option string)
    (config : ReasoningConfig) : Value :=
  let userPrompt := getReasoningPrompt C text agentName config in
  let messages := VArr [message "system" systemPrompt; message "user" userPrompt] in
  VObj ([("model", VStr model);
         ("messages", messages);
         ("temperature", VNum (coalesceDefault (temperature config) (3 # 10)));
         ("max_tokens", num (chatMaxTokens text config))] ++
        (if disableThinking C model
         then [("chat_template_kwargs", VObj [("enable_thinking", VBool false)])]
         else []))%list.

(** The error raised for a reply that is not [ok]: the body is parsed, or
    wrapped as [{ error: errorText || res.statusText }]; the message is
    [errorData.error?.message || errorData.message || errorData.error ||
    `${providerName} API error: ${res.status}`]. *)
Definition apiErrorMessage (providerName : string) (res : HttpResponse) : Outcome Value :=
  let errorText := body res in
  let errorData :=
    match JSON_parse C errorText with
    | Some v => v
    | None =>
        VObj [("error", VStr (if Js.nonEmpty errorText then errorText else statusText res))]
    end in
  e ← Val.get errorData "error";
  m ← Val.get errorData "message";
  mret (Val.or (Val.optGet e "message")
          (Val.or m
             (Val.or e (VStr (providerName +:+ " API error: " +:+ pretty (status res)))))).

(** The function handed to [withRetry] by the helper and by the Gemini driver. *)
Definition postJson (providerName : string) (request : Request) : M Value :=
  res ← fetch request;
  if negb (ok res) then
    errorMessage ← pure (apiErrorMessage providerName res);
    throw (Error errorMessage)
  else pure (json res).

(** The text of [choices[0]], or the error for a reply without one. *)
Definition chatCompletionText (providerName : string) (response : Value) : Outcome string :=
  choices ← Val.get response "choices";
  if negb (Val.truthy choices) || negb (Val.truthy (Val.optGet choices "0")) then
    Throw (Error (VStr ("Invalid response structure from " +:+ providerName +:+ " API")))
  else
    let choice := Val.optGet choices "0" in
    message ← Val.get choice "message";
    let content := Val.optGet message "content" in
    responseText ← (if Val.nullish content then Ok "" else Val.callTrim content);
    if negb (Js.nonEmpty responseText) then
      Throw (Error (VStr (providerName +:+ " returned empty response")))
    else Ok responseText.

(** [callChatCompletionsApi] *)
Definition callChatCompletionsApi (endpoint apiKey model text : string)
    (agentName : option string) (config : ReasoningConfig) (providerName : string)
    : M string :=
  response ← withRetry
               (postJson providerName
                  {| url := endpoint;
                     credential := bearer apiKey;
                     payload := chatRequestBody model text agentName config |})
               (createApiRetryStrategy C);
  pure (chatCompletionText providerName response).

(** [processWithGroq] *)
Definition processWithGroq (text model : string) (agentName : option string)
    (config : ReasoningConfig) : M string :=
  gets isProcessing ≫= λ busy : bool,
  if busy then throw alreadyProcessing
  else
    apiKey ← getApiKey groq;
    modify (set_isProcessing true);;
    tryFinally
      (let endpoint := buildApiUrl C (GROQ_BASE (API_ENDPOINTS C)) "/chat/completions" in
       callChatCompletionsApi endpoint apiKey model text agentName config "Groq")
      (set_isProcessing false).

(** *** The Gemini driver *)

(** [config.maxTokens || Math.max(2000, this.calculateMaxTokens(...))] *)
Definition geminiMaxOutputTokens (text : string) (config : ReasoningConfig) : Z :=
  maxTokensOr config
    (Z.max 2000
       (calculateMaxTokens (Z.of_nat (String.length text))
          (MIN_TOKENS_GEMINI (TOKEN_LIMITS C)) (MAX_TOKENS_GEMINI (TOKEN_LIMITS C))
          (TOKEN_MULTIPLIER (TOKEN_LIMITS C)))).

Definition geminiRequestBody (text : string) (agentName : option string)
    (config : ReasoningConfig) : Value :=
  let userPrompt := getReasoningPrompt C text agentName config in
  VObj [("contents",
         VArr [VObj [("parts",
                      VArr [VObj [("text",
                                   VStr (systemPrompt +:+ newline +:+ newline
                                         +:+ userPrompt))]])]]);
        ("generationConfig",
         VObj [("temperature", VNum (orDefault (temperature config) (3 # 10)));
               ("maxOutputTokens", num (geminiMaxOutputTokens text config))])].

Definition geminiTokenLimit : JsError :=
  Error (VStr "Gemini reached token limit before generating response. Try a shorter input or increase max tokens.").

Definition geminiEmpty : JsError := Error (VStr "Gemini returned empty response").

(** [candidate.content?.parts?.[0]?.text] *)
Definition geminiCandidateText (candidate : Value) : Value :=
  Val.optGet (Val.optGet (Val.optGet (Val.optGet candidate "content") "parts") "0") "text".

(** What the driver does with a reply once [withRetry] has returned it. *)
Definition geminiResult (response : Value) : Outcome string :=
  candidates ← Val.get response "candidates";
  if negb (Val.truthy candidates) || negb (Val.truthy (Val.optGet candidates "0")) then
    Throw (Error (VStr "Invalid response structure from Gemini API"))
  else
    let candidate := Val.optGet candidates "0" in
    if negb (Val.truthy (geminiCandidateText candidate)) then
      if Val.isStr (Val.optGet candidate "finishReason") "MAX_TOKENS"
      then Throw geminiTokenLimit
      else Throw geminiEmpty
    else Val.callTrim (geminiCandidateText candidate).

(** [processWithGemini].  Both [catch] blocks log and throw the error on,
    and are left out. *)
Definition processWithGemini (text model : string) (agentName : option string)
    (config : ReasoningConfig) : M string :=
  gets isProcessing ≫= λ busy : bool,
  if busy then throw alreadyProcessing
  else
    apiKey ← getApiKey gemini;
    modify (set_isProcessing true);;
    tryFinally
      (response ← withRetry
                    (postJson "Gemini"
                       {| url := GEMINI (API_ENDPOINTS C) +:+ "/models/" +:+ model
                                 +:+ ":generateContent";
                          credential := ("x-goog-api-key", apiKey);
                          payload := geminiRequestBody text agentName config |})
                    (createApiRetryStrategy C);
       pure (geminiResult response))
      (set_isProcessing false).

(** *** The delegated drivers *)

Definition delegate (channel : string)
    (call : ElectronAPI -> Outcome IpcResult) (unavailable : string) : M string :=
  gets electronAPI ≫= λ api : option ElectronAPI,
  match api with
  | Some api =>
      modify (fun w => set_ipcCalls (channel :: ipcCalls w) w);;
      result ← pure (call api);
      match result with
      | IpcSuccess text => mret text
      | IpcFailure error => throw (Error (VStr error))
      end
  | None => throw (Error (VStr unavailable))
  end.

(** [processWithAnthropic] *)
Definition processWithAnthropic (text model : string) (agentName : option string)
    (config : ReasoningConfig) : M string :=
  delegate "processAnthropicReasoning"
    (fun api => processAnthropicReasoning api text model agentName config)
    "Anthropic reasoning is not available in this environment".

(** [processWithLocal] *)
Definition processWithLocal (text model : string) (agentName : option string)
    (config : ReasoningConfig) : M string :=
  delegate "processLocalReasoning"
    (fun api => processLocalReasoning api text model agentName config)
    "Local reasoning is not available in this environment".

(** *** The orchestrator *)

Definition noModelSelected : JsError := Error (VStr "No reasoning model selected").

Definition unsupportedProvider (provider : string) : JsError :=
  Error (VStr ("Unsupported reasoning provider: " +:+ provider)).

(** [processText].  Its [catch] logs and throws the error on, and is left out. *)
Definition processText (text model : string) (agentName : option string)
    (config : ReasoningConfig) : M string :=
  let trimmedModel := Js.trim model in
  if negb (Js.nonEmpty trimmedModel) then throw noModelSelected
  else
    let provider := getModelProvider C trimmedModel in
    if String.eqb provider "openai" then
      processWithOpenAI text trimmedModel agentName config
    else if String.eqb provider "anthropic" then
      processWithAnthropic text trimmedModel agentName config
    else if String.eqb provider "local" then
      processWithLocal text trimmedModel agentName config
    else if String.eqb provider "gemini" then
      processWithGemini text trimmedModel agentName config
    else if String.eqb provider "groq" then
      processWithGroq text model agentName config
    else throw (unsupportedProvider provider).

End Service.

(** ** Sample collaborators

    Concrete stand-ins for the imported modules, used to run the service on
    examples.  The theorems below hold for every [Collaborators]. *)

Module Sample.

Definition chatReply : string := "{choices:[{message:{content:' Hello. '}}]}".
Definition nullContentReply : string := "{output:[{type:'message',content:[null]}]}".
Definition maxTokensReply : string := "{candidates:[{finishReason:'MAX_TOKENS',content:{}}]}".
Definition chatPreference : string := "{'https://llm.example/v1':'chat'}".

(** [JSON.parse] on the handful of documents the examples use. *)
Definition parse (s : string) : option Value :=
  if String.eqb s "null" then Some VNull
  else if String.eqb s "{}" then Some (VObj [])
  else if String.eqb s chatReply then
    Some (VObj [("choices",
                 VArr [VObj [("message", VObj [("content", VStr " Hello. ")])]])])
  else if String.eqb s nullContentReply then
    Some (VObj [("output",
                 VArr [VObj [("type", VStr "message"); ("content", VArr [VNull])]])])
  else if String.eqb s maxTokensReply then
    Some (VObj [("candidates",
                 VArr [VObj [("finishReason", VStr "MAX_TOKENS"); ("content", VObj [])]])])
  else if String.eqb s chatPreference then
    Some (VObj [("https://llm.example/v1", VStr "chat")])
  else None.

(** [JSON.stringify] on objects whose fields are strings. *)
Fixpoint stringifyFields (fields : list (string * Value)) : string :=
  match fields with
  | [] => ""
  | (k, VStr v) :: rest => "'" +:+ k +:+ "':'" +:+ v +:+ "'," +:+ stringifyFields rest
  | _ :: rest => stringifyFields rest
  end.

Definition stringify (v : Value) : string :=
  match v with
  | VObj fields => "{" +:+ stringifyFields fields +:+ "}"
  | _ => "null"
  end.

Definition modelProvider (model : string) : string :=
  if Js.startsWith model "gpt" then "openai"
  else if Js.startsWith model "claude" then "anthropic"
  else if Js.startsWith model "gemini" then "gemini"
  else if Js.startsWith model "llama" then "groq"
  else if Js.startsWith model "qwen" then "local"
  else "mistral".

(** The two [DEFAULT_PROMPTS], with their placeholders filled in. *)
Definition reasoningPrompt (text : string) (agentName : option string)
    (config : ReasoningConfig) : string :=
  match agentName with
  | Some name =>
      if Js.nonEmpty name then
        "You are " +:+ name +:+ ", a helpful AI assistant. Process and improve the following text, removing any reference to your name from the output:"
        +:+ newline +:+ newline +:+ text +:+ newline +:+ newline +:+ "Improved text:"
      else
        "Process and improve the following text:"
        +:+ newline +:+ newline +:+ text +:+ newline +:+ newline +:+ "Improved text:"
  | None =>
      "Process and improve the following text:"
      +:+ newline +:+ newline +:+ text +:+ newline +:+ newline +:+ "Improved text:"
  end.

Definition collaborators : Collaborators := {|
  JSON_parse := parse;
  JSON_stringify := stringify;
  getModelProvider := modelProvider;
  disableThinking := fun _ => false;
  getReasoningPrompt := reasoningPrompt;
  normalizeBaseUrl := fun s => s;
  buildApiUrl := fun base path => base +:+ path;
  API_ENDPOINTS := {| OPENAI_BASE := "https://api.openai.com/v1";
                      GEMINI := "https://generativelanguage.googleapis.com/v1beta";
                      GROQ_BASE := "https://api.groq.com/openai/v1" |};
  TOKEN_LIMITS := {| MIN_TOKENS := 100; MAX_TOKENS := 2048;
                     MIN_TOKENS_GEMINI := 200; MAX_TOKENS_GEMINI := 8192;
                     TOKEN_MULTIPLIER := 2 |};
  createApiRetryStrategy := {| maxRetries := 3; shouldRetry := fun _ => true |}
|}.

Definition reply (code : Z) (text : string) : Outcome HttpResponse :=
  Ok {| status := code; statusText := ""; body := text |}.

Definition api : ElectronAPI := {|
  getKey := fun _ => Ok (Some "sk-test");
  processAnthropicReasoning := fun text _ _ _ => Ok (IpcSuccess text);
  processLocalReasoning := fun text _ _ _ => Ok (IpcSuccess text)
|}.

(** A fresh service in an Electron window, facing the given network. *)
Definition world (net : nat -> Outcome HttpResponse) : World := {|
  isProcessing := false;
  apiKeyCache := ∅;
  openAiEndpointPreference := ∅;
  localStorage := Some ∅;
  electronAPI := Some api;
  network := net;
  requests := [];
  ipcCalls := []
|}.

Definition noConfig : ReasoningConfig := {| temperature := None; maxTokens := None |}.

(** The same service while another direct call is in flight. *)
Definition busyWorld : World := set_isProcessing true (world (fun _ => reply 200 chatReply)).

Definition idleWorld : World := world (fun _ => reply 200 chatReply).

(** A server that fails once with the given status and then answers. *)
Definition failingOnce (code : Z) : nat -> Outcome HttpResponse := fun n =>
  match n with
  | O => reply code "oops"
  | S _ => reply 200 chatReply
  end.

(** A service configured with a custom base URL. *)
Definition customWorld (base : string) (net : nat -> Outcome HttpResponse) : World :=
  set_localStorage (Some {[ "cloudReasoningBaseUrl" := base ]}) (world net).


Definition lookalikeBase : string := "http://localhost.evil.example/v1".

Definition bothCandidates : list EndpointCandidate :=
  [ {| candidateUrl := "https://api.openai.com/v1/responses"; candidateType := responses |};
    {| candidateUrl := "https://api.openai.com/v1/chat/completions"; candidateType := chat |} ].

End Sample.

(** ** Vocabulary of the properties *)

(** The requests a computation adds to the trace when run from [w]. *)
Definition issuedBy {A} (m : M A) (w : World) : list Request :=
  take (length (requests (m w).2) - length (requests w)) (requests (m w).2).

(** What a computation may change without touching the guard or the network. *)
Definition sameWire (w w' : World) : Prop :=
  isProcessing w' = isProcessing w ∧ network w' = network w ∧ requests w' = requests w.

(** [response.candidates[0]], for a reply that has one. *)
Definition firstCandidate (response : Value) : option Value :=
  match Val.get response "candidates" with
  | Ok candidates =>
      if Val.truthy candidates && Val.truthy (Val.optGet candidates "0")
      then Some (Val.optGet candidates "0")
      else None
  | Throw _ => None
  end.

(** In the words of the spec: a loopback address is a URL whose host, the part
    between "://" and the next "/", ":", "?" or "#", is [localhost] or
    [127.0.0.1].  The source has no such notion; compare [isLocalhost] in
    [getConfiguredOpenAIBase]. *)
Fixpoint afterScheme (s : string) : option string :=
  match s with
  | String ":" (String "/" (String "/" rest)) => Some rest
  | String _ s' => afterScheme s'
  | EmptyString => None
  end.

Fixpoint upToDelimiter (s : string) : string :=
  match s with
  | String c s' =>
      match c with
      | "/" | ":" | "?" | "#" => EmptyString
      | _ => String c (upToDelimiter s')
      end%char
  | EmptyString => EmptyString
  end.

Definition hostOf (url : string) : string :=
  match afterScheme url with
  | Some rest => upToDelimiter rest
  | None => EmptyString
  end.

Definition loopbackAddress_spec (url : string) : bool :=
  String.eqb (hostOf url) "localhost" || String.eqb (hostOf url) "127.0.0.1".

(** Replies in the shape of the responses API: every item of [output] is an
    object, the [content] of a message item is an array of objects, and the
    [text] of an entry is a string when the entry has one. *)
Definition conformingContent (content : Value) : bool :=
  match content with
  | VObj fields =>
      match Val.assoc "text" fields with
      | VStr _ => true
      | other => negb (Val.truthy other)
      end
  | _ => false
  end.

Definition conformingItem (item : Value) : bool :=
  match item with
  | VObj fields =>
      match Val.assoc "content" fields with
      | VArr contents => forallb conformingContent contents
      | other => negb (Val.truthy other)
      end
  | _ => false
  end.

Definition conformingReply (response : Value) : bool :=
  match response with
  | VObj fields =>
      match Val.assoc "output" fields with
      | VArr items => forallb conformingItem items
      | _ => true
      end
  | _ => false
  end.

Ltac unfold_M :=
  unfold mbind, M_bind, mret, M_ret, gets, modify, throw, pure, tryCatch, tryFinally
    in *.

(** ** The rest of the service *)

(** [clearApiKeyCache]: one provider's key, or all of them. *)
Definition clearApiKeyCache (provider : option KeyProvider) : M unit :=
  match provider with
  | Some p =>
      modify (fun w => set_apiKeyCache (delete (KeyProvider_name p) (apiKeyCache w)) w)
  | None => modify (set_apiKeyCache ∅)
  end.

(** [await window.electronAPI?.getXxxKey?.()] *)
Definition probeKey (provider : KeyProvider) : M (option string) :=
  gets electronAPI ≫= λ api : option ElectronAPI,
  match api with
  | Some api =>
      modify (fun w => set_ipcCalls (keyGetterName provider :: ipcCalls w) w);;
      pure (getKey api (KeyProvider_name provider))
  | None => mret None
  end.

(** [await window.electronAPI?.checkLocalReasoningAvailable?.()], where
    [probe] is what the main process answers. *)
Definition probeLocal (probe : Outcome bool) : M bool :=
  gets electronAPI ≫= λ api : option ElectronAPI,
  match api with
  | Some _ =>
      modify (fun w => set_ipcCalls ("checkLocalReasoningAvailable" :: ipcCalls w) w);;
      pure probe
  | None => mret false
  end.

(** [isAvailable] *)
Definition isAvailable (checkLocalReasoningAvailable : Outcome bool) : M bool :=
  tryCatch
    (openaiKey ← probeKey openai;
     anthropicKey ← probeKey anthropic;
     geminiKey ← probeKey gemini;
     groqKey ← probeKey groq;
     localAvailable ← probeLocal checkLocalReasoningAvailable;
     mret (usableKey openaiKey || usableKey anthropicKey || usableKey geminiKey
           || usableKey groqKey || localAvailable))
    (fun _ => mret false).

(** The stored override of the base URL, as far as the service can see it. *)
Definition storedOverride (w : World) : option (option string) :=
  (fun storage : gmap string string => storage !! "cloudReasoningBaseUrl") <$> localStorage w.

(** The object [rememberOpenAiPreference] adds a preference to: the stored
    document when it is an object, an empty object when there is none or it is
    a primitive value.  There is none such when the document cannot be parsed
    or is an array. *)
Definition storedPreferences (C : Collaborators) (storage : gmap string string)
  : option (list (string * Value)) :=
  match storage !! OPENAI_ENDPOINT_PREF_STORAGE_KEY with
  | Some raw =>
      if Js.nonEmpty raw then
        match JSON_parse C raw with
        | Some (VObj fields) => Some fields
        | Some (VArr _) => None
        | Some _ => Some []
        | None => None
        end
      else Some []
  | None => Some []
  end.

(** A computation that leaves the stored override of the base URL alone. *)
Definition keepsOverride {A} (m : M A) : Prop :=
  forall w, storedOverride (m w).2 = storedOverride w.

(** Collaborators whose [JSON.parse] reads back the one document the example
    of a restart writes. *)
Module Restart.

Definition document : string :=
  Sample.stringify (VObj [("https://llm.example/v1", VStr "chat")]).

Definition parse (s : string) : option Value :=
  if String.eqb s document then Some (VObj [("https://llm.example/v1", VStr "chat")])
  else Sample.parse s.

Definition collaborators : Collaborators := {|
  JSON_parse := parse;
  JSON_stringify := Sample.stringify;
  getModelProvider := Sample.modelProvider;
  disableThinking := fun _ => false;
  getReasoningPrompt := Sample.reasoningPrompt;
  normalizeBaseUrl := fun s => s;
  buildApiUrl := fun base path => base +:+ path;
  API_ENDPOINTS := API_ENDPOINTS Sample.collaborators;
  TOKEN_LIMITS := TOKEN_LIMITS Sample.collaborators;
  createApiRetryStrategy := createApiRetryStrategy Sample.collaborators
|}.

(** A world in which the key getter of the main process fails. *)
Definition brokenApi : ElectronAPI := {|
  getKey := fun _ => Throw (Error (VStr "ipc failed"));
  processAnthropicReasoning := fun _ _ _ _ => Ok (IpcFailure "overloaded");
  processLocalReasoning := fun _ _ _ _ => Ok (IpcFailure "no model")
|}.

Definition brokenWorld : World := {|
  isProcessing := false;
  apiKeyCache := ∅;
  openAiEndpointPreference := ∅;
  localStorage := Some ∅;
  electronAPI := Some brokenApi;
  network := fun _ => Sample.reply 200 Sample.chatReply;
  requests := [];
  ipcCalls := []
|}.

End Restart.

(** ** The window manager

    The part of [WindowManager] that decides: the cached panel visibility
    mode, the activation mode, the debounced hotkey callback and the dialog
    shown once.  The window is what the manager asks of it; a method called on
    a destroyed window throws, as Electron has it. *)

Module WindowManager.

Record BrowserWindow : Type := {
  destroyed : bool;
  visible : bool
}.

Record Manager : Type := {
  mainWindow : option BrowserWindow;
  (** [_cachedVisibilityMode], [None] for [null] *)
  cachedVisibilityMode : option string;
  loadErrorShown : bool;
  (** [hotkeyManager.isInListeningMode()] *)
  listeningMode : bool;
  (** the [localStorage] of the renderer, as [executeJavaScript] reads it;
      [Throw] when the call rejects *)
  rendererStorage : Outcome (gmap string string);
  (** the channels of [webContents.send], latest first *)
  sent : list string;
  (** the detail lines of the dialogs shown, latest first *)
  dialogs : list (list string)
}.

Definition set_mainWindow (win : option BrowserWindow) (m : Manager) : Manager :=
  {| mainWindow := win; cachedVisibilityMode := cachedVisibilityMode m;
     loadErrorShown := loadErrorShown m; listeningMode := listeningMode m;
     rendererStorage := rendererStorage m; sent := sent m; dialogs := dialogs m |}.

Definition set_cachedVisibilityMode (mode : option string) (m : Manager) : Manager :=
  {| mainWindow := mainWindow m; cachedVisibilityMode := mode;
     loadErrorShown := loadErrorShown m; listeningMode := listeningMode m;
     rendererStorage := rendererStorage m; sent := sent m; dialogs := dialogs m |}.

Definition set_sent (channels : list string) (m : Manager) : Manager :=
  {| mainWindow := mainWindow m; cachedVisibilityMode := cachedVisibilityMode m;
     loadErrorShown := loadErrorShown m; listeningMode := listeningMode m;
     rendererStorage := rendererStorage m; sent := channels; dialogs := dialogs m |}.

Definition set_dialog (lines : list string) (m : Manager) : Manager :=
  {| mainWindow := mainWindow m; cachedVisibilityMode := cachedVisibilityMode m;
     loadErrorShown := true; listeningMode := listeningMode m;
     rendererStorage := rendererStorage m; sent := sent m;
     dialogs := lines :: dialogs m |}.

(** [localStorage.getItem(key) || fallback], evaluated in the renderer *)
Definition getItemOr (storage : gmap string string) (key fallback : string) : string :=
  match storage !! key with
  | Some v => if Js.nonEmpty v then v else fallback
  | None => fallback
  end.

Definition isMode (mode : string) : bool :=
  String.eqb mode "hidden" || String.eqb mode "transcribing" || String.eqb mode "always".

(** [setCachedVisibilityMode] *)
Definition setCachedVisibilityMode (mode : string) (m : Manager) : Manager :=
  if isMode mode then set_cachedVisibilityMode (Some mode) m else m.

(** [getPanelVisibilityMode] *)
Definition getPanelVisibilityMode (m : Manager) : string * Manager :=
  match cachedVisibilityMode m with
  | Some mode => (mode, m)
  | None =>
      match mainWindow m with
      | None => ("always", m)
      | Some win =>
          if destroyed win then ("always", m)
          else
            match rendererStorage m with
            | Ok storage =>
                let mode := getItemOr storage "panelVisibilityMode" "always" in
                if String.eqb mode "hidden" || String.eqb mode "transcribing"
                then (mode, set_cachedVisibilityMode (Some mode) m)
                else ("always", set_cachedVisibilityMode (Some "always") m)
            | Throw _ => ("always", m)
            end
      end
  end.

(** [getActivationMode] *)
Definition getActivationMode (m : Manager) : string :=
  match mainWindow m with
  | None => "tap"
  | Some win =>
      if destroyed win then "tap"
      else
        match rendererStorage m with
        | Ok storage =>
            if String.eqb (getItemOr storage "activationMode" "tap") "push" then "push"
            else "tap"
        | Throw _ => "tap"
        end
  end.

(** [this.mainWindow.show()], after [!this.mainWindow.isVisible()] *)
Definition showIfHidden (m : Manager) : Outcome unit * Manager :=
  match mainWindow m with
  | None => (Throw TypeError, m)
  | Some win =>
      if destroyed win then (Throw TypeError, m)
      else if visible win then (Ok tt, m)
      else (Ok tt, set_mainWindow (Some {| destroyed := false; visible := true |}) m)
  end.

(** [this.mainWindow.webContents.send(channel)] *)
Definition send (channel : string) (m : Manager) : Outcome unit * Manager :=
  match mainWindow m with
  | None => (Throw TypeError, m)
  | Some win =>
      if destroyed win then (Throw TypeError, m)
      else (Ok tt, set_sent (channel :: sent m) m)
  end.

Definition DEBOUNCE_MS : Z := 150.

(** The callback made by [createHotkeyCallback], called at time [now] with
    [lastToggleTime] as the closure holds it; the new [lastToggleTime] is
    answered with the manager. *)
Definition hotkeyCallback (now lastToggleTime : Z) (m : Manager)
  : Outcome unit * (Z * Manager) :=
  if listeningMode m then (Ok tt, (lastToggleTime, m))
  else if (now - lastToggleTime <? DEBOUNCE_MS)%Z then (Ok tt, (lastToggleTime, m))
  else
    let '(mode, m1) := getPanelVisibilityMode m in
    let '(shown, m2) :=
      if negb (String.eqb mode "hidden") then showIfHidden m1 else (Ok tt, m1) in
    match shown with
    | Ok _ => let '(r, m3) := send "toggle-dictation" m2 in (r, (now, m3))
    | Throw e => (Throw e, (now, m2))
    end.

(** [sendStartDictation] *)
Definition sendStartDictation (m : Manager) : Outcome unit * Manager :=
  if listeningMode m then (Ok tt, m)
  else
    match mainWindow m with
    | None => (Ok tt, m)
    | Some win =>
        if destroyed win then (Ok tt, m)
        else
          let '(mode, m1) := getPanelVisibilityMode m in
          let '(shown, m2) :=
            if negb (String.eqb mode "hidden") then showIfHidden m1 else (Ok tt, m1) in
          match shown with
          | Ok _ => send "start-dictation" m2
          | Throw e => (Throw e, m2)
          end
    end.

(** [showLoadFailureDialog]; an empty [validatedURL] is falsy. *)
Definition showLoadFailureDialog (windowName : string) (errorCode : Z)
    (errorDescription validatedURL : string) (m : Manager) : Manager :=
  if loadErrorShown m then m
  else
    set_dialog
      (["Window: " +:+ windowName;
        "Error " +:+ pretty errorCode +:+ ": " +:+ errorDescription] ++
       (if Js.nonEmpty validatedURL then ["URL: " +:+ validatedURL] else []) ++
       ["Try reinstalling the app or launching with --log-level=debug."])%list
      m.

(** A manager as the constructor leaves it, with a window that is hidden. *)
Definition fresh (storage : Outcome (gmap string string)) : Manager := {|
  mainWindow := Some {| destroyed := false; visible := false |};
  cachedVisibilityMode := None;
  loadErrorShown := false;
  listeningMode := false;
  rendererStorage := storage;
  sent := [];
  dialogs := []
|}.

End WindowManager.

(** ** Vocabulary of the replies the drivers read *)

(** [response.choices[0]], for a reply that has one. *)
Definition firstChoice (response : Value) : option Value :=
  match Val.get response "choices" with
  | Ok choices =>
      if Val.truthy choices && Val.truthy (Val.optGet choices "0")
      then Some (Val.optGet choices "0")
      else None
  | Throw _ => None
  end.

(** [choice.message?.content] *)
Definition choiceContent (choice : Value) : Value :=
  Val.optGet (Val.optGet choice "message") "content".

(** The request [processWithGemini] hands to [fetch], on every attempt. *)
Definition geminiRequest (C : Collaborators) (apiKey text model : string)
    (agentName : option string) (config : ReasoningConfig) : Request :=
  {| url := GEMINI (API_ENDPOINTS C) +:+ "/models/" +:+ model +:+ ":generateContent";
     credential := ("x-goog-api-key", apiKey);
     payload := geminiRequestBody C text agentName config |}.

(** The request [processWithGroq] hands to [fetch], on every attempt. *)
Definition groqRequest (C : Collaborators) (apiKey text model : string)
    (agentName : option string) (config : ReasoningConfig) : Request :=
  {| url := buildApiUrl C (GROQ_BASE (API_ENDPOINTS C)) "/chat/completions";
     credential := bearer apiKey;
     payload := chatRequestBody C model text agentName config |}.

(** The error of a driver that finds no first entry in the reply. *)
Definition invalidStructure (providerName : string) : JsError :=
  Error (VStr ("Invalid response structure from " +:+ providerName +:+ " API")).

(** The error of [getApiKey]. *)
Definition keyNotConfigured (provider : KeyProvider) : JsError :=
  Error (VStr (Js.capitalize (KeyProvider_name provider) +:+ " API key not configured")).

Module Scripted.

(** Collaborators whose [JSON.parse] reads every body as the given document. *)
Definition reading (document : Value) : Collaborators := {|
  JSON_parse := fun _ => Some document;
  JSON_stringify := Sample.stringify;
  getModelProvider := Sample.modelProvider;
  disableThinking := fun _ => false;
  getReasoningPrompt := Sample.reasoningPrompt;
  normalizeBaseUrl := fun s => s;
  buildApiUrl := fun base path => base +:+ path;
  API_ENDPOINTS := API_ENDPOINTS Sample.collaborators;
  TOKEN_LIMITS := TOKEN_LIMITS Sample.collaborators;
  createApiRetryStrategy := createApiRetryStrategy Sample.collaborators
|}.

(** A server that is unavailable twice and then answers with the given body. *)
Definition unavailableTwice (text : string) : nat -> Outcome HttpResponse := fun n =>
  match n with
  | 0 | 1 => Sample.reply 503 "unavailable"
  | _ => Sample.reply 200 text
  end.

(** An Electron window whose key getter answers the given value. *)
Definition answering (key : option string) : ElectronAPI := {|
  getKey := fun _ => Ok key;
  processAnthropicReasoning := fun text _ _ _ => Ok (IpcSuccess text);
  processLocalReasoning := fun text _ _ _ => Ok (IpcSuccess text)
|}.

(** A fresh service in a window with the given API object, if any. *)
Definition worldWith (api : option ElectronAPI) : World := {|
  isProcessing := false;
  apiKeyCache := ∅;
  openAiEndpointPreference := ∅;
  localStorage := Some ∅;
  electronAPI := api;
  network := fun _ => Sample.reply 200 Sample.chatReply;
  requests := [];
  ipcCalls := []
|}.

End Scripted.

(** * Properties *)

(** ** Strings *)

Lemma nonEmpty_rev_app (s acc : string) :
  Js.nonEmpty (String.rev_app s acc) = Js.nonEmpty s || Js.nonEmpty acc.
Proof.
  revert acc. induction s as [|c s IH]; intros acc; simpl; [done|].
  rewrite IH. simpl. by rewrite orb_true_r.
Qed.

Lemma allWhiteSpace_rev_app (s acc : string) :
  Js.allWhiteSpace (String.rev_app s acc) = Js.allWhiteSpace s && Js.allWhiteSpace acc.
Proof.
  revert acc. induction s as [|c s IH]; intros acc; simpl; [done|].
  rewrite IH. simpl. destruct (Js.isWhiteSpace c), (Js.allWhiteSpace s); simpl; auto.
Qed.

Lemma nonEmpty_trimStart (s : string) :
  Js.nonEmpty (Js.trimStart s) = negb (Js.allWhiteSpace s).
Proof.
  induction s as [|c s IH]; simpl; [done|].
  destruct (Js.isWhiteSpace c); simpl; auto.
Qed.

Lemma allWhiteSpace_trimStart (s : string) :
  Js.allWhiteSpace (Js.trimStart s) = Js.allWhiteSpace s.
Proof.
  induction s as [|c s IH]; simpl; [done|].
  destruct (Js.isWhiteSpace c) eqn:E; simpl; [done|]. by rewrite E.
Qed.

(** [trim] leaves nothing exactly when the string is empty or all white space. *)
Lemma nonEmpty_trim (s : string) :
  Js.nonEmpty (Js.trim s) = negb (Js.allWhiteSpace s).
Proof.
  unfold Js.trim, Js.trimEnd, String.rev.
  rewrite nonEmpty_rev_app, orb_false_r, nonEmpty_trimStart.
  rewrite allWhiteSpace_rev_app, andb_true_r.
  by rewrite allWhiteSpace_trimStart.
Qed.

(** ** The monad *)

Lemma sameWire_refl w : sameWire w w.
Proof. by repeat split. Qed.

Lemma sameWire_trans w1 w2 w3 : sameWire w1 w2 -> sameWire w2 w3 -> sameWire w1 w3.
Proof. intros (?&?&?) (?&?&?). repeat split; congruence. Qed.

Section Frames.

Variable C : Collaborators.

Lemma getApiKey_sameWire provider w : sameWire w (getApiKey provider w).2.
Proof.
  unfold getApiKey. unfold_M. simpl.
  repeat (case_match; simplify_eq/=); by repeat split.
Qed.

Lemma rememberOpenAiPreference_sameWire base p w :
  sameWire w (rememberOpenAiPreference C base p w).2.
Proof.
  unfold rememberOpenAiPreference. simpl.
  destruct (localStorage w) as [st|]; simpl; [|by repeat split].
  destruct (st !! OPENAI_ENDPOINT_PREF_STORAGE_KEY) as [raw|]; simpl.
  - destruct (Js.nonEmpty raw); [destruct (JSON_parse C raw)|]; simpl; by repeat split.
  - by repeat split.
Qed.

Lemma rememberOpenAiPreference_memory base p w :
  openAiEndpointPreference (rememberOpenAiPreference C base p w).2 !! base = Some p.
Proof.
  unfold rememberOpenAiPreference. simpl.
  destruct (localStorage w) as [st|]; simpl; [|by rewrite lookup_insert_eq].
  destruct (st !! OPENAI_ENDPOINT_PREF_STORAGE_KEY) as [raw|]; simpl.
  - destruct (Js.nonEmpty raw); [destruct (JSON_parse C raw)|]; simpl;
      by rewrite lookup_insert_eq.
  - by rewrite lookup_insert_eq.
Qed.

Lemma rememberOpenAiPreference_ok base p w :
  (rememberOpenAiPreference C base p w).1 = Ok tt.
Proof.
  unfold rememberOpenAiPreference. simpl.
  destruct (localStorage w) as [st|]; simpl; [|done].
  destruct (st !! OPENAI_ENDPOINT_PREF_STORAGE_KEY) as [raw|]; simpl; [|done].
  destruct (Js.nonEmpty raw); [destruct (JSON_parse C raw)|]; done.
Qed.

(** A hit in memory answers without looking at storage. *)
Lemma getStoredOpenAiPreference_memory base p w :
  openAiEndpointPreference w !! base = Some p ->
  getStoredOpenAiPreference C base w = (Ok (Some p), w).
Proof. intros H. unfold getStoredOpenAiPreference. by rewrite H. Qed.

(** [withRetry] hands on the result of a first attempt that succeeds. *)
Lemma withRetry_first_ok {A} (fn : M A) strategy w a w' :
  fn w = (Ok a, w') -> withRetry fn strategy w = (Ok a, w').
Proof.
  intros H. unfold withRetry. destruct (maxRetries strategy); simpl; by rewrite H.
Qed.

End Frames.

(** ** The processing guard *)

Section Guard.

Variable C : Collaborators.
Variables (text model : string) (agentName : option string) (config : ReasoningConfig).

Lemma processWithOpenAI_busy w :
  isProcessing w = true ->
  processWithOpenAI C text model agentName config w = (Throw alreadyProcessing, w).
Proof. intros H. unfold processWithOpenAI. unfold_M. by rewrite H. Qed.

Lemma processWithGemini_busy w :
  isProcessing w = true ->
  processWithGemini C text model agentName config w = (Throw alreadyProcessing, w).
Proof. intros H. unfold processWithGemini. unfold_M. by rewrite H. Qed.

Lemma processWithGroq_busy w :
  isProcessing w = true ->
  processWithGroq C text model agentName config w = (Throw alreadyProcessing, w).
Proof. intros H. unfold processWithGroq. unfold_M. by rewrite H. Qed.

(** A driver body that is run under [finally] after the key was fetched. *)
Lemma guarded_released (body : string -> M string) provider w :
  isProcessing w = false ->
  isProcessing
    ((apiKey ← getApiKey provider;
      modify (set_isProcessing true);;
      tryFinally (body apiKey) (set_isProcessing false)) w).2 = false.
Proof.
  intros H. unfold_M.
  pose proof (getApiKey_sameWire provider w) as (Hp & _ & _).
  destruct (getApiKey provider w) as [[apiKey|e] w1]; simpl in *.
  - by destruct (body apiKey (set_isProcessing true w1)).
  - congruence.
Qed.

Lemma processWithOpenAI_released w :
  isProcessing w = false ->
  isProcessing (processWithOpenAI C text model agentName config w).2 = false.
Proof.
  intros H. unfold processWithOpenAI.
  unfold mbind at 1, M_bind at 1, gets at 1. rewrite H. cbv beta iota.
  by apply (guarded_released _ openai).
Qed.

Lemma processWithGemini_released w :
  isProcessing w = false ->
  isProcessing (processWithGemini C text model agentName config w).2 = false.
Proof.
  intros H. unfold processWithGemini.
  unfold mbind at 1, M_bind at 1, gets at 1. rewrite H. cbv beta iota.
  by apply (guarded_released _ gemini).
Qed.

Lemma processWithGroq_released w :
  isProcessing w = false ->
  isProcessing (processWithGroq C text model agentName config w).2 = false.
Proof.
  intros H. unfold processWithGroq.
  unfold mbind at 1, M_bind at 1, gets at 1. rewrite H. cbv beta iota.
  by apply (guarded_released _ groq).
Qed.

(** The delegated drivers neither read nor write the guard. *)
Lemma delegate_ignores_guard channel call unavailable b w :
  delegate channel call unavailable (set_isProcessing b w)
  = ((delegate channel call unavailable w).1,
     set_isProcessing b (delegate channel call unavailable w).2).
Proof.
  unfold delegate. unfold_M. simpl.
  destruct (electronAPI w) as [api|]; simpl; [|done].
  destruct (call api) as [[t|err]|e]; done.
Qed.

End Guard.

(** C1, as the code has it.  A call of [processWithOpenAI], [processWithGemini]
    or [processWithGroq] begun while [isProcessing] is set fails with
    "Already processing a request" and leaves the world as it was: no key is
    looked up and no request is issued.  A call of one of the three begun while
    the guard is clear ends with the guard clear, whatever its outcome.
    [processWithAnthropic] and [processWithLocal] do not look at the guard:
    their outcome is the same whether it is set or not, and they hand it back
    unchanged. *)
Theorem processing_guard (C : Collaborators) (text model : string)
    (agentName : option string) (config : ReasoningConfig) (w : World) :
  (isProcessing w = true ->
     processWithOpenAI C text model agentName config w = (Throw alreadyProcessing, w) ∧
     processWithGemini C text model agentName config w = (Throw alreadyProcessing, w) ∧
     processWithGroq C text model agentName config w = (Throw alreadyProcessing, w)) ∧
  (isProcessing w = false ->
     isProcessing (processWithOpenAI C text model agentName config w).2 = false ∧
     isProcessing (processWithGemini C text model agentName config w).2 = false ∧
     isProcessing (processWithGroq C text model agentName config w).2 = false) ∧
  (forall b : bool,
     processWithAnthropic text model agentName config (set_isProcessing b w)
     = ((processWithAnthropic text model agentName config w).1,
        set_isProcessing b (processWithAnthropic text model agentName config w).2) ∧
     processWithLocal text model agentName config (set_isProcessing b w)
     = ((processWithLocal text model agentName config w).1,
        set_isProcessing b (processWithLocal text model agentName config w).2)).
Proof.
  split; [|split].
  - intros H. auto using processWithOpenAI_busy, processWithGemini_busy, processWithGroq_busy.
  - intros H.
    auto using processWithOpenAI_released, processWithGemini_released,
      processWithGroq_released.
  - intros b. split; apply delegate_ignores_guard.
Qed.

Lemma processing_guard_witness :
  processWithGroq Sample.collaborators "hi" "llama-3" None Sample.noConfig Sample.busyWorld
  = (Throw alreadyProcessing, Sample.busyWorld) ∧
  isProcessing
    (processWithOpenAI Sample.collaborators "hi" "gpt-4o" None Sample.noConfig
       Sample.idleWorld).2 = false.
Proof.
  split.
  - apply (processing_guard Sample.collaborators "hi" "llama-3" None Sample.noConfig
             Sample.busyWorld).
    reflexivity.
  - apply (processing_guard Sample.collaborators "hi" "gpt-4o" None Sample.noConfig
             Sample.idleWorld).
    reflexivity.
Defined.

(** C1 as stated fails: begun while the guard is set, [processWithAnthropic]
    does not fail with "Already processing a request" but delegates and
    returns the delegated text. *)
Lemma anthropic_runs_while_busy :
  isProcessing Sample.busyWorld = true ∧
  (processWithAnthropic "hi" "claude-3" None Sample.noConfig Sample.busyWorld).1 = Ok "hi" ∧
  (processWithAnthropic "hi" "claude-3" None Sample.noConfig Sample.busyWorld).1
    ≠ Throw alreadyProcessing ∧
  ipcCalls (processWithAnthropic "hi" "claude-3" None Sample.noConfig Sample.busyWorld).2
    = ["processAnthropicReasoning"].
Proof. repeat split. discriminate. Qed.

(** ** Model validation and dispatch *)

Section Dispatch.

Variable C : Collaborators.
Variables (text model : string) (agentName : option string) (config : ReasoningConfig).

Lemma processText_blank w :
  Js.allWhiteSpace model = true ->
  processText C text model agentName config w = (Throw noModelSelected, w).
Proof.
  intros H. unfold processText. rewrite nonEmpty_trim, H. done.
Qed.

Lemma processText_switch w :
  Js.allWhiteSpace model = false ->
  processText C text model agentName config w
  = let provider := getModelProvider C (Js.trim model) in
    if String.eqb provider "openai" then
      processWithOpenAI C text (Js.trim model) agentName config w
    else if String.eqb provider "anthropic" then
      processWithAnthropic text (Js.trim model) agentName config w
    else if String.eqb provider "local" then
      processWithLocal text (Js.trim model) agentName config w
    else if String.eqb provider "gemini" then
      processWithGemini C text (Js.trim model) agentName config w
    else if String.eqb provider "groq" then
      processWithGroq C text model agentName config w
    else (Throw (unsupportedProvider provider), w).
Proof.
  intros H. unfold processText. rewrite nonEmpty_trim, H. simpl.
  repeat case_match; done.
Qed.

End Dispatch.

(** C8.  When [model] is empty or consists of white space only, [processText]
    throws "No reasoning model selected" and the world is as before: no key
    was looked up, no request issued, no delegated call made.  When the
    registry classifies the trimmed model outside
    [openai], [anthropic], [local], [gemini], [groq], [processText] throws
    "Unsupported reasoning provider: ..." naming what the registry answered. *)
Theorem processText_validates_model (C : Collaborators) (text model : string)
    (agentName : option string) (config : ReasoningConfig) (w : World) :
  (Js.allWhiteSpace model = true ->
     processText C text model agentName config w = (Throw noModelSelected, w)) ∧
  (Js.allWhiteSpace model = false ->
     getModelProvider C (Js.trim model) ∉ ["openai"; "anthropic"; "local"; "gemini"; "groq"] ->
     processText C text model agentName config w
     = (Throw (unsupportedProvider (getModelProvider C (Js.trim model))), w)).
Proof.
  split.
  - apply processText_blank.
  - intros Hm Hp. rewrite processText_switch by done. simpl.
    repeat match goal with
    | |- context [String.eqb ?a ?b] =>
        let E := fresh "E" in
        destruct (String.eqb_spec a b) as [E|E];
        [exfalso; apply Hp; rewrite E; set_solver|]
    end.
    done.
Qed.

Lemma processText_validates_model_witness :
  processText Sample.collaborators "hi" "   " None Sample.noConfig Sample.idleWorld
  = (Throw noModelSelected, Sample.idleWorld) ∧
  processText Sample.collaborators "hi" " mixtral " None Sample.noConfig Sample.idleWorld
  = (Throw (unsupportedProvider "mistral"), Sample.idleWorld).
Proof.
  split.
  - apply (processText_validates_model Sample.collaborators "hi" "   " None
             Sample.noConfig Sample.idleWorld).
    reflexivity.
  - apply (processText_validates_model Sample.collaborators "hi" " mixtral " None
             Sample.noConfig Sample.idleWorld).
    + reflexivity.
    + intros H. by apply (bool_decide_pack _) in H.
Defined.

Section GroqRequests.

Variable C : Collaborators.

Lemma postJson_world providerName request w :
  (postJson C providerName request w).2 = set_requests (request :: requests w) w.
Proof.
  unfold postJson, fetch. unfold_M.
  destruct (network w (length (requests w))) as [res|e]; simpl; [|done].
  destruct (ok res); simpl; [by destruct (json C res)|].
  by destruct (apiErrorMessage C providerName res).
Qed.

(** However often [withRetry] repeats the call, it sends the same request. *)
Lemma withRetryFrom_postJson_requests providerName request strategy n w :
  exists k, requests (withRetryFrom (postJson C providerName request) strategy n w).2
            = replicate k request ++ requests w.
Proof.
  revert w. induction n as [|n IH]; intros w; simpl.
  - pose proof (postJson_world providerName request w) as Hw.
    destruct (postJson C providerName request w) as [[a|e] w1]; simpl in *; subst w1;
      by exists 1.
  - pose proof (postJson_world providerName request w) as Hw.
    destruct (postJson C providerName request w) as [[a|e] w1]; simpl in *; subst w1.
    + by exists 1.
    + destruct (shouldRetry strategy e); [|by exists 1].
      destruct (IH (set_requests (request :: requests w) w)) as [k Hk].
      exists (S k). rewrite Hk. simpl requests.
      by rewrite cons_middle, app_assoc, <- replicate_S_end.
Qed.

Lemma issuedBy_replicate {A} (m : M A) w k request :
  requests (m w).2 = replicate k request ++ requests w ->
  issuedBy m w = replicate k request.
Proof.
  intros H. unfold issuedBy. rewrite H, length_app, length_replicate.
  replace (k + length (requests w) - length (requests w)) with k by lia.
  rewrite take_app_length'; [done|]. by rewrite length_replicate.
Qed.

(** Every request of [processWithGroq] carries the model it was given. *)
Lemma processWithGroq_requests text model agentName config w r :
  r ∈ issuedBy (processWithGroq C text model agentName config) w ->
  payload r = chatRequestBody C model text agentName config.
Proof.
  assert (exists k apiKey,
    requests (processWithGroq C text model agentName config w).2
    = replicate k
        {| url := buildApiUrl C (GROQ_BASE (API_ENDPOINTS C)) "/chat/completions";
           credential := bearer apiKey;
           payload := chatRequestBody C model text agentName config |}
      ++ requests w) as (k & apiKey & Hk).
  { unfold processWithGroq. unfold_M. simpl.
    destruct (isProcessing w); [by exists 0, ""|].
    pose proof (getApiKey_sameWire groq w) as (_ & _ & Hr).
    destruct (getApiKey groq w) as [[apiKey|e] w1]; simpl in *; [|by exists 0, ""].
    unfold callChatCompletionsApi, withRetry. unfold_M.
    edestruct (withRetryFrom_postJson_requests "Groq") as [k Hk].
    exists k, apiKey.
    match goal with
    | |- context [withRetryFrom ?f ?s ?n ?w0] =>
        destruct (withRetryFrom f s n w0) as [[a|e] w2] eqn:E
    end; simpl;
      (rewrite E in Hk; simpl in Hk; rewrite Hk; simpl; by rewrite Hr). }
  intros Hin. rewrite (issuedBy_replicate _ _ _ _ Hk) in Hin.
  apply elem_of_replicate in Hin as [-> _]. done.
Qed.

End GroqRequests.

(** C10.  For a model whose trimmed form the registry classifies as [groq],
    [processText] runs the Groq driver on the model argument as given, not
    trimmed, and every request the call issues has that untrimmed string as
    its [model] field.  For [openai], [anthropic], [local] and [gemini] the
    driver is run on the trimmed model. *)
Theorem processText_dispatches_model (C : Collaborators) (text model : string)
    (agentName : option string) (config : ReasoningConfig) (w : World) :
  Js.allWhiteSpace model = false ->
  (getModelProvider C (Js.trim model) = "groq" ->
     processText C text model agentName config w
     = processWithGroq C text model agentName config w ∧
     forall r, r ∈ issuedBy (processText C text model agentName config) w ->
               Val.optGet (payload r) "model" = VStr model) ∧
  (getModelProvider C (Js.trim model) = "openai" ->
     processText C text model agentName config w
     = processWithOpenAI C text (Js.trim model) agentName config w) ∧
  (getModelProvider C (Js.trim model) = "anthropic" ->
     processText C text model agentName config w
     = processWithAnthropic text (Js.trim model) agentName config w) ∧
  (getModelProvider C (Js.trim model) = "local" ->
     processText C text model agentName config w
     = processWithLocal text (Js.trim model) agentName config w) ∧
  (getModelProvider C (Js.trim model) = "gemini" ->
     processText C text model agentName config w
     = processWithGemini C text (Js.trim model) agentName config w).
Proof.
  intros Hm. split.
  - intros Hp. split; [by rewrite processText_switch, Hp by done|].
    intros r Hr.
    assert (processText C text model agentName config
            = processWithGroq C text model agentName config) as E.
    { unfold processText. rewrite nonEmpty_trim, Hm, Hp. done. }
    rewrite E in Hr. apply processWithGroq_requests in Hr. rewrite Hr. done.
  - split; [|split; [|split]]; intros Hp; rewrite processText_switch, Hp by done; done.
Qed.

Lemma processText_dispatches_model_witness :
  payload <$> requests
    (processText Sample.collaborators "hi" " llama-3 " None Sample.noConfig
       Sample.idleWorld).2
  = [chatRequestBody Sample.collaborators " llama-3 " "hi" None Sample.noConfig] ∧
  processText Sample.collaborators "hi" " llama-3 " None Sample.noConfig Sample.idleWorld
  = processWithGroq Sample.collaborators "hi" " llama-3 " None Sample.noConfig
      Sample.idleWorld.
Proof.
  split; [reflexivity|].
  apply (processText_dispatches_model Sample.collaborators "hi" " llama-3 " None
           Sample.noConfig Sample.idleWorld); reflexivity.
Defined.

(** ** The Gemini driver on a reply without text *)

Section GeminiEmpty.

Variable C : Collaborators.

Lemma geminiResult_empty response candidate :
  firstCandidate response = Some candidate ->
  Val.truthy (geminiCandidateText candidate) = false ->
  geminiResult response
  = Throw (if Val.isStr (Val.optGet candidate "finishReason") "MAX_TOKENS"
           then geminiTokenLimit else geminiEmpty).
Proof.
  unfold firstCandidate, geminiResult. intros Hc Ht.
  destruct (Val.get response "candidates") as [candidates|e]; [|done]. simpl.
  destruct (Val.truthy candidates); [|done].
  destruct (Val.truthy (Val.optGet candidates "0")); [|done].
  simpl in *. injection Hc as ->. rewrite Ht. simpl.
  by destruct (Val.isStr _ _).
Qed.

Lemma postJson_ok providerName request w res response :
  network w (length (requests w)) = Ok res ->
  ok res = true ->
  JSON_parse C (body res) = Some response ->
  postJson C providerName request w
  = (Ok response, set_requests (request :: requests w) w).
Proof.
  intros Hn Hok Hp. unfold postJson, fetch, json. unfold_M.
  by rewrite Hn, Hok, Hp.
Qed.

End GeminiEmpty.

(** ** The reply that ends the retries *)

Section Replies.

Variable C : Collaborators.

Lemma postJson_inv providerName request w response w' :
  postJson C providerName request w = (Ok response, w') ->
  exists res,
    network w (length (requests w)) = Ok res ∧
    ok res = true ∧
    JSON_parse C (body res) = Some response ∧
    w' = set_requests (request :: requests w) w.
Proof.
  intros H. pose proof (postJson_world C providerName request w) as Hw.
  rewrite H in Hw. simpl in Hw. subst w'.
  revert H. unfold postJson, fetch, json. unfold_M.
  destruct (network w (length (requests w))) as [res|e]; simpl; [|done].
  destruct (ok res) eqn:Hok; simpl.
  - destruct (JSON_parse C (body res)) as [v|] eqn:Hp; simpl; [|done].
    intros [= ->]. by exists res.
  - by destruct (apiErrorMessage C providerName res).
Qed.

(** Whichever attempt ends the retries with a value, that value is the parsed
    body of a 2xx reply: the reply of the network to the latest request. *)
Lemma withRetryFrom_postJson_ok providerName request strategy n w response w' :
  withRetryFrom (postJson C providerName request) strategy n w = (Ok response, w') ->
  exists res,
    network w (length (requests w') - 1) = Ok res ∧
    ok res = true ∧
    JSON_parse C (body res) = Some response ∧
    network w' = network w.
Proof.
  revert w. induction n as [|n IH]; intros w H; simpl in H.
  - destruct (postJson C providerName request w) as [[a|e] w1] eqn:E; [|done].
    injection H as -> ->. apply postJson_inv in E as (res & Hn & Hok & Hp & ->).
    exists res. simpl. by rewrite Nat.sub_0_r.
  - pose proof (postJson_world C providerName request w) as Hw.
    destruct (postJson C providerName request w) as [[a|e] w1] eqn:E.
    + injection H as -> ->. apply postJson_inv in E as (res & Hn & Hok & Hp & ->).
      exists res. simpl. by rewrite Nat.sub_0_r.
    + simpl in Hw. subst w1. destruct (shouldRetry strategy e); [|done].
      apply IH in H as (res & Hn & Hok & Hp & Hnet). by exists res.
Qed.

(** Past the guard and the key, [processWithGemini] is the retried request
    followed by the reading of the reply, with the guard cleared at the end. *)
Lemma processWithGemini_run text model agentName config w apiKey w1 :
  isProcessing w = false ->
  getApiKey gemini w = (Ok apiKey, w1) ->
  processWithGemini C text model agentName config w
  = (match (withRetry (postJson C "Gemini" (geminiRequest C apiKey text model agentName config))
              (createApiRetryStrategy C) (set_isProcessing true w1)).1 with
     | Ok response => geminiResult response
     | Throw e => Throw e
     end,
     set_isProcessing false
       (withRetry (postJson C "Gemini" (geminiRequest C apiKey text model agentName config))
          (createApiRetryStrategy C) (set_isProcessing true w1)).2).
Proof.
  intros Hidle Hkey. unfold processWithGemini, geminiRequest. unfold_M.
  rewrite Hidle, Hkey. simpl.
  by destruct (withRetry _ _ _) as [[response|e] w3].
Qed.

(** The same for [processWithGroq]. *)
Lemma processWithGroq_run text model agentName config w apiKey w1 :
  isProcessing w = false ->
  getApiKey groq w = (Ok apiKey, w1) ->
  processWithGroq C text model agentName config w
  = (match (withRetry (postJson C "Groq" (groqRequest C apiKey text model agentName config))
              (createApiRetryStrategy C) (set_isProcessing true w1)).1 with
     | Ok response => chatCompletionText "Groq" response
     | Throw e => Throw e
     end,
     set_isProcessing false
       (withRetry (postJson C "Groq" (groqRequest C apiKey text model agentName config))
          (createApiRetryStrategy C) (set_isProcessing true w1)).2).
Proof.
  intros Hidle Hkey. unfold processWithGroq, callChatCompletionsApi, groqRequest. unfold_M.
  rewrite Hidle, Hkey. simpl.
  by destruct (withRetry _ _ _) as [[response|e] w3].
Qed.

(** A driver that has no key sends nothing and answers nothing. *)
Lemma processWithGemini_keyless text model agentName config w e w1 :
  isProcessing w = false ->
  getApiKey gemini w = (Throw e, w1) ->
  processWithGemini C text model agentName config w = (Throw e, w1).
Proof.
  intros Hidle Hkey. unfold processWithGemini. unfold_M. by rewrite Hidle, Hkey.
Qed.

Lemma processWithGroq_keyless text model agentName config w e w1 :
  isProcessing w = false ->
  getApiKey groq w = (Throw e, w1) ->
  processWithGroq C text model agentName config w = (Throw e, w1).
Proof.
  intros Hidle Hkey. unfold processWithGroq. unfold_M. by rewrite Hidle, Hkey.
Qed.

End Replies.

(** A reply without a first candidate is an error of its own. *)
Lemma geminiResult_without_candidate (response : Value) :
  firstCandidate response = None ->
  geminiResult response
  = Throw (if Val.nullish response then TypeError else invalidStructure "Gemini").
Proof.
  unfold firstCandidate, geminiResult.
  destruct response as [| |b|q|s|l|fields]; simpl; try done.
  destruct (Val.truthy (Val.assoc "candidates" fields)); simpl; [|done].
  by destruct (Val.truthy (Val.optGet (Val.assoc "candidates" fields) "0")).
Qed.

(** C6.  Let [processWithGemini] get past the guard and the key, and let the
    retried request end with a reply, on the first attempt or on a later
    one.  That reply is the parsed body of a 2xx response of the network.  If
    it has a first candidate without [content.parts[0].text], the driver
    throws the token-limit error when the candidate's [finishReason] is
    "MAX_TOKENS" and "Gemini returned empty response" otherwise.  If it has no
    first candidate at all, the driver throws a third error, "Invalid response
    structure from Gemini API" (a [TypeError] for the body [null]).  The three
    errors differ, the input text is never returned, and the guard is clear
    afterwards. *)
Theorem gemini_empty_result (C : Collaborators) (text model : string)
    (agentName : option string) (config : ReasoningConfig) (w w1 w3 : World)
    (apiKey : string) (response : Value) :
  isProcessing w = false ->
  getApiKey gemini w = (Ok apiKey, w1) ->
  withRetry (postJson C "Gemini" (geminiRequest C apiKey text model agentName config))
    (createApiRetryStrategy C) (set_isProcessing true w1)
  = (Ok response, w3) ->
  (exists res,
     network w (length (requests w3) - 1) = Ok res ∧
     ok res = true ∧
     JSON_parse C (body res) = Some response) ∧
  (forall candidate,
     firstCandidate response = Some candidate ->
     Val.truthy (geminiCandidateText candidate) = false ->
     processWithGemini C text model agentName config w
     = (Throw (if Val.isStr (Val.optGet candidate "finishReason") "MAX_TOKENS"
               then geminiTokenLimit else geminiEmpty),
        set_isProcessing false w3)) ∧
  (firstCandidate response = None ->
     processWithGemini C text model agentName config w
     = (Throw (if Val.nullish response then TypeError else invalidStructure "Gemini"),
        set_isProcessing false w3)) ∧
  geminiTokenLimit ≠ geminiEmpty ∧
  invalidStructure "Gemini" ≠ geminiTokenLimit ∧
  invalidStructure "Gemini" ≠ geminiEmpty.
Proof.
  intros Hidle Hkey Hretry.
  pose proof (processWithGemini_run C text model agentName config w apiKey w1 Hidle Hkey)
    as Hrun.
  rewrite Hretry in Hrun. simpl in Hrun.
  split; [|split; [|split; [|by repeat split]]].
  - pose proof (getApiKey_sameWire gemini w) as (_ & Hn & _).
    rewrite Hkey in Hn. simpl in Hn.
    apply withRetryFrom_postJson_ok in Hretry as (res & Hr & Hok & Hp & _).
    exists res. simpl in Hr. by rewrite <- Hn.
  - intros candidate Hcand Htext. by rewrite Hrun, (geminiResult_empty _ _ Hcand Htext).
  - intros Hnone. by rewrite Hrun, (geminiResult_without_candidate _ Hnone).
Qed.

Lemma gemini_empty_result_witness :
  processWithGemini Sample.collaborators "hi" "gemini-2.5-pro" None Sample.noConfig
    (Sample.world (Scripted.unavailableTwice Sample.maxTokensReply))
  = (Throw geminiTokenLimit,
     set_requests
       (replicate 3
          (geminiRequest Sample.collaborators "sk-test" "hi" "gemini-2.5-pro" None
             Sample.noConfig))
       (set_apiKeyCache {[ "gemini" := "sk-test" ]}
          (set_ipcCalls ["getGeminiKey"]
             (Sample.world (Scripted.unavailableTwice Sample.maxTokensReply))))) ∧
  processWithGemini (Scripted.reading (VObj [("candidates", VArr [])]))
    "hi" "gemini-2.5-pro" None Sample.noConfig Sample.idleWorld
  = (Throw (invalidStructure "Gemini"),
     set_requests
       [geminiRequest (Scripted.reading (VObj [("candidates", VArr [])]))
          "sk-test" "hi" "gemini-2.5-pro" None Sample.noConfig]
       (set_apiKeyCache {[ "gemini" := "sk-test" ]}
          (set_ipcCalls ["getGeminiKey"] Sample.idleWorld))).
Proof.
  split.
  2:{ destruct (gemini_empty_result (Scripted.reading (VObj [("candidates", VArr [])]))
                  "hi" "gemini-2.5-pro" None Sample.noConfig Sample.idleWorld
                  (set_apiKeyCache {[ "gemini" := "sk-test" ]}
                     (set_ipcCalls ["getGeminiKey"] Sample.idleWorld))
                  (set_requests
                     [geminiRequest (Scripted.reading (VObj [("candidates", VArr [])]))
                        "sk-test" "hi" "gemini-2.5-pro" None Sample.noConfig]
                     (set_isProcessing true
                        (set_apiKeyCache {[ "gemini" := "sk-test" ]}
                           (set_ipcCalls ["getGeminiKey"] Sample.idleWorld))))
                  "sk-test" (VObj [("candidates", VArr [])])
                  eq_refl eq_refl eq_refl)
        as (_ & _ & Hnone & _).
      apply Hnone. reflexivity. }
  destruct (gemini_empty_result Sample.collaborators "hi" "gemini-2.5-pro" None
              Sample.noConfig
              (Sample.world (Scripted.unavailableTwice Sample.maxTokensReply))
              (set_apiKeyCache {[ "gemini" := "sk-test" ]}
                 (set_ipcCalls ["getGeminiKey"]
                    (Sample.world (Scripted.unavailableTwice Sample.maxTokensReply))))
              (set_requests
                 (replicate 3
                    (geminiRequest Sample.collaborators "sk-test" "hi" "gemini-2.5-pro" None
                       Sample.noConfig))
                 (set_isProcessing true
                    (set_apiKeyCache {[ "gemini" := "sk-test" ]}
                       (set_ipcCalls ["getGeminiKey"]
                          (Sample.world (Scripted.unavailableTwice Sample.maxTokensReply))))))
              "sk-test"
              (VObj [("candidates",
                      VArr [VObj [("finishReason", VStr "MAX_TOKENS"); ("content", VObj [])]])])
              eq_refl eq_refl eq_refl)
    as (_ & Hlacks & _).
  apply (Hlacks (VObj [("finishReason", VStr "MAX_TOKENS"); ("content", VObj [])]));
    reflexivity.
Defined.

(** C6 fails on a reply without a first candidate: for the 2xx bodies
    [{"candidates":[null]}] and [{"candidates":[]}], where [candidates[0]] has
    no [content.parts[0].text], [processWithGemini] throws "Invalid response
    structure from Gemini API", which is neither the token-limit error nor
    "Gemini returned empty response". *)
Lemma gemini_reply_without_candidate :
  geminiCandidateText (Val.optGet (VArr [VNull]) "0") = VUndefined ∧
  (processWithGemini (Scripted.reading (VObj [("candidates", VArr [VNull])]))
     "hi" "gemini-2.5-pro" None Sample.noConfig Sample.idleWorld).1
  = Throw (Error (VStr "Invalid response structure from Gemini API")) ∧
  geminiCandidateText (Val.optGet (VArr []) "0") = VUndefined ∧
  (processWithGemini (Scripted.reading (VObj [("candidates", VArr [])]))
     "hi" "gemini-2.5-pro" None Sample.noConfig Sample.idleWorld).1
  = Throw (Error (VStr "Invalid response structure from Gemini API")) ∧
  Error (VStr "Invalid response structure from Gemini API") ≠ geminiTokenLimit ∧
  Error (VStr "Invalid response structure from Gemini API") ≠ geminiEmpty.
Proof. repeat split; discriminate. Qed.

(** ** The token budget *)

Lemma calculateMaxTokens_range (textLength minTokens maxTokens : Z) (multiplier : Q) :
  (minTokens <= maxTokens)%Z ->
  (minTokens <= calculateMaxTokens textLength minTokens maxTokens multiplier <= maxTokens)%Z.
Proof. unfold calculateMaxTokens. lia. Qed.

Lemma calculateMaxTokens_mono (len1 len2 minTokens maxTokens : Z) (multiplier : Q) :
  (0 <= multiplier)%Q ->
  (len1 <= len2)%Z ->
  (calculateMaxTokens len1 minTokens maxTokens multiplier
   <= calculateMaxTokens len2 minTokens maxTokens multiplier)%Z.
Proof.
  intros Hm Hl. unfold calculateMaxTokens.
  assert (Qceiling (inject_Z len1 * multiplier) <= Qceiling (inject_Z len2 * multiplier))%Z.
  { apply Qceiling_resp_le, Qmult_le_compat_r; [|done]. by rewrite <- Zle_Qle. }
  lia.
Qed.

Lemma maxTokensOr_mono (config : ReasoningConfig) (x y : Z) :
  (x <= y)%Z -> (maxTokensOr config x <= maxTokensOr config y)%Z.
Proof.
  intros H. unfold maxTokensOr.
  destruct (maxTokens config) as [n|]; [destruct (n =? 0)%Z|]; lia.
Qed.

(** C5, as the code has it.  The value issued as [max_tokens] by the
    chat-completions helper (Groq) and as [generationConfig.maxOutputTokens] by
    the Gemini driver is the caller's [config.maxTokens] when that is present
    and not zero.  Otherwise it is the larger of the driver's own lower bound
    (4096 for the helper, 2000 for Gemini) and
    [max(floor, min(ceil(textLength * multiplier), ceiling))], with the generic
    floor and ceiling for the helper and the Gemini ones for Gemini.  For a
    multiplier that is not negative the issued value does not decrease when
    the text gets longer; and with [floor <= ceiling] the computed budget lies
    in [[floor, ceiling]], the issued value between the larger of the lower
    bound and the floor and the larger of the lower bound and the ceiling. *)
Theorem token_budget (C : Collaborators) (model text text' : string)
    (agentName : option string) (config : ReasoningConfig) :
  let L := TOKEN_LIMITS C in
  let len := Z.of_nat (String.length text) in
  let budget := Z.max (MIN_TOKENS L)
                  (Z.min (Qceiling (inject_Z len * TOKEN_MULTIPLIER L)) (MAX_TOKENS L)) in
  let budgetGemini :=
    Z.max (MIN_TOKENS_GEMINI L)
      (Z.min (Qceiling (inject_Z len * TOKEN_MULTIPLIER L)) (MAX_TOKENS_GEMINI L)) in
  (Val.optGet (chatRequestBody C model text agentName config) "max_tokens"
   = num (chatMaxTokens C text config) ∧
   Val.optGet (Val.optGet (geminiRequestBody C text agentName config) "generationConfig")
     "maxOutputTokens"
   = num (geminiMaxOutputTokens C text config)) ∧
  (maxTokens config = None ∨ maxTokens config = Some 0%Z ->
     chatMaxTokens C text config = Z.max 4096 budget ∧
     geminiMaxOutputTokens C text config = Z.max 2000 budgetGemini) ∧
  (forall n, maxTokens config = Some n -> n ≠ 0%Z ->
     chatMaxTokens C text config = n ∧ geminiMaxOutputTokens C text config = n) ∧
  ((0 <= TOKEN_MULTIPLIER L)%Q -> String.length text <= String.length text' ->
     (chatMaxTokens C text config <= chatMaxTokens C text' config)%Z ∧
     (geminiMaxOutputTokens C text config <= geminiMaxOutputTokens C text' config)%Z) ∧
  ((MIN_TOKENS L <= MAX_TOKENS L)%Z ->
     (MIN_TOKENS L <= budget <= MAX_TOKENS L)%Z ∧
     (maxTokens config = None ->
        (Z.max 4096 (MIN_TOKENS L) <= chatMaxTokens C text config
         <= Z.max 4096 (MAX_TOKENS L))%Z)) ∧
  ((MIN_TOKENS_GEMINI L <= MAX_TOKENS_GEMINI L)%Z ->
     (MIN_TOKENS_GEMINI L <= budgetGemini <= MAX_TOKENS_GEMINI L)%Z ∧
     (maxTokens config = None ->
        (Z.max 2000 (MIN_TOKENS_GEMINI L) <= geminiMaxOutputTokens C text config
         <= Z.max 2000 (MAX_TOKENS_GEMINI L))%Z)).
Proof.
  intros L len budget budgetGemini.
  split; [split; reflexivity|].
  split.
  { intros [H|H]; unfold chatMaxTokens, geminiMaxOutputTokens, maxTokensOr; rewrite H;
      done. }
  split.
  { intros n H Hn. unfold chatMaxTokens, geminiMaxOutputTokens, maxTokensOr.
    rewrite H. by destruct (Z.eqb_spec n 0). }
  split.
  { intros Hm Hl. unfold chatMaxTokens, geminiMaxOutputTokens.
    split; apply maxTokensOr_mono, Z.max_le_compat_l, calculateMaxTokens_mono;
      try done; lia. }
  split.
  - intros Hle. split; [apply (calculateMaxTokens_range len _ _ _ Hle)|].
    intros H. unfold chatMaxTokens, maxTokensOr. rewrite H.
    pose proof (calculateMaxTokens_range len _ _ (TOKEN_MULTIPLIER L) Hle).
    fold L len. lia.
  - intros Hle. split; [apply (calculateMaxTokens_range len _ _ _ Hle)|].
    intros H. unfold geminiMaxOutputTokens, maxTokensOr. rewrite H.
    pose proof (calculateMaxTokens_range len _ _ (TOKEN_MULTIPLIER L) Hle).
    fold L len. lia.
Qed.

Lemma token_budget_witness :
  chatMaxTokens Sample.collaborators "hello" Sample.noConfig = Z.max 4096 100 ∧
  geminiMaxOutputTokens Sample.collaborators "hello"
    {| temperature := None; maxTokens := Some 512%Z |} = 512%Z ∧
  (chatMaxTokens Sample.collaborators "hello" Sample.noConfig
   <= chatMaxTokens Sample.collaborators "hello, world" Sample.noConfig)%Z.
Proof.
  split; [|split].
  - destruct (token_budget Sample.collaborators "llama-3" "hello" "hello, world" None
                Sample.noConfig) as (_ & Habsent & _).
    apply Habsent. left. reflexivity.
  - destruct (token_budget Sample.collaborators "llama-3" "hello" "hello, world" None
                {| temperature := None; maxTokens := Some 512%Z |})
      as (_ & _ & Hpresent & _).
    apply (Hpresent 512%Z); [reflexivity|lia].
  - destruct (token_budget Sample.collaborators "llama-3" "hello" "hello, world" None
                Sample.noConfig) as (_ & _ & _ & Hmono & _).
    apply Hmono; [vm_compute; discriminate|simpl; lia].
Defined.

(** C5 as stated fails.  An override that is present but zero is not what is
    issued; and without an override the issued value is not
    [max(floor, min(ceil(textLength * multiplier), ceiling))] when that lies
    below the driver's own lower bound (here with a generic floor of 100 and a
    Gemini floor of 200). *)
Lemma token_budget_counterexample :
  chatMaxTokens Sample.collaborators "hello" {| temperature := None; maxTokens := Some 0%Z |}
  = 4096%Z ∧
  chatMaxTokens Sample.collaborators "hello" Sample.noConfig = 4096%Z ∧
  Z.max (MIN_TOKENS (TOKEN_LIMITS Sample.collaborators))
    (Z.min (Qceiling (inject_Z 5 * TOKEN_MULTIPLIER (TOKEN_LIMITS Sample.collaborators)))
       (MAX_TOKENS (TOKEN_LIMITS Sample.collaborators))) = 100%Z ∧
  geminiMaxOutputTokens Sample.collaborators "hello" Sample.noConfig = 2000%Z ∧
  Z.max (MIN_TOKENS_GEMINI (TOKEN_LIMITS Sample.collaborators))
    (Z.min (Qceiling (inject_Z 5 * TOKEN_MULTIPLIER (TOKEN_LIMITS Sample.collaborators)))
       (MAX_TOKENS_GEMINI (TOKEN_LIMITS Sample.collaborators))) = 200%Z.
Proof. repeat split. Qed.


(** ** The loop over the endpoint candidates *)

Section Negotiation.

Variable C : Collaborators.
Variables (openAiBase apiKey model : string) (messages : Value) (config : ReasoningConfig).

(** The request of one round of the loop. *)
Lemma tryCandidate_failed candidate w res errorMessage :
  network w (length (requests w)) = Ok res ->
  ok res = false ->
  openAiErrorMessage C res = Ok errorMessage ->
  let sent :=
    set_requests
      ({| url := candidateUrl candidate;
          credential := bearer apiKey;
          payload := openAiRequestBody (candidateType candidate) model messages config |}
       :: requests w) w in
  tryCandidate C openAiBase apiKey model messages config candidate w
  = match candidateType candidate with
    | responses =>
        if (status res =? 404)%Z || (status res =? 405)%Z
        then (Ok (Continue (Error errorMessage)),
              (rememberOpenAiPreference C openAiBase chat sent).2)
        else (Ok (Continue (Error errorMessage)), sent)
    | chat => (Throw (Error errorMessage), sent)
    end.
Proof.
  intros Hn Hok Hm sent. subst sent. unfold tryCandidate, fetch. unfold_M.
  rewrite Hn, Hok, Hm. simpl.
  destruct (candidateType candidate); simpl.
  - destruct ((status res =? 404)%Z || (status res =? 405)%Z); simpl; [|reflexivity].
    match goal with
    | |- context [rememberOpenAiPreference C openAiBase chat ?w0] =>
        pose proof (rememberOpenAiPreference_ok C openAiBase chat w0) as Hr;
        destruct (rememberOpenAiPreference C openAiBase chat w0) as [[[]|e] w2]
    end; simpl in *; [reflexivity|discriminate].
  - rewrite andb_false_r. reflexivity.
Qed.

End Negotiation.

(** C2, as the code has it.  Let a round of the candidate loop receive a
    reply that is not 2xx and whose error message can be read.  On the
    'responses' shape with status 404 or 405, the driver records a 'chat'
    preference for the base URL and goes on with the remaining candidates,
    keeping the error as the last one seen.  On the 'responses' shape with any
    other status it also goes on with the remaining candidates, recording
    nothing.  On the 'chat' shape the error is thrown at once and no further
    candidate is tried.  An error kept as the last one seen is thrown when no
    candidate is left. *)
Theorem endpoint_negotiation (C : Collaborators) (openAiBase apiKey model : string)
    (messages : Value) (config : ReasoningConfig) (candidate : EndpointCandidate)
    (rest : list EndpointCandidate) (lastError : option JsError) (w : World)
    (res : HttpResponse) (errorMessage : Value) :
  network w (length (requests w)) = Ok res ->
  ok res = false ->
  openAiErrorMessage C res = Ok errorMessage ->
  let sent :=
    set_requests
      ({| url := candidateUrl candidate;
          credential := bearer apiKey;
          payload := openAiRequestBody (candidateType candidate) model messages config |}
       :: requests w) w in
  let recorded := (rememberOpenAiPreference C openAiBase chat sent).2 in
  (candidateType candidate = responses -> status res = 404%Z ∨ status res = 405%Z ->
     tryCandidates C openAiBase apiKey model messages config (candidate :: rest) lastError w
     = tryCandidates C openAiBase apiKey model messages config rest
         (Some (Error errorMessage)) recorded ∧
     openAiEndpointPreference recorded !! openAiBase = Some chat ∧
     requests recorded = requests sent) ∧
  (candidateType candidate = responses -> status res ≠ 404%Z -> status res ≠ 405%Z ->
     tryCandidates C openAiBase apiKey model messages config (candidate :: rest) lastError w
     = tryCandidates C openAiBase apiKey model messages config rest
         (Some (Error errorMessage)) sent) ∧
  (candidateType candidate = chat ->
     tryCandidates C openAiBase apiKey model messages config (candidate :: rest) lastError w
     = (Throw (Error errorMessage), sent)) ∧
  (forall w', tryCandidates C openAiBase apiKey model messages config [] 
                (Some (Error errorMessage)) w'
              = (Throw (Error errorMessage), w')).
Proof.
  intros Hn Hok Hm sent recorded.
  pose proof (tryCandidate_failed C openAiBase apiKey model messages config candidate
                w res errorMessage Hn Hok Hm) as Hstep.
  cbv zeta in Hstep. fold sent in Hstep. fold recorded in Hstep.
  split; [|split; [|split]].
  - intros Ht Hs. rewrite Ht in Hstep.
    assert ((status res =? 404)%Z || (status res =? 405)%Z = true) as Hb.
    { destruct Hs as [-> | ->]; done. }
    rewrite Hb in Hstep. split; [|split].
    + simpl. unfold mbind at 1, M_bind at 1. by rewrite Hstep.
    + apply rememberOpenAiPreference_memory.
    + by destruct (rememberOpenAiPreference_sameWire C openAiBase chat sent) as (_ & _ & ?).
  - intros Ht H404 H405. rewrite Ht in Hstep.
    assert ((status res =? 404)%Z || (status res =? 405)%Z = false) as Hb.
    { apply orb_false_iff. split; by apply Z.eqb_neq. }
    rewrite Hb in Hstep.
    simpl. unfold mbind at 1, M_bind at 1. by rewrite Hstep.
  - intros Ht. rewrite Ht in Hstep.
    simpl. unfold mbind at 1, M_bind at 1. by rewrite Hstep.
  - done.
Qed.

Lemma endpoint_negotiation_witness :
  tryCandidates Sample.collaborators "https://api.openai.com/v1" "sk-test" "gpt-4o"
    (VArr []) Sample.noConfig Sample.bothCandidates None
    (Sample.world (Sample.failingOnce 404))
  = tryCandidates Sample.collaborators "https://api.openai.com/v1" "sk-test" "gpt-4o"
      (VArr []) Sample.noConfig (tail Sample.bothCandidates)
      (Some (Error (VStr "OpenAI API error: 404")))
      (rememberOpenAiPreference Sample.collaborators "https://api.openai.com/v1" chat
         (set_requests
            [ {| url := "https://api.openai.com/v1/responses";
                 credential := bearer "sk-test";
                 payload := openAiRequestBody responses "gpt-4o" (VArr []) Sample.noConfig |} ]
            (Sample.world (Sample.failingOnce 404)))).2.
Proof.
  destruct (endpoint_negotiation Sample.collaborators "https://api.openai.com/v1" "sk-test"
              "gpt-4o" (VArr []) Sample.noConfig
              {| candidateUrl := "https://api.openai.com/v1/responses";
                 candidateType := responses |}
              (tail Sample.bothCandidates) None (Sample.world (Sample.failingOnce 404))
              {| status := 404; statusText := ""; body := "oops" |}
              (VStr "OpenAI API error: 404"))
    as (Hunsupported & _); [reflexivity..|].
  exact (proj1 (Hunsupported eq_refl (or_introl eq_refl))).
Defined.

(** C2 as stated fails.  A 500 on the 'responses' shape is not terminal: the
    loop goes on to the 'chat' candidate, issues a second request, and the
    call returns the text of that reply. *)
Lemma server_error_on_responses_falls_through :
  (tryCandidates Sample.collaborators "https://api.openai.com/v1" "sk-test" "gpt-4o"
     (VArr []) Sample.noConfig Sample.bothCandidates None
     (Sample.world (Sample.failingOnce 500))).1
  = Ok (VObj [("choices",
               VArr [VObj [("message", VObj [("content", VStr " Hello. ")])]])]) ∧
  url <$> requests
    (tryCandidates Sample.collaborators "https://api.openai.com/v1" "sk-test" "gpt-4o"
       (VArr []) Sample.noConfig Sample.bothCandidates None
       (Sample.world (Sample.failingOnce 500))).2
  = ["https://api.openai.com/v1/chat/completions"; "https://api.openai.com/v1/responses"] ∧
  (processWithOpenAI Sample.collaborators "hi" "gpt-4o" None Sample.noConfig
     (Sample.world (Sample.failingOnce 500))).1 = Ok "Hello." ∧
  length (requests
    (processWithOpenAI Sample.collaborators "hi" "gpt-4o" None Sample.noConfig
       (Sample.world (Sample.failingOnce 500))).2) = 2.
Proof. repeat split. Qed.

(** ** The endpoint candidates *)



Section Candidates.

Variable C : Collaborators.





(** A value in durable storage is read when memory has none. *)
Lemma getStoredOpenAiPreference_storage base w storage raw parsed p :
  openAiEndpointPreference w !! base = None ->
  localStorage w = Some storage ->
  storage !! OPENAI_ENDPOINT_PREF_STORAGE_KEY = Some raw ->
  Js.nonEmpty raw = true ->
  JSON_parse C raw = Some parsed ->
  isObjectLike parsed = true ->
  asEndpointType (Val.optGet parsed base) = Some p ->
  (getStoredOpenAiPreference C base w).1 = Ok (Some p).
Proof.
  intros Hm Hl Hs Hr Hp Ho Hv. unfold getStoredOpenAiPreference.
  by rewrite Hm, Hl, Hs, Hr, Hp, Ho, Hv.
Qed.


End Candidates.

Section Marked.

Variable C : Collaborators.

Lemma getApiKey_keysOnly provider w :
  exists cache calls, (getApiKey provider w).2 = set_apiKeyCache cache (set_ipcCalls calls w).
Proof.
  exists (apiKeyCache (getApiKey provider w).2), (ipcCalls (getApiKey provider w).2).
  unfold getApiKey. unfold_M. simpl.
  destruct w; simpl.
  repeat (case_match; simplify_eq/=); done.
Qed.




End Marked.




(** ** The reply of the OpenAI endpoint *)

(** When the scan of the reply completes and finds no text, the input text is
    what the driver returns. *)
Lemma openAiResult_fallback (text : string) (response : Value) :
  openAiRawResponseLog response = Ok tt ->
  extractOpenAiText response = Ok "" ->
  openAiResult text response = Ok text.
Proof. intros Hl He. unfold openAiResult. by rewrite Hl, He. Qed.

(** A reply that is an object without an [output] array is always scanned to
    the end: the chat-shape fields are read with optional chaining. *)
Lemma openAiResult_without_output (text : string) (fields : list (string * Value)) :
  Val.isArray (Val.assoc "output" fields) = false ->
  exists responseText,
    extractOpenAiText (VObj fields) = Ok responseText ∧
    openAiResult text (VObj fields)
    = Ok (if negb (Js.nonEmpty responseText) then text else responseText).
Proof.
  intros H. unfold openAiResult, openAiRawResponseLog, extractOpenAiText.
  unfold Val.optGet, Val.get.
  destruct (Val.assoc "output" fields); try discriminate H;
    (eexists; split; reflexivity).
Qed.

Lemma scanContent_conforming contents responseText :
  forallb conformingContent contents = true ->
  exists t, scanContent contents responseText = Ok t.
Proof.
  induction contents as [|content rest IH]; simpl; [eauto|].
  intros [Hc Hr]%andb_prop. destruct content; try discriminate Hc. simpl in *.
  destruct (Val.isStr (Val.assoc "type" fields) "output_text"); [|by apply IH].
  destruct (Val.assoc "text" fields); simpl in *; try discriminate Hc; eauto.
  all: try (destruct b; [discriminate Hc|by apply IH]).
  all: try (destruct (Qnum q =? 0)%Z; [by apply IH|discriminate Hc]).
  destruct (Js.nonEmpty s); eauto.
Qed.

Lemma scanOutput_conforming items responseText :
  forallb conformingItem items = true ->
  exists t, scanOutput items responseText = Ok t.
Proof.
  revert responseText.
  induction items as [|item rest IH]; intros responseText; simpl; [eauto|].
  intros [Hi Hr]%andb_prop. destruct item; try discriminate Hi. simpl in *.
  destruct (Val.isStr (Val.assoc "type" fields) "message"); [|by apply IH].
  destruct (Val.assoc "content" fields) as [| |b|q|s|contents|] eqn:E; simpl in *;
    try discriminate Hi; try (by apply IH).
  - destruct b; [discriminate Hi|by apply IH].
  - destruct (Qnum q =? 0)%Z; [by apply IH|discriminate Hi].
  - destruct (Js.nonEmpty s); [discriminate Hi|by apply IH].
  - destruct (scanContent_conforming contents responseText Hi) as [t ->]. simpl.
    destruct (Js.nonEmpty t); eauto.
Qed.

Lemma outputTypes_conforming items :
  forallb conformingItem items = true -> exists ts, outputTypes items = Ok ts.
Proof.
  induction items as [|item rest IH]; simpl; [eauto|].
  intros [Hi Hr]%andb_prop. destruct item; try discriminate Hi. simpl.
  destruct (IH Hr) as [ts ->]. simpl. eauto.
Qed.

(** On a reply in the shape of the responses API the scan completes, and the
    input text is returned exactly when the scan finds no text. *)
Lemma openAiResult_conforming (text : string) (response : Value) :
  conformingReply response = true ->
  exists responseText,
    extractOpenAiText response = Ok responseText ∧
    openAiResult text response
    = Ok (if negb (Js.nonEmpty responseText) then text else responseText).
Proof.
  intros H. destruct response; try discriminate H. simpl in H.
  destruct (Val.isArray (Val.assoc "output" fields)) eqn:Ha;
    [|by apply openAiResult_without_output].
  unfold openAiResult, openAiRawResponseLog, extractOpenAiText.
  unfold Val.optGet, Val.get.
  destruct (Val.assoc "output" fields) as [| | | | |items|]; try discriminate Ha.
  destruct (outputTypes_conforming items H) as [ts ->].
  destruct (scanOutput_conforming items "" H) as [t ->].
  simpl. eexists. split; reflexivity.
Qed.

(** C3 fails on the code: a 2xx reply whose body is the JSON document
    [{"output":[{"type":"message","content":[null]}]}] holds no text in any
    recognised field, and yet [processWithOpenAI] does not return the input
    text: reading [content.type] of the [null] entry raises a [TypeError].
    The same happens for the body [null], at [response.usage]. *)
Theorem openai_reply_with_null_content_throws (text : string) :
  openAiResult text
    (VObj [("output",
            VArr [VObj [("type", VStr "message"); ("content", VArr [VNull])]])])
  = Throw TypeError ∧
  openAiResult text VNull = Throw TypeError ∧
  (processWithOpenAI Sample.collaborators text "gpt-4o" None Sample.noConfig
     (Sample.world (fun _ => Sample.reply 200 Sample.nullContentReply))).1
  = Throw TypeError ∧
  isProcessing
    (processWithOpenAI Sample.collaborators text "gpt-4o" None Sample.noConfig
       (Sample.world (fun _ => Sample.reply 200 Sample.nullContentReply))).2 = false.
Proof. repeat split. Qed.

(** ** The configured base URL *)

(** What [getConfiguredOpenAIBase] answers is the built-in default, or the
    normalized custom URL when that passes both tests of the code. *)
Lemma getConfiguredOpenAIBase_policy (C : Collaborators) (w : World) :
  getConfiguredOpenAIBase C w = OPENAI_BASE (API_ENDPOINTS C) ∨
  exists storage stored,
    localStorage w = Some storage ∧
    storage !! "cloudReasoningBaseUrl" = Some stored ∧
    getConfiguredOpenAIBase C w = normalizeBaseUrl C (Js.trim stored) ∧
    (Js.startsWith (normalizeBaseUrl C (Js.trim stored)) "https://" = true ∨
     Js.includes (normalizeBaseUrl C (Js.trim stored)) "://localhost" = true ∨
     Js.includes (normalizeBaseUrl C (Js.trim stored)) "://127.0.0.1" = true) ∧
    Forall (fun domain => Js.includes (normalizeBaseUrl C (Js.trim stored)) domain = false)
      knownNonOpenAIUrls.
Proof.
  unfold getConfiguredOpenAIBase.
  destruct (localStorage w) as [storage|]; [|by left].
  destruct (storage !! "cloudReasoningBaseUrl") as [stored|] eqn:Hs; simpl; [|by left].
  destruct (Js.nonEmpty (Js.trim stored)); simpl; [|by left].
  destruct (Js.nonEmpty (normalizeBaseUrl C (Js.trim stored))) eqn:Hn.
  2:{ repeat case_match; by left. }
  set (normalized := normalizeBaseUrl C (Js.trim stored)).
  destruct (Js.includes normalized "api.groq.com") eqn:H1; simpl; [by left|].
  destruct (Js.includes normalized "api.anthropic.com") eqn:H2; simpl; [by left|].
  destruct (Js.includes normalized "generativelanguage.googleapis.com") eqn:H3; simpl;
    [by left|].
  destruct (Js.startsWith normalized "https://") eqn:H4; simpl.
  - right. exists storage, stored. repeat split; auto. unfold knownNonOpenAIUrls.
    repeat constructor; done.
  - destruct (Js.includes normalized "://localhost") eqn:H5; simpl.
    + right. exists storage, stored. repeat split; auto. unfold knownNonOpenAIUrls.
      repeat constructor; done.
    + destruct (Js.includes normalized "://127.0.0.1") eqn:H6; simpl; [|by left].
      right. exists storage, stored. repeat split; auto. unfold knownNonOpenAIUrls.
      repeat constructor; done.
Qed.

(** C7 fails on the code: the stored URL [http://localhost.evil.example/v1]
    has an insecure scheme, its host is not a loopback address and it names no
    other provider, and yet, left as it is by [normalizeBaseUrl], it is what
    [getConfiguredOpenAIBase] answers: the test for loopback looks for
    "://localhost" anywhere in the URL. *)
Theorem lookalike_host_accepted (C : Collaborators) (w : World)
    (storage : gmap string string) :
  localStorage w = Some storage ->
  storage !! "cloudReasoningBaseUrl" = Some Sample.lookalikeBase ->
  normalizeBaseUrl C Sample.lookalikeBase = Sample.lookalikeBase ->
  getConfiguredOpenAIBase C w = Sample.lookalikeBase ∧
  Js.startsWith Sample.lookalikeBase "https://" = false ∧
  hostOf Sample.lookalikeBase = "localhost.evil.example" ∧
  loopbackAddress_spec Sample.lookalikeBase = false ∧
  Forall (fun domain => Js.includes Sample.lookalikeBase domain = false) knownNonOpenAIUrls.
Proof.
  intros Hl Hs Hn. split; [|repeat split; repeat constructor].
  unfold getConfiguredOpenAIBase. rewrite Hl, Hs. simpl.
  change (Js.trim Sample.lookalikeBase) with Sample.lookalikeBase.
  rewrite Hn. reflexivity.
Qed.

Lemma lookalike_host_accepted_witness :
  getConfiguredOpenAIBase Sample.collaborators
    (Sample.customWorld Sample.lookalikeBase (fun _ => Sample.reply 200 Sample.chatReply))
  = Sample.lookalikeBase.
Proof.
  apply (lookalike_host_accepted Sample.collaborators
           (Sample.customWorld Sample.lookalikeBase
              (fun _ => Sample.reply 200 Sample.chatReply))
           {[ "cloudReasoningBaseUrl" := Sample.lookalikeBase ]}); reflexivity.
Defined.

(** ** The temperature *)

(** Where the temperature goes in the bodies of the OpenAI driver and of the
    chat-completions helper. *)
Lemma openAiRequestBody_temperature (type : EndpointType) (model : string)
    (messages : Value) (config : ReasoningConfig) :
  Val.optGet (openAiRequestBody type model messages config) "temperature"
  = match type with
    | chat =>
        if isOlderModel model then VNum (orDefault (temperature config) (3 # 10))
        else VUndefined
    | responses => VUndefined
    end.
Proof. destruct type; simpl; [done|]. by destruct (isOlderModel model). Qed.

Lemma chatRequestBody_temperature (C : Collaborators) (model text : string)
    (agentName : option string) (config : ReasoningConfig) :
  Val.optGet (chatRequestBody C model text agentName config) "temperature"
  = VNum (match temperature config with Some t => t | None => 3 # 10 end).
Proof. reflexivity. Qed.

(** The OpenAI driver sends no limit on the number of tokens. *)
Lemma openAiRequestBody_no_token_limit (type : EndpointType) (model : string)
    (messages : Value) (config : ReasoningConfig) :
  Val.optGet (openAiRequestBody type model messages config) "max_tokens" = VUndefined ∧
  Val.optGet (openAiRequestBody type model messages config) "max_output_tokens" = VUndefined ∧
  Val.optGet (openAiRequestBody type model messages config) "max_completion_tokens"
  = VUndefined.
Proof. destruct type; simpl; [done|]. by destruct (isOlderModel model). Qed.

(** C9 fails on the code: with [config.temperature] present and equal to 0,
    the Gemini driver and the OpenAI driver (chat shape, older model) issue
    0.3, because they select the value with [||]; the chat-completions helper,
    which selects it with [??], issues 0. *)
Theorem zero_temperature_replaced (C : Collaborators) (model text : string)
    (agentName : option string) (messages : Value) (limit : option Z) :
  Val.optGet
    (Val.optGet
       (geminiRequestBody C text agentName {| temperature := Some 0%Q; maxTokens := limit |})
       "generationConfig") "temperature"
  = VNum (3 # 10) ∧
  Val.optGet
    (openAiRequestBody chat "gpt-4o" messages {| temperature := Some 0%Q; maxTokens := limit |})
    "temperature"
  = VNum (3 # 10) ∧
  Val.optGet
    (chatRequestBody C model text agentName {| temperature := Some 0%Q; maxTokens := limit |})
    "temperature"
  = VNum 0.
Proof. repeat split. Qed.

(** * Further properties of the service *)

(** ** The key cache *)

Lemma KeyProvider_name_inj (p q : KeyProvider) :
  KeyProvider_name p = KeyProvider_name q -> p = q.
Proof. destruct p, q; simpl; congruence. Qed.

(** X1.  What [getApiKey] answers comes from the cache or from the getter of the
    provider, and is never empty.  Without a usable key in the cache the call
    throws "<Provider> API key not configured" in each of these cases: there
    is no [window.electronAPI] (nothing is asked); the getter rejects; the
    getter answers [null] or [undefined]; the getter answers the empty
    string.  In the last three the getter was asked once, and in all four the
    cache is as it was: a failing or empty-handed getter is never an error of
    its own, and no key is made up. *)
Theorem getApiKey_key_or_not_configured (provider : KeyProvider) (w : World) :
  (forall k,
     (getApiKey provider w).1 = Ok k ->
     Js.nonEmpty k = true ∧
     apiKeyCache (getApiKey provider w).2 !! KeyProvider_name provider = Some k ∧
     (apiKeyCache w !! KeyProvider_name provider = Some k ∨
      exists api, electronAPI w = Some api ∧
                  getKey api (KeyProvider_name provider) = Ok (Some k))) ∧
  (forall e,
     (getApiKey provider w).1 = Throw e ->
     e = keyNotConfigured provider ∧
     apiKeyCache (getApiKey provider w).2 = apiKeyCache w) ∧
  (usableKey (apiKeyCache w !! KeyProvider_name provider) = false ->
   (electronAPI w = None ->
    getApiKey provider w = (Throw (keyNotConfigured provider), w)) ∧
   (forall api,
      electronAPI w = Some api ->
      (exists e, getKey api (KeyProvider_name provider) = Throw e) ∨
      getKey api (KeyProvider_name provider) = Ok None ∨
      getKey api (KeyProvider_name provider) = Ok (Some "") ->
      getApiKey provider w
      = (Throw (keyNotConfigured provider),
         set_ipcCalls (keyGetterName provider :: ipcCalls w) w))).
Proof.
  split; [|split].
  - intros k. unfold getApiKey. unfold_M. simpl.
    repeat (case_match; simplify_eq/=); intros [= <-];
      (split; [done|split; [first [done | by rewrite lookup_insert_eq]|]]);
      first [by left | right; eauto].
  - intros e. unfold getApiKey, keyNotConfigured. unfold_M. simpl.
    repeat (case_match; simplify_eq/=); by intros [= <-].
  - intros Hcache. split.
    + intros Hapi. unfold getApiKey, keyNotConfigured. unfold_M. simpl.
      rewrite Hcache, Hapi. simpl.
      destruct (apiKeyCache w !! KeyProvider_name provider) as [k|]; simpl in *;
        [by rewrite Hcache|done].
    + intros api Hapi Hgetter. unfold getApiKey, keyNotConfigured. unfold_M. simpl.
      rewrite Hcache, Hapi. simpl.
      destruct Hgetter as [(e & ->) | [-> | ->]]; simpl;
        destruct (apiKeyCache w !! KeyProvider_name provider) as [k|]; simpl in *;
        rewrite ?Hcache; done.
Qed.

Lemma getApiKey_key_or_not_configured_witness :
  getApiKey groq (Scripted.worldWith None)
  = (Throw (Error (VStr "Groq API key not configured")), Scripted.worldWith None) ∧
  getApiKey groq (Scripted.worldWith (Some (Scripted.answering (Some ""))))
  = (Throw (Error (VStr "Groq API key not configured")),
     set_ipcCalls ["getGroqKey"] (Scripted.worldWith (Some (Scripted.answering (Some ""))))) ∧
  getApiKey groq Restart.brokenWorld
  = (Throw (Error (VStr "Groq API key not configured")),
     set_ipcCalls ["getGroqKey"] Restart.brokenWorld) ∧
  Js.nonEmpty "sk-test" = true ∧
  Error (VStr "Groq API key not configured") = keyNotConfigured groq.
Proof.
  split; [|split; [|split; [|split]]].
  5:{ destruct (getApiKey_key_or_not_configured groq
                  (Scripted.worldWith (Some (Scripted.answering None))))
        as (_ & Herror & _).
      destruct (Herror (Error (VStr "Groq API key not configured")) eq_refl) as (He & _).
      exact He. }
  - destruct (getApiKey_key_or_not_configured groq (Scripted.worldWith None))
      as (_ & _ & Hmissing).
    destruct (Hmissing eq_refl) as (Hnone & _). apply Hnone. reflexivity.
  - destruct (getApiKey_key_or_not_configured groq
                (Scripted.worldWith (Some (Scripted.answering (Some "")))))
      as (_ & _ & Hmissing).
    destruct (Hmissing eq_refl) as (_ & Hasked).
    apply (Hasked (Scripted.answering (Some "")) eq_refl).
    right. right. reflexivity.
  - destruct (getApiKey_key_or_not_configured groq Restart.brokenWorld)
      as (_ & _ & Hmissing).
    destruct (Hmissing eq_refl) as (_ & Hasked).
    apply (Hasked Restart.brokenApi eq_refl).
    left. exists (Error (VStr "ipc failed")). reflexivity.
  - destruct (getApiKey_key_or_not_configured groq Sample.idleWorld) as (Hkey & _).
    destruct (Hkey "sk-test" eq_refl) as (Hfull & _). exact Hfull.
Defined.

Lemma getApiKey_hit (provider : KeyProvider) (w : World) (k : string) :
  apiKeyCache w !! KeyProvider_name provider = Some k ->
  Js.nonEmpty k = true ->
  getApiKey provider w = (Ok k, w).
Proof.
  intros Hc Hn. unfold getApiKey. unfold_M. simpl. rewrite Hc. unfold usableKey.
  rewrite Hn. simpl. by rewrite Hn.
Qed.

(** X2.  A key in the cache is answered without asking the main process, also
    outside Electron or with a getter that fails: the world is as before, and
    so is every later call. *)
Theorem getApiKey_cached (provider : KeyProvider) (w : World) (k : string) :
  apiKeyCache w !! KeyProvider_name provider = Some k ->
  Js.nonEmpty k = true ->
  getApiKey provider w = (Ok k, w) ∧
  ipcCalls (getApiKey provider w).2 = ipcCalls w ∧
  getApiKey provider (getApiKey provider w).2 = (Ok k, w).
Proof.
  intros Hc Hn. rewrite (getApiKey_hit provider w k Hc Hn). simpl.
  split; [done|split; [done|]]. by apply getApiKey_hit.
Qed.

Lemma getApiKey_cached_witness :
  getApiKey gemini (set_apiKeyCache {[ "gemini" := "sk-test" ]} Restart.brokenWorld)
  = (Ok "sk-test", set_apiKeyCache {[ "gemini" := "sk-test" ]} Restart.brokenWorld).
Proof.
  apply (getApiKey_cached gemini
           (set_apiKeyCache {[ "gemini" := "sk-test" ]} Restart.brokenWorld) "sk-test");
    reflexivity.
Defined.

(** X3.  A key that is not in the cache is fetched once: the first call asks the
    getter of the provider and caches the answer, and a second call answers
    from the cache, changing nothing. *)
Theorem getApiKey_fetched_once (provider : KeyProvider) (w : World) (api : ElectronAPI)
    (k : string) :
  usableKey (apiKeyCache w !! KeyProvider_name provider) = false ->
  electronAPI w = Some api ->
  getKey api (KeyProvider_name provider) = Ok (Some k) ->
  Js.nonEmpty k = true ->
  let fetched :=
    set_apiKeyCache (<[KeyProvider_name provider := k]> (apiKeyCache w))
      (set_ipcCalls (keyGetterName provider :: ipcCalls w) w) in
  getApiKey provider w = (Ok k, fetched) ∧
  getApiKey provider fetched = (Ok k, fetched).
Proof.
  intros Hc Ha Hg Hn fetched. split.
  - unfold getApiKey. unfold_M. simpl. rewrite Hc, Ha. simpl. rewrite Hg. simpl.
    rewrite Hn. simpl. by rewrite Hn.
  - apply getApiKey_hit; [|done]. subst fetched. simpl. by rewrite lookup_insert_eq.
Qed.

Lemma getApiKey_fetched_once_witness :
  getApiKey openai Sample.idleWorld
  = (Ok "sk-test",
     set_apiKeyCache (<["openai" := "sk-test"]> ∅)
       (set_ipcCalls ["getOpenAIKey"] Sample.idleWorld)).
Proof.
  apply (getApiKey_fetched_once openai Sample.idleWorld Sample.api "sk-test");
    reflexivity.
Defined.

(** X4.  After [clearApiKeyCache(provider)] the next [getApiKey(provider)] asks the
    main process again, whatever was cached, while the keys of the other
    providers stay cached; after [clearApiKeyCache()] this holds for every
    provider. *)
Theorem clearApiKeyCache_forces_refetch (provider other : KeyProvider) (w : World)
    (api : ElectronAPI) :
  electronAPI w = Some api ->
  ipcCalls (getApiKey provider (clearApiKeyCache (Some provider) w).2).2
  = keyGetterName provider :: ipcCalls w ∧
  ipcCalls (getApiKey provider (clearApiKeyCache None w).2).2
  = keyGetterName provider :: ipcCalls w ∧
  (other ≠ provider ->
   apiKeyCache (clearApiKeyCache (Some provider) w).2 !! KeyProvider_name other
   = apiKeyCache w !! KeyProvider_name other).
Proof.
  intros Ha. split; [|split].
  - unfold getApiKey, clearApiKeyCache. unfold_M. simpl.
    rewrite lookup_delete_eq. simpl. rewrite Ha. simpl.
    repeat (case_match; simplify_eq/=); done.
  - unfold getApiKey, clearApiKeyCache. unfold_M. simpl.
    rewrite lookup_empty. simpl. rewrite Ha. simpl.
    repeat (case_match; simplify_eq/=); done.
  - intros Hne. unfold clearApiKeyCache. unfold_M. simpl.
    apply lookup_delete_ne. intros E. apply Hne. symmetry. by apply KeyProvider_name_inj.
Qed.

Lemma clearApiKeyCache_forces_refetch_witness :
  ipcCalls
    (getApiKey groq
       (clearApiKeyCache (Some groq)
          (set_apiKeyCache {[ "groq" := "gsk-old" ]} Sample.idleWorld)).2).2
  = ["getGroqKey"].
Proof.
  apply (clearApiKeyCache_forces_refetch groq openai
           (set_apiKeyCache {[ "groq" := "gsk-old" ]} Sample.idleWorld) Sample.api).
  reflexivity.
Defined.

(** X5.  [isAvailable] never throws and never touches the service: it answers
    [false] outside Electron and whenever one of the five probes rejects, even
    if a key was found before; otherwise it answers whether some key is not
    empty or the local probe says yes.  The key cache is neither read nor
    filled. *)
Theorem isAvailable_answer (checkLocalReasoningAvailable : Outcome bool) (w : World) :
  (isAvailable checkLocalReasoningAvailable w).1
  = Ok match electronAPI w with
       | None => false
       | Some api =>
           match getKey api "openai", getKey api "anthropic", getKey api "gemini",
                 getKey api "groq", checkLocalReasoningAvailable with
           | Ok a, Ok b, Ok c, Ok d, Ok l =>
               usableKey a || usableKey b || usableKey c || usableKey d || l
           | _, _, _, _, _ => false
           end
       end ∧
  apiKeyCache (isAvailable checkLocalReasoningAvailable w).2 = apiKeyCache w ∧
  sameWire w (isAvailable checkLocalReasoningAvailable w).2 ∧
  openAiEndpointPreference (isAvailable checkLocalReasoningAvailable w).2
  = openAiEndpointPreference w.
Proof.
  unfold isAvailable, probeKey, probeLocal, sameWire. unfold_M.
  destruct w as [busy cache prefs storage [api|] net reqs calls]; simpl;
    [|by repeat split].
  destruct (getKey api "openai") as [a|]; simpl; [|by repeat split].
  destruct (getKey api "anthropic") as [b|]; simpl; [|by repeat split].
  destruct (getKey api "gemini") as [c|]; simpl; [|by repeat split].
  destruct (getKey api "groq") as [d|]; simpl; [|by repeat split].
  destruct checkLocalReasoningAvailable as [l|]; simpl; by repeat split.
Qed.

(** ** The endpoint preference, in memory and in storage *)

Lemma assoc_setField (k : string) (x : Value) (fields : list (string * Value)) :
  Val.assoc k (setField k x fields) = x.
Proof.
  induction fields as [|[k' v] rest IH]; simpl.
  - by rewrite String.eqb_refl.
  - destruct (String.eqb k k') eqn:E; simpl; [by rewrite String.eqb_refl|].
    by rewrite E.
Qed.

Lemma asEndpointType_name (p : EndpointType) :
  asEndpointType (VStr (EndpointType_name p)) = Some p.
Proof. by destruct p. Qed.

Lemma rememberOpenAiPreference_keepsOverride (C : Collaborators) base p :
  keepsOverride (rememberOpenAiPreference C base p).
Proof.
  intros w. unfold rememberOpenAiPreference, storedOverride.
  destruct w as [busy cache prefs [storage|] api net reqs calls]; simpl; [|done].
  repeat (case_match; simplify_eq/=); try done.
  all: by rewrite lookup_insert_ne.
Qed.

(** X6.  What [rememberOpenAiPreference] records is what [getStoredOpenAiPreference]
    answers next, without a look at storage; the preferences of other base
    URLs in memory and the stored override of the base URL are untouched. *)
Theorem preference_read_back (C : Collaborators) (base other : string)
    (p : EndpointType) (w : World) :
  getStoredOpenAiPreference C base (rememberOpenAiPreference C base p w).2
  = (Ok (Some p), (rememberOpenAiPreference C base p w).2) ∧
  (other ≠ base ->
   openAiEndpointPreference (rememberOpenAiPreference C base p w).2 !! other
   = openAiEndpointPreference w !! other) ∧
  storedOverride (rememberOpenAiPreference C base p w).2 = storedOverride w.
Proof.
  split; [|split].
  - apply getStoredOpenAiPreference_memory, rememberOpenAiPreference_memory.
  - intros Hne. unfold rememberOpenAiPreference. simpl.
    repeat (case_match; simplify_eq/=); by rewrite lookup_insert_ne.
  - apply rememberOpenAiPreference_keepsOverride.
Qed.

Lemma preference_read_back_witness :
  openAiEndpointPreference
    (rememberOpenAiPreference Sample.collaborators "https://a.example/v1" chat
       (rememberOpenAiPreference Sample.collaborators "https://b.example/v1" responses
          Sample.idleWorld).2).2 !! "https://b.example/v1"
  = Some responses.
Proof.
  destruct (preference_read_back Sample.collaborators "https://a.example/v1"
              "https://b.example/v1" chat
              (rememberOpenAiPreference Sample.collaborators "https://b.example/v1"
                 responses Sample.idleWorld).2) as (_ & Hother & _).
  rewrite Hother; [reflexivity|discriminate].
Defined.

(** X7.  A preference survives a restart.  When the stored document is absent,
    empty, a primitive value or an object, [rememberOpenAiPreference] writes a
    document that, if [JSON.parse] reads back what [JSON.stringify] wrote, lets
    a service with nothing in memory find the preference in storage. *)
Theorem preference_survives_restart (C : Collaborators) (base : string)
    (p : EndpointType) (w restarted : World) (storage : gmap string string)
    (fields : list (string * Value)) :
  localStorage w = Some storage ->
  storedPreferences C storage = Some fields ->
  Js.nonEmpty
    (JSON_stringify C (VObj (setField base (VStr (EndpointType_name p)) fields))) = true ->
  JSON_parse C
    (JSON_stringify C (VObj (setField base (VStr (EndpointType_name p)) fields)))
  = Some (VObj (setField base (VStr (EndpointType_name p)) fields)) ->
  openAiEndpointPreference restarted !! base = None ->
  localStorage restarted = localStorage (rememberOpenAiPreference C base p w).2 ->
  (getStoredOpenAiPreference C base restarted).1 = Ok (Some p).
Proof.
  intros Hl Hf Hn Hp Hm Hr.
  assert (localStorage (rememberOpenAiPreference C base p w).2
          = Some (<[OPENAI_ENDPOINT_PREF_STORAGE_KEY :=
                    JSON_stringify C
                      (VObj (setField base (VStr (EndpointType_name p)) fields))]> storage))
    as Hw.
  { unfold rememberOpenAiPreference, storedPreferences in *. simpl. rewrite Hl. simpl.
    destruct (storage !! OPENAI_ENDPOINT_PREF_STORAGE_KEY) as [raw|]; simpl in *.
    - destruct (Js.nonEmpty raw); simpl in *; [|by injection Hf as <-].
      destruct (JSON_parse C raw) as [[]|]; simpl in *; simplify_eq; done.
    - by injection Hf as <-. }
  rewrite Hw in Hr.
  eapply getStoredOpenAiPreference_storage; [done|exact Hr| |exact Hn|exact Hp|done|].
  - by rewrite lookup_insert_eq.
  - unfold Val.optGet, Val.get. rewrite assoc_setField. apply asEndpointType_name.
Qed.

Lemma preference_survives_restart_witness :
  (getStoredOpenAiPreference Restart.collaborators "https://llm.example/v1"
     (set_openAiEndpointPreference ∅
        (rememberOpenAiPreference Restart.collaborators "https://llm.example/v1" chat
           Sample.idleWorld).2)).1
  = Ok (Some chat).
Proof.
  apply (preference_survives_restart Restart.collaborators "https://llm.example/v1" chat
           Sample.idleWorld
           (set_openAiEndpointPreference ∅
              (rememberOpenAiPreference Restart.collaborators "https://llm.example/v1" chat
                 Sample.idleWorld).2)
           ∅ []); reflexivity.
Defined.

(** ** The configured base URL *)

Lemma getConfiguredOpenAIBase_override (C : Collaborators) (w w' : World) :
  storedOverride w = storedOverride w' ->
  getConfiguredOpenAIBase C w = getConfiguredOpenAIBase C w'.
Proof.
  unfold storedOverride, getConfiguredOpenAIBase.
  destruct (localStorage w) as [s1|], (localStorage w') as [s2|]; simpl; try done.
  intros [= ->]. done.
Qed.

(** X8.  The base URL is the built-in default when there is no storage, no stored
    override, or one that is empty or white space only.  Whenever it is not
    the default, it is not empty, it starts with "https://" or contains
    "://localhost" or "://127.0.0.1", and it contains none of the domains of
    the other providers. *)
Theorem configured_base_default_or_vetted (C : Collaborators) (w : World) :
  (storedOverride w = None ∨
   storedOverride w = Some None ∨
   (exists stored, storedOverride w = Some (Some stored) ∧
                   Js.allWhiteSpace stored = true) ->
   getConfiguredOpenAIBase C w = OPENAI_BASE (API_ENDPOINTS C)) ∧
  (getConfiguredOpenAIBase C w ≠ OPENAI_BASE (API_ENDPOINTS C) ->
   Js.nonEmpty (getConfiguredOpenAIBase C w) = true ∧
   (Js.startsWith (getConfiguredOpenAIBase C w) "https://" = true ∨
    Js.includes (getConfiguredOpenAIBase C w) "://localhost" = true ∨
    Js.includes (getConfiguredOpenAIBase C w) "://127.0.0.1" = true) ∧
   Forall (fun domain => Js.includes (getConfiguredOpenAIBase C w) domain = false)
     knownNonOpenAIUrls).
Proof.
  unfold storedOverride, getConfiguredOpenAIBase.
  destruct (localStorage w) as [storage|]; simpl; [|split; [done|by intros []]].
  split.
  - intros [H|[H|(stored & H & Hs)]]; [done| |]; injection H as H; rewrite H; simpl.
    + done.
    + by rewrite nonEmpty_trim, Hs.
  - destruct (storage !! "cloudReasoningBaseUrl") as [stored|]; simpl; [|by intros []].
    destruct (Js.nonEmpty (Js.trim stored)); simpl; [|by intros []].
    destruct (Js.nonEmpty (normalizeBaseUrl C (Js.trim stored))) eqn:Hn.
    2:{ intros H. exfalso. apply H. by repeat case_match. }
    set (normalized := normalizeBaseUrl C (Js.trim stored)) in *.
    destruct (Js.includes normalized "api.groq.com") eqn:H1; simpl; [by intros []|].
    destruct (Js.includes normalized "api.anthropic.com") eqn:H2; simpl; [by intros []|].
    destruct (Js.includes normalized "generativelanguage.googleapis.com") eqn:H3; simpl;
      [by intros []|].
    destruct (Js.startsWith normalized "https://") eqn:H4; simpl.
    { intros _. repeat split; auto. unfold knownNonOpenAIUrls. repeat constructor; done. }
    destruct (Js.includes normalized "://localhost") eqn:H5; simpl.
    { intros _. repeat split; auto. unfold knownNonOpenAIUrls. repeat constructor; done. }
    destruct (Js.includes normalized "://127.0.0.1") eqn:H6; simpl; [|by intros []].
    intros _. repeat split; auto. unfold knownNonOpenAIUrls. repeat constructor; done.
Qed.

Lemma configured_base_default_or_vetted_witness :
  getConfiguredOpenAIBase Sample.collaborators
    (Sample.customWorld "   " (fun _ => Sample.reply 200 Sample.chatReply))
  = "https://api.openai.com/v1" ∧
  Js.nonEmpty
    (getConfiguredOpenAIBase Sample.collaborators
       (Sample.customWorld "https://llm.example/v1"
          (fun _ => Sample.reply 200 Sample.chatReply))) = true.
Proof.
  split.
  - destruct (configured_base_default_or_vetted Sample.collaborators
                (Sample.customWorld "   " (fun _ => Sample.reply 200 Sample.chatReply)))
      as (Hblank & _).
    apply Hblank. right. right. exists "   ". split; reflexivity.
  - destruct (configured_base_default_or_vetted Sample.collaborators
                (Sample.customWorld "https://llm.example/v1"
                   (fun _ => Sample.reply 200 Sample.chatReply)))
      as (_ & Hvetted).
    apply Hvetted. vm_compute. discriminate.
Defined.

(** *** What the drivers leave alone *)

Section Override.

Variable C : Collaborators.

Lemma keepsOverride_ret {A} (a : A) : keepsOverride (mret a : M A).
Proof. by intros w. Qed.

Lemma keepsOverride_throw {A} (e : JsError) : keepsOverride (throw e : M A).
Proof. by intros w. Qed.

Lemma keepsOverride_pure {A} (o : Outcome A) : keepsOverride (pure o).
Proof. by intros w. Qed.

Lemma keepsOverride_gets {A} (f : World -> A) : keepsOverride (gets f).
Proof. by intros w. Qed.

Lemma keepsOverride_modify (f : World -> World) :
  (forall w, storedOverride (f w) = storedOverride w) -> keepsOverride (modify f).
Proof. intros H w. apply H. Qed.

Lemma keepsOverride_bind {A B} (m : M A) (f : A -> M B) :
  keepsOverride m -> (forall a, keepsOverride (f a)) -> keepsOverride (m ≫= f).
Proof.
  intros Hm Hf w. unfold_M. specialize (Hm w).
  destruct (m w) as [[a|e] w1]; simpl in *; [|done].
  by rewrite (Hf a w1).
Qed.

Lemma keepsOverride_tryCatch {A} (m : M A) (h : JsError -> M A) :
  keepsOverride m -> (forall e, keepsOverride (h e)) -> keepsOverride (tryCatch m h).
Proof.
  intros Hm Hh w. unfold_M. specialize (Hm w).
  destruct (m w) as [[a|e] w1]; simpl in *; [done|].
  by rewrite (Hh e w1).
Qed.

Lemma keepsOverride_tryFinally {A} (m : M A) (f : World -> World) :
  keepsOverride m -> (forall w, storedOverride (f w) = storedOverride w) ->
  keepsOverride (tryFinally m f).
Proof.
  intros Hm Hf w. unfold_M. specialize (Hm w).
  destruct (m w) as [r w1]; simpl in *. by rewrite Hf.
Qed.

Lemma keepsOverride_withRetry {A} (fn : M A) strategy :
  keepsOverride fn -> keepsOverride (withRetry fn strategy).
Proof.
  intros Hfn. unfold withRetry. generalize (maxRetries strategy) as n.
  induction n as [|n IH]; intros w; simpl; specialize (Hfn w);
    destruct (fn w) as [[a|e] w1]; simpl in *; try done.
  destruct (shouldRetry strategy e); [|done]. by rewrite IH.
Qed.

Lemma keepsOverride_fetch request : keepsOverride (fetch request).
Proof. by intros w. Qed.

Lemma keepsOverride_getApiKey provider : keepsOverride (getApiKey provider).
Proof.
  intros w. destruct (getApiKey_keysOnly provider w) as (cache & calls & ->). done.
Qed.

Lemma keepsOverride_getStored base : keepsOverride (getStoredOpenAiPreference C base).
Proof.
  intros w. unfold getStoredOpenAiPreference.
  repeat (case_match; simplify_eq/=); done.
Qed.

Lemma keepsOverride_candidates base : keepsOverride (getOpenAIEndpointCandidates C base).
Proof.
  unfold getOpenAIEndpointCandidates. case_match; [apply keepsOverride_ret|].
  apply keepsOverride_bind; [apply keepsOverride_getStored|].
  intros [[]|]; apply keepsOverride_ret.
Qed.

Lemma keepsOverride_tryCandidate openAiBase apiKey model messages config candidate :
  keepsOverride (tryCandidate C openAiBase apiKey model messages config candidate).
Proof.
  unfold tryCandidate. apply keepsOverride_tryCatch.
  - apply keepsOverride_bind; [apply keepsOverride_fetch|]. intros res.
    destruct (negb (ok res)).
    + apply keepsOverride_bind; [apply keepsOverride_pure|]. intros errorMessage.
      case_match; [|apply keepsOverride_throw].
      apply keepsOverride_bind; [apply rememberOpenAiPreference_keepsOverride|].
      intros _. apply keepsOverride_ret.
    + apply keepsOverride_bind; [apply rememberOpenAiPreference_keepsOverride|].
      intros _. apply keepsOverride_ret.
  - intros e. destruct (candidateType candidate);
      [apply keepsOverride_ret|apply keepsOverride_throw].
Qed.

Lemma keepsOverride_tryCandidates openAiBase apiKey model messages config candidates
    lastError :
  keepsOverride
    (tryCandidates C openAiBase apiKey model messages config candidates lastError).
Proof.
  revert lastError. induction candidates as [|candidate rest IH]; intros lastError; simpl.
  - apply keepsOverride_throw.
  - apply keepsOverride_bind; [apply keepsOverride_tryCandidate|].
    intros [e|res]; [apply IH|apply keepsOverride_pure].
Qed.

Lemma keepsOverride_postJson providerName request :
  keepsOverride (postJson C providerName request).
Proof. intros w. by rewrite postJson_world. Qed.

Lemma keepsOverride_processWithOpenAI text model agentName config :
  keepsOverride (processWithOpenAI C text model agentName config).
Proof.
  unfold processWithOpenAI.
  apply keepsOverride_bind; [apply keepsOverride_gets|]. intros [|];
    [apply keepsOverride_throw|].
  apply keepsOverride_bind; [apply keepsOverride_getApiKey|]. intros apiKey.
  apply keepsOverride_bind; [by apply keepsOverride_modify|]. intros _.
  apply keepsOverride_tryFinally; [|done].
  apply keepsOverride_bind; [apply keepsOverride_gets|]. intros openAiBase.
  apply keepsOverride_bind; [apply keepsOverride_candidates|]. intros candidates.
  apply keepsOverride_bind; [apply keepsOverride_getStored|]. intros _.
  apply keepsOverride_bind;
    [apply keepsOverride_withRetry, keepsOverride_tryCandidates|].
  intros response. apply keepsOverride_pure.
Qed.

Lemma keepsOverride_processWithGemini text model agentName config :
  keepsOverride (processWithGemini C text model agentName config).
Proof.
  unfold processWithGemini.
  apply keepsOverride_bind; [apply keepsOverride_gets|]. intros [|];
    [apply keepsOverride_throw|].
  apply keepsOverride_bind; [apply keepsOverride_getApiKey|]. intros apiKey.
  apply keepsOverride_bind; [by apply keepsOverride_modify|]. intros _.
  apply keepsOverride_tryFinally; [|done].
  apply keepsOverride_bind; [apply keepsOverride_withRetry, keepsOverride_postJson|].
  intros response. apply keepsOverride_pure.
Qed.

Lemma keepsOverride_processWithGroq text model agentName config :
  keepsOverride (processWithGroq C text model agentName config).
Proof.
  unfold processWithGroq.
  apply keepsOverride_bind; [apply keepsOverride_gets|]. intros [|];
    [apply keepsOverride_throw|].
  apply keepsOverride_bind; [apply keepsOverride_getApiKey|]. intros apiKey.
  apply keepsOverride_bind; [by apply keepsOverride_modify|]. intros _.
  apply keepsOverride_tryFinally; [|done].
  unfold callChatCompletionsApi.
  apply keepsOverride_bind; [apply keepsOverride_withRetry, keepsOverride_postJson|].
  intros response. apply keepsOverride_pure.
Qed.

Lemma keepsOverride_delegate channel call unavailable :
  keepsOverride (delegate channel call unavailable).
Proof.
  unfold delegate.
  apply keepsOverride_bind; [apply keepsOverride_gets|]. intros [api|];
    [|apply keepsOverride_throw].
  apply keepsOverride_bind; [by apply keepsOverride_modify|]. intros _.
  apply keepsOverride_bind; [apply keepsOverride_pure|].
  intros [t|e]; [apply keepsOverride_ret|apply keepsOverride_throw].
Qed.

Lemma keepsOverride_processText text model agentName config :
  keepsOverride (processText C text model agentName config).
Proof.
  unfold processText. case_match; [apply keepsOverride_throw|].
  repeat case_match;
    auto using keepsOverride_processWithOpenAI, keepsOverride_processWithGemini,
      keepsOverride_processWithGroq, keepsOverride_delegate, keepsOverride_throw.
  all: apply keepsOverride_delegate.
Qed.

End Override.

(** X9.  No call of [processText], whatever the provider and the outcome, changes
    the base URL the OpenAI driver is configured with: the endpoint preference
    is written under a storage key of its own. *)
Theorem processText_keeps_configured_base (C : Collaborators) (text model : string)
    (agentName : option string) (config : ReasoningConfig) (w : World) :
  getConfiguredOpenAIBase C (processText C text model agentName config w).2
  = getConfiguredOpenAIBase C w.
Proof.
  apply getConfiguredOpenAIBase_override, keepsOverride_processText.
Qed.

(** ** More on the loop over the endpoint candidates *)

(** X10.  A 2xx reply ends the loop, whatever the shape: the shape is recorded as
    the preference for the base URL and the call ends as [res.json()] does,
    also when the body is not JSON.  No further candidate is tried, not even
    after an unreadable body on the 'responses' shape. *)
Theorem success_ends_the_loop (C : Collaborators) (openAiBase apiKey model : string)
    (messages : Value) (config : ReasoningConfig) (candidate : EndpointCandidate)
    (rest : list EndpointCandidate) (lastError : option JsError) (w : World)
    (res : HttpResponse) :
  network w (length (requests w)) = Ok res ->
  ok res = true ->
  let request :=
    {| url := candidateUrl candidate;
       credential := bearer apiKey;
       payload := openAiRequestBody (candidateType candidate) model messages config |} in
  let recorded :=
    (rememberOpenAiPreference C openAiBase (candidateType candidate)
       (set_requests (request :: requests w) w)).2 in
  tryCandidates C openAiBase apiKey model messages config (candidate :: rest) lastError w
  = (json C res, recorded) ∧
  openAiEndpointPreference recorded !! openAiBase = Some (candidateType candidate) ∧
  requests recorded = request :: requests w.
Proof.
  intros Hn Hok request recorded. subst request recorded.
  split; [|split].
  - simpl. unfold tryCandidate, fetch. unfold_M. rewrite Hn, Hok. simpl.
    match goal with
    | |- context [rememberOpenAiPreference C openAiBase ?t ?w0] =>
        pose proof (rememberOpenAiPreference_ok C openAiBase t w0) as Hr;
        destruct (rememberOpenAiPreference C openAiBase t w0) as [[[]|e] w2]
    end; simpl in *; [done|discriminate].
  - apply rememberOpenAiPreference_memory.
  - by destruct (rememberOpenAiPreference_sameWire C openAiBase (candidateType candidate)
                   (set_requests
                      ({| url := candidateUrl candidate;
                          credential := bearer apiKey;
                          payload := openAiRequestBody (candidateType candidate) model
                                       messages config |} :: requests w) w))
      as (_ & _ & ?).
Qed.

Lemma success_ends_the_loop_witness :
  (tryCandidates Sample.collaborators "https://api.openai.com/v1" "sk-test" "gpt-4o"
     (VArr []) Sample.noConfig Sample.bothCandidates None
     (Sample.world (fun _ => Sample.reply 200 "<html>"))).1
  = Throw SyntaxError.
Proof.
  destruct (success_ends_the_loop Sample.collaborators "https://api.openai.com/v1"
              "sk-test" "gpt-4o" (VArr []) Sample.noConfig
              {| candidateUrl := "https://api.openai.com/v1/responses";
                 candidateType := responses |}
              (tail Sample.bothCandidates) None
              (Sample.world (fun _ => Sample.reply 200 "<html>"))
              {| status := 200; statusText := ""; body := "<html>" |})
    as (Hrun & _); [reflexivity..|].
  unfold Sample.bothCandidates. simpl tail in Hrun. rewrite Hrun. reflexivity.
Defined.

(** X11.  When [fetch] itself rejects, the 'responses' shape falls through to the
    remaining candidates with that rejection as the last error, and the 'chat'
    shape throws it; no preference is recorded in either case. *)
Theorem rejected_fetch (C : Collaborators) (openAiBase apiKey model : string)
    (messages : Value) (config : ReasoningConfig) (candidate : EndpointCandidate)
    (rest : list EndpointCandidate) (lastError : option JsError) (w : World)
    (e : JsError) :
  network w (length (requests w)) = Throw e ->
  let sent :=
    set_requests
      ({| url := candidateUrl candidate;
          credential := bearer apiKey;
          payload := openAiRequestBody (candidateType candidate) model messages config |}
       :: requests w) w in
  tryCandidates C openAiBase apiKey model messages config (candidate :: rest) lastError w
  = match candidateType candidate with
    | responses =>
        tryCandidates C openAiBase apiKey model messages config rest (Some e) sent
    | chat => (Throw e, sent)
    end.
Proof.
  intros Hn sent. subst sent. simpl. unfold tryCandidate, fetch. unfold_M.
  rewrite Hn. simpl. by destruct (candidateType candidate).
Qed.

Lemma rejected_fetch_witness :
  (tryCandidates Sample.collaborators "https://api.openai.com/v1" "sk-test" "gpt-4o"
     (VArr []) Sample.noConfig Sample.bothCandidates None
     (Sample.world (fun _ => Throw TypeError))).1
  = Throw TypeError.
Proof.
  change Sample.bothCandidates
    with ({| candidateUrl := "https://api.openai.com/v1/responses";
             candidateType := responses |} :: tail Sample.bothCandidates).
  rewrite (rejected_fetch Sample.collaborators "https://api.openai.com/v1" "sk-test"
             "gpt-4o" (VArr []) Sample.noConfig
             {| candidateUrl := "https://api.openai.com/v1/responses";
                candidateType := responses |}
             (tail Sample.bothCandidates) None
             (Sample.world (fun _ => Throw TypeError)) TypeError eq_refl).
  reflexivity.
Defined.

(** ** What the drivers answer *)

Lemma openAiResult_ok (text : string) (response : Value) (t : string) :
  openAiResult text response = Ok t -> Js.nonEmpty t = true ∨ t = text.
Proof.
  unfold openAiResult.
  destruct (openAiRawResponseLog response); simpl; [|done].
  destruct (extractOpenAiText response) as [responseText|]; simpl; [|done].
  intros [= <-]. destruct (Js.nonEmpty responseText) eqn:E; simpl; auto.
Qed.

Lemma bind_ok {A B} (m : M A) (f : A -> M B) (w : World) (b : B) :
  ((m ≫= f) w).1 = Ok b -> exists a w1, m w = (Ok a, w1) ∧ (f a w1).1 = Ok b.
Proof.
  unfold_M. destruct (m w) as [[a|e] w1]; simpl; [eauto|done].
Qed.

Lemma tryFinally_fst {A} (m : M A) (f : World -> World) (w : World) :
  (tryFinally m f w).1 = (m w).1.
Proof. unfold tryFinally. by destruct (m w). Qed.

(** X12.  What [processWithOpenAI] answers is never an empty string put in place of
    the input: it is a text that is not empty, or the input text itself. *)
Theorem processWithOpenAI_answer (C : Collaborators) (text model : string)
    (agentName : option string) (config : ReasoningConfig) (w : World) (t : string) :
  (processWithOpenAI C text model agentName config w).1 = Ok t ->
  Js.nonEmpty t = true ∨ t = text.
Proof.
  unfold processWithOpenAI. intros H.
  apply bind_ok in H as ([|] & w0 & _ & H); [done|].
  apply bind_ok in H as (apiKey & w1 & _ & H).
  apply bind_ok in H as (_ & w2 & _ & H).
  rewrite tryFinally_fst in H.
  apply bind_ok in H as (openAiBase & w3 & _ & H).
  apply bind_ok in H as (candidates & w4 & _ & H).
  apply bind_ok in H as (_ & w5 & _ & H).
  apply bind_ok in H as (response & w6 & _ & H).
  by apply openAiResult_ok in H.
Qed.

Lemma processWithOpenAI_answer_witness :
  Js.nonEmpty "Hello." = true ∨ "Hello." = "hi".
Proof.
  apply (processWithOpenAI_answer Sample.collaborators "hi" "gpt-4o" None Sample.noConfig
           Sample.idleWorld "Hello.").
  reflexivity.
Defined.

Lemma chatCompletionText_ok (providerName : string) (response : Value) (t : string) :
  chatCompletionText providerName response = Ok t -> Js.nonEmpty t = true.
Proof.
  unfold chatCompletionText.
  destruct (Val.get response "choices") as [choices|]; simpl; [|done].
  case_match; [done|].
  destruct (Val.get (Val.optGet choices "0") "message") as [message|]; simpl; [|done].
  case_match; simpl.
  - done.
  - destruct (Val.callTrim _) as [s|]; simpl; [|done].
    destruct (Js.nonEmpty s) eqn:E; simpl; [|done]. by intros [= <-].
Qed.

Lemma chatCompletionText_without_choice (providerName : string) (response : Value) :
  firstChoice response = None ->
  chatCompletionText providerName response
  = Throw (if Val.nullish response then TypeError else invalidStructure providerName).
Proof.
  unfold firstChoice, chatCompletionText.
  destruct response as [| |b|q|s|l|fields]; simpl; try done.
  destruct (Val.truthy (Val.assoc "choices" fields)); simpl; [|done].
  by destruct (Val.truthy (Val.optGet (Val.assoc "choices" fields) "0")).
Qed.

Lemma get_present (v : Value) (k : string) :
  Val.truthy v = true -> Val.get v k = Ok (Val.optGet v k).
Proof.
  intros Hv. unfold Val.optGet.
  destruct (Val.get v k) as [x|e] eqn:E; [done|].
  destruct v; simpl in *; try done; repeat case_match; done.
Qed.

(** What the helper makes of a reply that has a first choice. *)
Lemma chatCompletionText_choice (providerName : string) (response choice : Value) :
  firstChoice response = Some choice ->
  chatCompletionText providerName response
  = match choiceContent choice with
    | VUndefined | VNull => Throw (Error (VStr (providerName +:+ " returned empty response")))
    | VStr s =>
        if Js.nonEmpty (Js.trim s) then Ok (Js.trim s)
        else Throw (Error (VStr (providerName +:+ " returned empty response")))
    | VBool _ | VNum _ | VArr _ | VObj _ => Throw TypeError
    end.
Proof.
  unfold firstChoice, chatCompletionText, choiceContent.
  destruct (Val.get response "choices") as [choices|e]; simpl; [|done].
  destruct (Val.truthy choices); simpl; [|done].
  destruct (Val.truthy (Val.optGet choices "0")) eqn:Ht; simpl; [|done].
  intros [= <-]. rewrite (get_present _ "message" Ht). simpl.
  destruct (Val.optGet (Val.optGet (Val.optGet choices "0") "message") "content");
    simpl; try done.
  by destruct (Js.nonEmpty (Js.trim _)).
Qed.

(** X13.  What [processWithGroq] answers is the trimmed
    [choices[0].message.content] of the 2xx reply that ended the retries, and
    it is never empty.  When that reply has a first choice whose content is
    missing ([null] or [undefined], also for a missing [message]) or is a
    string that is empty once trimmed, the driver throws "Groq returned empty
    response"; when it has no first choice, the driver throws "Invalid
    response structure from Groq API"; when the content is a string with
    something left after trimming, that is the answer.  In each case the guard
    is cleared and nothing else changes after the last request. *)
Theorem processWithGroq_answer (C : Collaborators) (text model : string)
    (agentName : option string) (config : ReasoningConfig) (w : World) :
  (forall t,
     (processWithGroq C text model agentName config w).1 = Ok t ->
     Js.nonEmpty t = true ∧
     exists res response choice s,
       network w (length (requests (processWithGroq C text model agentName config w).2) - 1)
       = Ok res ∧
       ok res = true ∧
       JSON_parse C (body res) = Some response ∧
       firstChoice response = Some choice ∧
       choiceContent choice = VStr s ∧
       t = Js.trim s) ∧
  (forall apiKey w1 response w3,
     isProcessing w = false ->
     getApiKey groq w = (Ok apiKey, w1) ->
     withRetry (postJson C "Groq" (groqRequest C apiKey text model agentName config))
       (createApiRetryStrategy C) (set_isProcessing true w1)
     = (Ok response, w3) ->
     (firstChoice response = None ->
      processWithGroq C text model agentName config w
      = (Throw (if Val.nullish response then TypeError else invalidStructure "Groq"),
         set_isProcessing false w3)) ∧
     (forall choice,
        firstChoice response = Some choice ->
        Val.nullish (choiceContent choice) = true ∨
        (exists s, choiceContent choice = VStr s ∧ Js.nonEmpty (Js.trim s) = false) ->
        processWithGroq C text model agentName config w
        = (Throw (Error (VStr "Groq returned empty response")), set_isProcessing false w3)) ∧
     (forall choice s,
        firstChoice response = Some choice ->
        choiceContent choice = VStr s ->
        Js.nonEmpty (Js.trim s) = true ->
        processWithGroq C text model agentName config w
        = (Ok (Js.trim s), set_isProcessing false w3))).
Proof.
  split.
  - intros t H.
    destruct (isProcessing w) eqn:Hidle.
    { by rewrite processWithGroq_busy in H. }
    destruct (getApiKey groq w) as [[apiKey|e] w1] eqn:Hkey.
    2:{ by rewrite (processWithGroq_keyless C text model agentName config w e w1) in H. }
    pose proof (processWithGroq_run C text model agentName config w apiKey w1 Hidle Hkey)
      as Hrun.
    destruct (withRetry (postJson C "Groq" (groqRequest C apiKey text model agentName config))
                (createApiRetryStrategy C) (set_isProcessing true w1))
      as [[response|e] w3] eqn:Hretry; simpl in Hrun; rewrite Hrun in H |- *; simpl in *;
      [|done].
    split; [by apply chatCompletionText_ok in H|].
    pose proof (getApiKey_sameWire groq w) as (_ & Hn & _).
    rewrite Hkey in Hn. simpl in Hn.
    apply withRetryFrom_postJson_ok in Hretry as (res & Hr & Hok & Hp & _).
    simpl in Hr. rewrite Hn in Hr.
    exists res, response.
    destruct (firstChoice response) as [choice|] eqn:Hc.
    + rewrite (chatCompletionText_choice "Groq" response choice Hc) in H.
      destruct (choiceContent choice) as [| |b|q|s|l|fields] eqn:Hs; try discriminate H.
      destruct (Js.nonEmpty (Js.trim s)); [|discriminate H].
      injection H as <-. by exists choice, s.
    + rewrite (chatCompletionText_without_choice "Groq" response Hc) in H. discriminate H.
  - intros apiKey w1 response w3 Hidle Hkey Hretry.
    pose proof (processWithGroq_run C text model agentName config w apiKey w1 Hidle Hkey)
      as Hrun.
    rewrite Hretry in Hrun. simpl in Hrun. rewrite Hrun.
    split; [|split].
    + intros Hc. by rewrite (chatCompletionText_without_choice "Groq" response Hc).
    + intros choice Hc Hempty.
      rewrite (chatCompletionText_choice "Groq" response choice Hc).
      destruct Hempty as [Hnull | (s & -> & ->)]; [|done].
      by destruct (choiceContent choice).
    + intros choice s Hc Hs Hn.
      by rewrite (chatCompletionText_choice "Groq" response choice Hc), Hs, Hn.
Qed.

Lemma processWithGroq_answer_witness :
  processWithGroq Sample.collaborators "hi" "llama-3" None Sample.noConfig
    (Sample.world (Scripted.unavailableTwice Sample.chatReply))
  = (Ok "Hello.",
     set_requests
       (replicate 3 (groqRequest Sample.collaborators "sk-test" "hi" "llama-3" None
                       Sample.noConfig))
       (set_apiKeyCache {[ "groq" := "sk-test" ]}
          (set_ipcCalls ["getGroqKey"]
             (Sample.world (Scripted.unavailableTwice Sample.chatReply))))) ∧
  processWithGroq (Scripted.reading (VObj [("choices", VArr [])]))
    "hi" "llama-3" None Sample.noConfig Sample.idleWorld
  = (Throw (invalidStructure "Groq"),
     set_requests
       [groqRequest (Scripted.reading (VObj [("choices", VArr [])]))
          "sk-test" "hi" "llama-3" None Sample.noConfig]
       (set_apiKeyCache {[ "groq" := "sk-test" ]}
          (set_ipcCalls ["getGroqKey"] Sample.idleWorld))) ∧
  Js.nonEmpty "Hello." = true ∧
  processWithGroq
    (Scripted.reading (VObj [("choices", VArr [VObj [("message", VObj [])]])]))
    "hi" "llama-3" None Sample.noConfig Sample.idleWorld
  = (Throw (Error (VStr "Groq returned empty response")),
     set_requests
       [groqRequest
          (Scripted.reading (VObj [("choices", VArr [VObj [("message", VObj [])]])]))
          "sk-test" "hi" "llama-3" None Sample.noConfig]
       (set_apiKeyCache {[ "groq" := "sk-test" ]}
          (set_ipcCalls ["getGroqKey"] Sample.idleWorld))) ∧
  processWithGroq
    (Scripted.reading
       (VObj [("choices", VArr [VObj [("message", VObj [("content", VStr "  ")])]])]))
    "hi" "llama-3" None Sample.noConfig Sample.idleWorld
  = (Throw (Error (VStr "Groq returned empty response")),
     set_requests
       [groqRequest
          (Scripted.reading
             (VObj [("choices", VArr [VObj [("message", VObj [("content", VStr "  ")])]])]))
          "sk-test" "hi" "llama-3" None Sample.noConfig]
       (set_apiKeyCache {[ "groq" := "sk-test" ]}
          (set_ipcCalls ["getGroqKey"] Sample.idleWorld))).
Proof.
  split; [|split; [|split; [|split]]].
  - destruct (processWithGroq_answer Sample.collaborators "hi" "llama-3" None
                Sample.noConfig (Sample.world (Scripted.unavailableTwice Sample.chatReply)))
      as (_ & Hreplies).
    destruct (Hreplies "sk-test"
                (set_apiKeyCache {[ "groq" := "sk-test" ]}
                   (set_ipcCalls ["getGroqKey"]
                      (Sample.world (Scripted.unavailableTwice Sample.chatReply))))
                (VObj [("choices",
                        VArr [VObj [("message", VObj [("content", VStr " Hello. ")])]])])
                (set_requests
                   (replicate 3 (groqRequest Sample.collaborators "sk-test" "hi" "llama-3"
                                   None Sample.noConfig))
                   (set_isProcessing true
                      (set_apiKeyCache {[ "groq" := "sk-test" ]}
                         (set_ipcCalls ["getGroqKey"]
                            (Sample.world (Scripted.unavailableTwice Sample.chatReply))))))
                eq_refl eq_refl eq_refl) as (_ & _ & Hanswered).
    apply (Hanswered (VObj [("message", VObj [("content", VStr " Hello. ")])]) " Hello. ");
      reflexivity.
  - destruct (processWithGroq_answer (Scripted.reading (VObj [("choices", VArr [])]))
                "hi" "llama-3" None Sample.noConfig Sample.idleWorld) as (_ & Hreplies).
    destruct (Hreplies "sk-test"
                (set_apiKeyCache {[ "groq" := "sk-test" ]}
                   (set_ipcCalls ["getGroqKey"] Sample.idleWorld))
                (VObj [("choices", VArr [])])
                (set_requests
                   [groqRequest (Scripted.reading (VObj [("choices", VArr [])]))
                      "sk-test" "hi" "llama-3" None Sample.noConfig]
                   (set_isProcessing true
                      (set_apiKeyCache {[ "groq" := "sk-test" ]}
                         (set_ipcCalls ["getGroqKey"] Sample.idleWorld))))
                eq_refl eq_refl eq_refl) as (Hnone & _).
    apply Hnone. reflexivity.
  - destruct (processWithGroq_answer Sample.collaborators "hi" "llama-3" None
                Sample.noConfig Sample.idleWorld) as (Hanswer & _).
    destruct (Hanswer "Hello." eq_refl) as (Hfull & _). exact Hfull.
  - destruct (processWithGroq_answer
                (Scripted.reading (VObj [("choices", VArr [VObj [("message", VObj [])]])]))
                "hi" "llama-3" None Sample.noConfig Sample.idleWorld) as (_ & Herrors).
    destruct (Herrors "sk-test"
                (set_apiKeyCache {[ "groq" := "sk-test" ]}
                   (set_ipcCalls ["getGroqKey"] Sample.idleWorld))
                (VObj [("choices", VArr [VObj [("message", VObj [])]])])
                (set_requests
                   [groqRequest
                      (Scripted.reading
                         (VObj [("choices", VArr [VObj [("message", VObj [])]])]))
                      "sk-test" "hi" "llama-3" None Sample.noConfig]
                   (set_isProcessing true
                      (set_apiKeyCache {[ "groq" := "sk-test" ]}
                         (set_ipcCalls ["getGroqKey"] Sample.idleWorld))))
                eq_refl eq_refl eq_refl) as (_ & Hempty & _).
    apply (Hempty (VObj [("message", VObj [])]) eq_refl). left. reflexivity.
  - destruct (processWithGroq_answer
                (Scripted.reading
                   (VObj [("choices",
                           VArr [VObj [("message", VObj [("content", VStr "  ")])]])]))
                "hi" "llama-3" None Sample.noConfig Sample.idleWorld) as (_ & Herrors).
    destruct (Herrors "sk-test"
                (set_apiKeyCache {[ "groq" := "sk-test" ]}
                   (set_ipcCalls ["getGroqKey"] Sample.idleWorld))
                (VObj [("choices",
                        VArr [VObj [("message", VObj [("content", VStr "  ")])]])])
                (set_requests
                   [groqRequest
                      (Scripted.reading
                         (VObj [("choices",
                                 VArr [VObj [("message", VObj [("content", VStr "  ")])]])]))
                      "sk-test" "hi" "llama-3" None Sample.noConfig]
                   (set_isProcessing true
                      (set_apiKeyCache {[ "groq" := "sk-test" ]}
                         (set_ipcCalls ["getGroqKey"] Sample.idleWorld))))
                eq_refl eq_refl eq_refl) as (_ & Hempty & _).
    apply (Hempty (VObj [("message", VObj [("content", VStr "  ")])]) eq_refl).
    right. exists "  ". split; reflexivity.
Defined.

(** [processWithGemini] answers only with the trimmed text of the first
    candidate: a reply is turned into an answer exactly when it has a first
    candidate whose [content.parts[0].text] is a string that is not empty. *)
Theorem geminiResult_answer (response : Value) (t : string) :
  geminiResult response = Ok t <->
  exists candidate s,
    firstCandidate response = Some candidate ∧
    geminiCandidateText candidate = VStr s ∧
    Js.nonEmpty s = true ∧
    t = Js.trim s.
Proof.
  unfold geminiResult, firstCandidate.
  destruct (Val.get response "candidates") as [candidates|]; simpl.
  2:{ split; [done|]. by intros (? & ? & ? & _). }
  destruct (Val.truthy candidates); simpl.
  2:{ split; [done|]. by intros (? & ? & ? & _). }
  destruct (Val.truthy (Val.optGet candidates "0")); simpl.
  2:{ split; [done|]. by intros (? & ? & ? & _). }
  split.
  - intros H.
    destruct (Val.truthy (geminiCandidateText (Val.optGet candidates "0"))) eqn:Ht;
      simpl in H; [|by destruct (Val.isStr _ _)].
    destruct (geminiCandidateText (Val.optGet candidates "0")) as [| |b|q|s|l|fields] eqn:E;
      simpl in H; try discriminate H.
    injection H as <-. exists (Val.optGet candidates "0"), s. done.
  - intros (c & s & [= <-] & Hs & Hn & ->). rewrite Hs. simpl. by rewrite Hn.
Qed.

Lemma geminiResult_answer_witness :
  exists candidate s,
    firstCandidate
      (VObj [("candidates",
              VArr [VObj [("content",
                           VObj [("parts", VArr [VObj [("text", VStr " Hi. ")]])])]])])
    = Some candidate ∧
    geminiCandidateText candidate = VStr s ∧
    Js.nonEmpty s = true ∧
    "Hi." = Js.trim s.
Proof.
  apply (geminiResult_answer
           (VObj [("candidates",
                   VArr [VObj [("content",
                                VObj [("parts", VArr [VObj [("text", VStr " Hi. ")]])])]])])
           "Hi.").
  reflexivity.
Defined.

(** X14.  An answer of [processWithGemini] is the trimmed
    [content.parts[0].text] of the first candidate of the 2xx reply that ended
    the retries (the reply of the network to the latest request, read by
    [JSON.parse]), a text that was a string and not empty before trimming; the
    input text is never put in its place.  Conversely, a reply with such a
    text is answered with it, trimmed, and the guard is cleared. *)
Theorem processWithGemini_answer (C : Collaborators) (text model : string)
    (agentName : option string) (config : ReasoningConfig) (w : World) :
  (forall t,
     (processWithGemini C text model agentName config w).1 = Ok t ->
     exists res response candidate s,
       network w (length (requests (processWithGemini C text model agentName config w).2) - 1)
       = Ok res ∧
       ok res = true ∧
       JSON_parse C (body res) = Some response ∧
       firstCandidate response = Some candidate ∧
       geminiCandidateText candidate = VStr s ∧
       Js.nonEmpty s = true ∧
       t = Js.trim s) ∧
  (forall apiKey w1 response w3 candidate s,
     isProcessing w = false ->
     getApiKey gemini w = (Ok apiKey, w1) ->
     withRetry (postJson C "Gemini" (geminiRequest C apiKey text model agentName config))
       (createApiRetryStrategy C) (set_isProcessing true w1)
     = (Ok response, w3) ->
     firstCandidate response = Some candidate ->
     geminiCandidateText candidate = VStr s ->
     Js.nonEmpty s = true ->
     processWithGemini C text model agentName config w
     = (Ok (Js.trim s), set_isProcessing false w3)).
Proof.
  split.
  - intros t H.
    destruct (isProcessing w) eqn:Hidle.
    { by rewrite processWithGemini_busy in H. }
    destruct (getApiKey gemini w) as [[apiKey|e] w1] eqn:Hkey.
    2:{ by rewrite (processWithGemini_keyless C text model agentName config w e w1) in H. }
    pose proof (processWithGemini_run C text model agentName config w apiKey w1 Hidle Hkey)
      as Hrun.
    destruct (withRetry
                (postJson C "Gemini" (geminiRequest C apiKey text model agentName config))
                (createApiRetryStrategy C) (set_isProcessing true w1))
      as [[response|e] w3] eqn:Hretry; simpl in Hrun; rewrite Hrun in H |- *; simpl in *;
      [|done].
    pose proof (getApiKey_sameWire gemini w) as (_ & Hn & _).
    rewrite Hkey in Hn. simpl in Hn.
    apply withRetryFrom_postJson_ok in Hretry as (res & Hr & Hok & Hp & _).
    simpl in Hr. rewrite Hn in Hr.
    apply geminiResult_answer in H as (candidate & s & Hc & Hs & Hfull & ->).
    by exists res, response, candidate, s.
  - intros apiKey w1 response w3 candidate s Hidle Hkey Hretry Hc Hs Hfull.
    rewrite (processWithGemini_run C text model agentName config w apiKey w1 Hidle Hkey).
    rewrite Hretry. simpl. f_equal.
    apply geminiResult_answer. by exists candidate, s.
Qed.

Lemma processWithGemini_answer_witness :
  (exists res response candidate s,
     Sample.reply 200 Sample.chatReply = Ok res ∧
     ok res = true ∧
     Some (VObj [("candidates",
                  VArr [VObj [("content",
                               VObj [("parts", VArr [VObj [("text", VStr " Hi. ")]])])]])])
     = Some response ∧
     firstCandidate response = Some candidate ∧
     geminiCandidateText candidate = VStr s ∧
     Js.nonEmpty s = true ∧
     "Hi." = Js.trim s) ∧
  processWithGemini
    (Scripted.reading
       (VObj [("candidates",
               VArr [VObj [("content",
                            VObj [("parts", VArr [VObj [("text", VStr " Hi. ")]])])]])]))
    "hi" "gemini-2.5-pro" None Sample.noConfig Sample.idleWorld
  = (Ok "Hi.",
     set_requests
       [geminiRequest
          (Scripted.reading
             (VObj [("candidates",
                     VArr [VObj [("content",
                                  VObj [("parts", VArr [VObj [("text", VStr " Hi. ")]])])]])]))
          "sk-test" "hi" "gemini-2.5-pro" None Sample.noConfig]
       (set_apiKeyCache {[ "gemini" := "sk-test" ]}
          (set_ipcCalls ["getGeminiKey"] Sample.idleWorld))).
Proof.
  destruct (processWithGemini_answer
              (Scripted.reading
                 (VObj [("candidates",
                         VArr [VObj [("content",
                                      VObj [("parts",
                                             VArr [VObj [("text", VStr " Hi. ")]])])]])]))
              "hi" "gemini-2.5-pro" None Sample.noConfig Sample.idleWorld)
    as (Hanswer & Hanswered).
  split; [exact (Hanswer "Hi." eq_refl)|].
  apply (Hanswered "sk-test"
           (set_apiKeyCache {[ "gemini" := "sk-test" ]}
              (set_ipcCalls ["getGeminiKey"] Sample.idleWorld))
           (VObj [("candidates",
                   VArr [VObj [("content",
                                VObj [("parts", VArr [VObj [("text", VStr " Hi. ")]])])]])])
           (set_requests
              [geminiRequest
                 (Scripted.reading
                    (VObj [("candidates",
                            VArr [VObj [("content",
                                         VObj [("parts",
                                                VArr [VObj [("text", VStr " Hi. ")]])])]])]))
                 "sk-test" "hi" "gemini-2.5-pro" None Sample.noConfig]
              (set_isProcessing true
                 (set_apiKeyCache {[ "gemini" := "sk-test" ]}
                    (set_ipcCalls ["getGeminiKey"] Sample.idleWorld))))
           (VObj [("content", VObj [("parts", VArr [VObj [("text", VStr " Hi. ")]])])])
           " Hi. ");
    reflexivity.
Defined.

(** ** A driver without a key *)

Section NoKey.

Variable C : Collaborators.
Variables (text model : string) (agentName : option string) (config : ReasoningConfig).

Lemma guarded_without_key (provider : KeyProvider) (body : string -> M string) w e :
  (getApiKey provider w).1 = Throw e ->
  (apiKey ← getApiKey provider;
   modify (set_isProcessing true);;
   tryFinally (body apiKey) (set_isProcessing false)) w
  = (Throw e, (getApiKey provider w).2).
Proof.
  intros H. unfold_M. destruct (getApiKey provider w) as [[k|e'] w1]; simpl in *; [done|].
  by injection H as ->.
Qed.

End NoKey.

(** X15.  A direct driver that cannot get its key stops there: it throws what
    [getApiKey] threw, sends no request, and the guard, which it never set,
    is still clear. *)
Theorem driver_without_key (C : Collaborators) (text model : string)
    (agentName : option string) (config : ReasoningConfig) (w : World) (e : JsError) :
  isProcessing w = false ->
  ((getApiKey openai w).1 = Throw e ->
   processWithOpenAI C text model agentName config w = (Throw e, (getApiKey openai w).2)) ∧
  ((getApiKey gemini w).1 = Throw e ->
   processWithGemini C text model agentName config w = (Throw e, (getApiKey gemini w).2)) ∧
  ((getApiKey groq w).1 = Throw e ->
   processWithGroq C text model agentName config w = (Throw e, (getApiKey groq w).2)) ∧
  (forall provider, sameWire w (getApiKey provider w).2).
Proof.
  intros Hidle. split; [|split; [|split]].
  - intros H. unfold processWithOpenAI.
    unfold mbind at 1, M_bind at 1, gets at 1. rewrite Hidle. cbv beta iota.
    by apply (guarded_without_key openai).
  - intros H. unfold processWithGemini.
    unfold mbind at 1, M_bind at 1, gets at 1. rewrite Hidle. cbv beta iota.
    by apply (guarded_without_key gemini).
  - intros H. unfold processWithGroq.
    unfold mbind at 1, M_bind at 1, gets at 1. rewrite Hidle. cbv beta iota.
    by apply (guarded_without_key groq).
  - intros provider. apply getApiKey_sameWire.
Qed.

Lemma driver_without_key_witness :
  processWithGroq Sample.collaborators "hi" "llama-3" None Sample.noConfig
    Restart.brokenWorld
  = (Throw (Error (VStr "Groq API key not configured")),
     set_ipcCalls ["getGroqKey"] Restart.brokenWorld).
Proof.
  destruct (driver_without_key Sample.collaborators "hi" "llama-3" None Sample.noConfig
              Restart.brokenWorld (Error (VStr "Groq API key not configured")) eq_refl)
    as (_ & _ & Hgroq & _).
  apply Hgroq. reflexivity.
Defined.

(** ** The delegated drivers and the entry point *)

Lemma delegate_local channel call unavailable w :
  (delegate channel call unavailable w).2
  = set_ipcCalls
      (match electronAPI w with
       | Some _ => channel :: ipcCalls w
       | None => ipcCalls w
       end) w ∧
  (delegate channel call unavailable w).1
  = match electronAPI w with
    | Some api =>
        match call api with
        | Ok (IpcSuccess t) => Ok t
        | Ok (IpcFailure error) => Throw (Error (VStr error))
        | Throw e => Throw e
        end
    | None => Throw (Error (VStr unavailable))
    end.
Proof.
  unfold delegate. unfold_M.
  destruct w as [busy cache prefs storage [api|] net reqs calls]; simpl; [|done].
  by destruct (call api) as [[t|error]|e].
Qed.

(** X16.  [processWithAnthropic] and [processWithLocal] work through the delegated
    channel alone: they send no request, look up no key and leave cache,
    guard, preferences and storage as they are.  Outside Electron they throw
    without a call; in Electron they make one call, answer its text as it
    comes, untrimmed, and throw its error message as it comes. *)
Theorem delegated_drivers_stay_local (text model : string) (agentName : option string)
    (config : ReasoningConfig) (w : World) :
  (processWithAnthropic text model agentName config w).2
  = set_ipcCalls
      (match electronAPI w with
       | Some _ => "processAnthropicReasoning" :: ipcCalls w
       | None => ipcCalls w
       end) w ∧
  (processWithLocal text model agentName config w).2
  = set_ipcCalls
      (match electronAPI w with
       | Some _ => "processLocalReasoning" :: ipcCalls w
       | None => ipcCalls w
       end) w ∧
  (processWithAnthropic text model agentName config w).1
  = match electronAPI w with
    | Some api =>
        match processAnthropicReasoning api text model agentName config with
        | Ok (IpcSuccess t) => Ok t
        | Ok (IpcFailure error) => Throw (Error (VStr error))
        | Throw e => Throw e
        end
    | None => Throw (Error (VStr "Anthropic reasoning is not available in this environment"))
    end ∧
  (processWithLocal text model agentName config w).1
  = match electronAPI w with
    | Some api =>
        match processLocalReasoning api text model agentName config with
        | Ok (IpcSuccess t) => Ok t
        | Ok (IpcFailure error) => Throw (Error (VStr error))
        | Throw e => Throw e
        end
    | None => Throw (Error (VStr "Local reasoning is not available in this environment"))
    end.
Proof.
  unfold processWithAnthropic, processWithLocal.
  repeat split; apply delegate_local.
Qed.

(** X17.  A call of [processText] begun with the guard clear ends with the guard
    clear, for every provider and every outcome: no failure leaves the service
    locked. *)
Theorem processText_leaves_guard_clear (C : Collaborators) (text model : string)
    (agentName : option string) (config : ReasoningConfig) (w : World) :
  isProcessing w = false ->
  isProcessing (processText C text model agentName config w).2 = false.
Proof.
  intros Hidle. unfold processText. case_match; [done|].
  repeat case_match;
    auto using processWithOpenAI_released, processWithGemini_released,
      processWithGroq_released.
  - unfold processWithAnthropic.
    destruct (delegate_local "processAnthropicReasoning"
                (fun api => processAnthropicReasoning api text (Js.trim model) agentName
                              config)
                "Anthropic reasoning is not available in this environment" w) as [-> _].
    done.
  - unfold processWithLocal.
    destruct (delegate_local "processLocalReasoning"
                (fun api => processLocalReasoning api text (Js.trim model) agentName config)
                "Local reasoning is not available in this environment" w) as [-> _].
    done.
Qed.

Lemma processText_leaves_guard_clear_witness :
  isProcessing
    (processText Sample.collaborators "hi" "gpt-4o" None Sample.noConfig
       (Sample.world (fun _ => Throw TypeError))).2 = false.
Proof.
  apply (processText_leaves_guard_clear Sample.collaborators "hi" "gpt-4o" None
           Sample.noConfig (Sample.world (fun _ => Throw TypeError))).
  reflexivity.
Defined.

(** * Properties of the window manager *)

Section Windows.

Import WindowManager.

Lemma getPanelVisibilityMode_window m :
  mainWindow (getPanelVisibilityMode m).2 = mainWindow m ∧
  sent (getPanelVisibilityMode m).2 = sent m ∧
  listeningMode (getPanelVisibilityMode m).2 = listeningMode m.
Proof.
  unfold getPanelVisibilityMode.
  repeat (case_match; simplify_eq/=); done.
Qed.

End Windows.

(** X18.  The panel visibility mode is always one of "hidden", "transcribing" and
    "always".  As long as the cache holds nothing else, which
    [setCachedVisibilityMode] and [getPanelVisibilityMode] see to whatever
    they are given and whatever the renderer has stored,
    [getPanelVisibilityMode] answers one of the three. *)
Theorem visibility_mode_valid (m : WindowManager.Manager) (given : string) :
  (forall mode, WindowManager.cachedVisibilityMode m = Some mode ->
                WindowManager.isMode mode = true) ->
  WindowManager.isMode (WindowManager.getPanelVisibilityMode m).1 = true ∧
  (forall mode,
     WindowManager.cachedVisibilityMode (WindowManager.getPanelVisibilityMode m).2
     = Some mode ->
     WindowManager.isMode mode = true) ∧
  (forall mode,
     WindowManager.cachedVisibilityMode (WindowManager.setCachedVisibilityMode given m)
     = Some mode ->
     WindowManager.isMode mode = true).
Proof.
  intros Hinv. split; [|split].
  - unfold WindowManager.getPanelVisibilityMode.
    destruct (WindowManager.cachedVisibilityMode m) as [cached|] eqn:Hc; simpl; [eauto|].
    repeat (case_match; simplify_eq/=); try done.
    unfold WindowManager.isMode.
    match goal with H : _ || _ = true |- _ => apply orb_prop in H as [-> | ->] end;
      by rewrite ?orb_true_r.
  - unfold WindowManager.getPanelVisibilityMode. intros mode.
    destruct (WindowManager.cachedVisibilityMode m) as [cached|] eqn:Hc; simpl;
      [rewrite Hc; eauto|].
    repeat (case_match; simplify_eq/=); try congruence; intros [= <-]; try done.
    unfold WindowManager.isMode.
    match goal with H : _ || _ = true |- _ => apply orb_prop in H as [-> | ->] end;
      by rewrite ?orb_true_r.
  - unfold WindowManager.setCachedVisibilityMode. intros mode.
    destruct (WindowManager.isMode given) eqn:Hg; simpl; [by intros [= <-]|eauto].
Qed.

Lemma visibility_mode_valid_witness :
  WindowManager.isMode
    (WindowManager.getPanelVisibilityMode
       (WindowManager.fresh (Ok {[ "panelVisibilityMode" := "sometimes" ]}))).1 = true.
Proof.
  destruct (visibility_mode_valid
              (WindowManager.fresh (Ok {[ "panelVisibilityMode" := "sometimes" ]})) "")
    as (Hvalid & _); [|exact Hvalid].
  intros mode H. discriminate H.
Defined.

(** X19.  A mode set through [setCachedVisibilityMode] is what
    [getPanelVisibilityMode] answers, with no question to the renderer and
    nothing changed, even without a window; a value that is no mode leaves the
    manager as it was. *)
Theorem cached_mode_answered (m : WindowManager.Manager) (mode : string) :
  (WindowManager.isMode mode = true ->
   WindowManager.getPanelVisibilityMode (WindowManager.setCachedVisibilityMode mode m)
   = (mode, WindowManager.setCachedVisibilityMode mode m)) ∧
  (WindowManager.isMode mode = false ->
   WindowManager.setCachedVisibilityMode mode m = m).
Proof.
  unfold WindowManager.setCachedVisibilityMode, WindowManager.getPanelVisibilityMode.
  split; intros ->; done.
Qed.

Lemma cached_mode_answered_witness :
  WindowManager.getPanelVisibilityMode
    (WindowManager.setCachedVisibilityMode "hidden"
       (WindowManager.fresh (Throw TypeError)))
  = ("hidden",
     WindowManager.setCachedVisibilityMode "hidden" (WindowManager.fresh (Throw TypeError))).
Proof.
  apply (cached_mode_answered (WindowManager.fresh (Throw TypeError)) "hidden").
  reflexivity.
Defined.

(** X20.  With nothing cached, the mode read from the renderer of a live window is
    answered and cached: the stored value when it is "hidden" or
    "transcribing", and "always" for anything else or for nothing stored;
    nothing but the cache changes.  Every later call answers the cached mode
    without asking, whatever the renderer holds by then.  When the renderer
    cannot be asked (no window, a destroyed one, a rejected call) the answer
    is "always", nothing is cached, and the next call asks again. *)
Theorem visibility_mode_read_once (m : WindowManager.Manager) :
  WindowManager.cachedVisibilityMode m = None ->
  (forall win storage,
     WindowManager.mainWindow m = Some win ->
     WindowManager.destroyed win = false ->
     WindowManager.rendererStorage m = Ok storage ->
     exists mode,
       mode = (if String.eqb (WindowManager.getItemOr storage "panelVisibilityMode" "always")
                    "hidden"
                  || String.eqb (WindowManager.getItemOr storage "panelVisibilityMode" "always")
                       "transcribing"
               then WindowManager.getItemOr storage "panelVisibilityMode" "always"
               else "always") ∧
       WindowManager.getPanelVisibilityMode m
       = (mode, WindowManager.set_cachedVisibilityMode (Some mode) m) ∧
       WindowManager.cachedVisibilityMode (WindowManager.getPanelVisibilityMode m).2
       = Some mode ∧
       WindowManager.getPanelVisibilityMode (WindowManager.getPanelVisibilityMode m).2
       = WindowManager.getPanelVisibilityMode m ∧
       (forall later,
          WindowManager.cachedVisibilityMode later
          = WindowManager.cachedVisibilityMode (WindowManager.getPanelVisibilityMode m).2 ->
          WindowManager.getPanelVisibilityMode later = (mode, later))) ∧
  ((WindowManager.mainWindow m = None ∨
    (exists win, WindowManager.mainWindow m = Some win ∧
                 WindowManager.destroyed win = true) ∨
    (exists e, WindowManager.rendererStorage m = Throw e)) ->
   WindowManager.getPanelVisibilityMode m = ("always", m) ∧
   WindowManager.cachedVisibilityMode (WindowManager.getPanelVisibilityMode m).2 = None).
Proof.
  intros Hc. split.
  - intros win storage Hw Hd Hr. eexists. split; [reflexivity|].
    assert (WindowManager.getPanelVisibilityMode m
            = ((if String.eqb (WindowManager.getItemOr storage "panelVisibilityMode" "always")
                     "hidden"
                   || String.eqb
                        (WindowManager.getItemOr storage "panelVisibilityMode" "always")
                        "transcribing"
                then WindowManager.getItemOr storage "panelVisibilityMode" "always"
                else "always"),
               WindowManager.set_cachedVisibilityMode
                 (Some (if String.eqb
                             (WindowManager.getItemOr storage "panelVisibilityMode" "always")
                             "hidden"
                           || String.eqb
                                (WindowManager.getItemOr storage "panelVisibilityMode" "always")
                                "transcribing"
                        then WindowManager.getItemOr storage "panelVisibilityMode" "always"
                        else "always")) m)) as Hread.
    { unfold WindowManager.getPanelVisibilityMode. rewrite Hc, Hw, Hd, Hr.
      by case_match. }
    rewrite Hread. simpl. repeat split.
    intros later Hlater. unfold WindowManager.getPanelVisibilityMode. by rewrite Hlater.
  - assert (WindowManager.mainWindow m = None ∨
            (exists win, WindowManager.mainWindow m = Some win ∧
                         WindowManager.destroyed win = true) ∨
            (exists e, WindowManager.rendererStorage m = Throw e) ->
            WindowManager.getPanelVisibilityMode m = ("always", m)) as Hfail.
    { unfold WindowManager.getPanelVisibilityMode. rewrite Hc.
      intros [-> | [(win & -> & ->) | (e & ->)]]; [done..|].
      by repeat case_match. }
    intros H. by rewrite (Hfail H).
Qed.

Lemma visibility_mode_read_once_witness :
  WindowManager.getPanelVisibilityMode
    (WindowManager.fresh (Ok {[ "panelVisibilityMode" := "transcribing" ]}))
  = ("transcribing",
     WindowManager.set_cachedVisibilityMode (Some "transcribing")
       (WindowManager.fresh (Ok {[ "panelVisibilityMode" := "transcribing" ]}))) ∧
  WindowManager.getPanelVisibilityMode
    (WindowManager.set_cachedVisibilityMode (Some "transcribing")
       (WindowManager.fresh (Ok {[ "panelVisibilityMode" := "hidden" ]})))
  = ("transcribing",
     WindowManager.set_cachedVisibilityMode (Some "transcribing")
       (WindowManager.fresh (Ok {[ "panelVisibilityMode" := "hidden" ]}))) ∧
  WindowManager.getPanelVisibilityMode (WindowManager.fresh (Throw TypeError))
  = ("always", WindowManager.fresh (Throw TypeError)).
Proof.
  destruct (visibility_mode_read_once
              (WindowManager.fresh (Ok {[ "panelVisibilityMode" := "transcribing" ]}))
              eq_refl) as (Hread & _).
  destruct (Hread {| WindowManager.destroyed := false; WindowManager.visible := false |}
              {[ "panelVisibilityMode" := "transcribing" ]} eq_refl eq_refl eq_refl)
    as (mode & -> & Hfirst & _ & _ & Hlater).
  split; [exact Hfirst|split].
  - apply (Hlater (WindowManager.set_cachedVisibilityMode (Some "transcribing")
                     (WindowManager.fresh (Ok {[ "panelVisibilityMode" := "hidden" ]})))).
    reflexivity.
  - destruct (visibility_mode_read_once (WindowManager.fresh (Throw TypeError)) eq_refl)
      as (_ & Hfail).
    apply Hfail. right. right. exists TypeError. reflexivity.
Defined.

(** X21.  The hotkey callback is debounced: in listening mode, or less than 150 ms
    after the last toggle, it does nothing at all.  A call that passes sets
    the time of the last toggle to now, also when it then fails, so that a
    second press less than 150 ms after a first one is ignored. *)
Theorem hotkey_debounced (now later lastToggleTime : Z) (m : WindowManager.Manager) :
  (WindowManager.listeningMode m = true ∨ (now - lastToggleTime < 150)%Z ->
   WindowManager.hotkeyCallback now lastToggleTime m = (Ok tt, (lastToggleTime, m))) ∧
  (WindowManager.listeningMode m = false -> (150 <= now - lastToggleTime)%Z ->
   (WindowManager.hotkeyCallback now lastToggleTime m).2.1 = now ∧
   ((later - now < 150)%Z ->
    WindowManager.hotkeyCallback later now
      (WindowManager.hotkeyCallback now lastToggleTime m).2.2
    = (Ok tt, (now, (WindowManager.hotkeyCallback now lastToggleTime m).2.2)))).
Proof.
  assert (forall t last m0, (t - last < 150)%Z ->
            WindowManager.hotkeyCallback t last m0 = (Ok tt, (last, m0))) as Hskip.
  { intros t last m0 H. unfold WindowManager.hotkeyCallback, WindowManager.DEBOUNCE_MS.
    destruct (WindowManager.listeningMode m0); [done|].
    by destruct (Z.ltb_spec (t - last) 150); [|lia]. }
  split.
  - intros [Hl|Hd]; [|by apply Hskip].
    unfold WindowManager.hotkeyCallback. by rewrite Hl.
  - intros Hl Hd.
    assert ((WindowManager.hotkeyCallback now lastToggleTime m).2.1 = now) as Hnow.
    { unfold WindowManager.hotkeyCallback, WindowManager.DEBOUNCE_MS. rewrite Hl.
      destruct (Z.ltb_spec (now - lastToggleTime) 150); [lia|].
      repeat (case_match; simplify_eq/=); done. }
    split; [done|]. intros Hlater. by apply Hskip.
Qed.

Lemma hotkey_debounced_witness :
  WindowManager.hotkeyCallback 1100 1000
    (WindowManager.hotkeyCallback 1000 0 (WindowManager.fresh (Ok ∅))).2.2
  = (Ok tt, (1000%Z, (WindowManager.hotkeyCallback 1000 0 (WindowManager.fresh (Ok ∅))).2.2)).
Proof.
  destruct (hotkey_debounced 1000 1100 0 (WindowManager.fresh (Ok ∅))) as (_ & Hpass).
  apply Hpass; [reflexivity|lia|lia].
Defined.

(** X22.  A hotkey press that passes the debounce, with a live window, sends
    "toggle-dictation" once and shows the window unless the visibility mode is
    "hidden", in which case the window stays as it is.  Without a window the
    callback throws a [TypeError]: it does not test for one. *)
Theorem hotkey_toggles (now lastToggleTime : Z) (m : WindowManager.Manager)
    (win : WindowManager.BrowserWindow) :
  WindowManager.listeningMode m = false ->
  (150 <= now - lastToggleTime)%Z ->
  (WindowManager.mainWindow m = Some win -> WindowManager.destroyed win = false ->
   (WindowManager.hotkeyCallback now lastToggleTime m).1 = Ok tt ∧
   WindowManager.sent (WindowManager.hotkeyCallback now lastToggleTime m).2.2
   = "toggle-dictation" :: WindowManager.sent m ∧
   WindowManager.mainWindow (WindowManager.hotkeyCallback now lastToggleTime m).2.2
   = Some {| WindowManager.destroyed := false;
             WindowManager.visible :=
               WindowManager.visible win
               || negb (String.eqb (WindowManager.getPanelVisibilityMode m).1 "hidden") |}) ∧
  (WindowManager.mainWindow m = None ->
   (WindowManager.hotkeyCallback now lastToggleTime m).1 = Throw TypeError ∧
   WindowManager.sent (WindowManager.hotkeyCallback now lastToggleTime m).2.2
   = WindowManager.sent m).
Proof.
  intros Hl Hd.
  unfold WindowManager.hotkeyCallback, WindowManager.DEBOUNCE_MS. rewrite Hl.
  destruct (Z.ltb_spec (now - lastToggleTime) 150); [lia|].
  destruct (getPanelVisibilityMode_window m) as (Hw & Hs & _).
  destruct (WindowManager.getPanelVisibilityMode m) as [mode m1]; simpl in *.
  unfold WindowManager.showIfHidden, WindowManager.send.
  split.
  - intros Hwin Hdes. rewrite Hwin in Hw.
    destruct win as [d v]. simpl in Hdes. subst d.
    destruct (String.eqb mode "hidden"); simpl.
    + rewrite Hw. simpl. rewrite Hs, orb_false_r. done.
    + rewrite Hw. simpl. destruct v; simpl; rewrite ?Hw; simpl; by rewrite Hs.
  - intros Hwin. rewrite Hwin in Hw.
    destruct (String.eqb mode "hidden"); simpl; rewrite Hw; simpl; by rewrite ?Hs.
Qed.

Lemma hotkey_toggles_witness :
  WindowManager.sent
    (WindowManager.hotkeyCallback 1000 0
       (WindowManager.fresh (Ok {[ "panelVisibilityMode" := "hidden" ]}))).2.2
  = ["toggle-dictation"] ∧
  WindowManager.mainWindow
    (WindowManager.hotkeyCallback 1000 0
       (WindowManager.fresh (Ok {[ "panelVisibilityMode" := "hidden" ]}))).2.2
  = Some {| WindowManager.destroyed := false; WindowManager.visible := false |}.
Proof.
  destruct (hotkey_toggles 1000 0
              (WindowManager.fresh (Ok {[ "panelVisibilityMode" := "hidden" ]}))
              {| WindowManager.destroyed := false; WindowManager.visible := false |}
              eq_refl ltac:(lia)) as (Hlive & _).
  destruct (Hlive eq_refl eq_refl) as (_ & Hsent & Hwin).
  split; [exact Hsent|exact Hwin].
Defined.

(** X23.  [sendStartDictation] never throws: it acts only on a live window.  In
    listening mode, without a window or with a destroyed one it does nothing. *)
Theorem sendStartDictation_safe (m : WindowManager.Manager) :
  (WindowManager.sendStartDictation m).1 = Ok tt ∧
  ((WindowManager.listeningMode m = true ∨
    WindowManager.mainWindow m = None ∨
    (exists win, WindowManager.mainWindow m = Some win ∧
                 WindowManager.destroyed win = true)) ->
   WindowManager.sendStartDictation m = (Ok tt, m)).
Proof.
  unfold WindowManager.sendStartDictation. split.
  - destruct (WindowManager.listeningMode m); [done|].
    destruct (WindowManager.mainWindow m) as [[d v]|] eqn:Hwin; [|done].
    destruct d; [done|]. simpl.
    destruct (getPanelVisibilityMode_window m) as (Hw & _).
    destruct (WindowManager.getPanelVisibilityMode m) as [mode m1]; simpl in *.
    rewrite Hwin in Hw.
    unfold WindowManager.showIfHidden, WindowManager.send.
    destruct (String.eqb mode "hidden"); simpl; rewrite Hw; simpl;
      [done|]. destruct v; simpl; by rewrite ?Hw.
  - intros [-> | [-> | (win & -> & ->)]]; [done| |]; by destruct (WindowManager.listeningMode m).
Qed.

Lemma sendStartDictation_safe_witness :
  WindowManager.sendStartDictation
    (WindowManager.set_mainWindow None (WindowManager.fresh (Ok ∅)))
  = (Ok tt, WindowManager.set_mainWindow None (WindowManager.fresh (Ok ∅))).
Proof.
  apply (sendStartDictation_safe
           (WindowManager.set_mainWindow None (WindowManager.fresh (Ok ∅)))).
  right. left. reflexivity.
Defined.

(** X24.  The load-failure dialog is shown once: after a first call, every further
    call, whatever window and error it reports, changes nothing. *)
Theorem load_failure_dialog_once (m : WindowManager.Manager) (name1 name2 : string)
    (code1 code2 : Z) (description1 description2 url1 url2 : string) :
  WindowManager.showLoadFailureDialog name2 code2 description2 url2
    (WindowManager.showLoadFailureDialog name1 code1 description1 url1 m)
  = WindowManager.showLoadFailureDialog name1 code1 description1 url1 m ∧
  length
    (WindowManager.dialogs
       (WindowManager.showLoadFailureDialog name1 code1 description1 url1 m))
  = (if WindowManager.loadErrorShown m then length (WindowManager.dialogs m)
     else S (length (WindowManager.dialogs m))).
Proof.
  unfold WindowManager.showLoadFailureDialog.
  destruct (WindowManager.loadErrorShown m) eqn:E; simpl; [by rewrite E|done].
Qed.
